(** * git-spice: branch-state store, branch create, branch fold, branch submit

    A shallow embedding of
      - [internal/state/store.go]: the branch-state store over a storage backend,
      - [branchCreateCmd.Run]: branch create, with --insert and --below,
      - [branchFoldCmd.Run]: branch fold,
      - [branch_submit.go]: the submit state machine,
    followed by the properties of these programs.

    Go values are modelled as follows: [string] is a Rocq [string], [git.Hash] is a
    [string], a slice is a [list], a nil-able pointer is an [option], an [error] is a
    value of the inductive [error] below, and a function that returns [(T, error)] returns
    a [Res T].  Code that talks to git, to the forge or to the terminal takes the
    answers of those collaborators from an environment record and appends the calls
    that have an effect to a trace of events. *)

From stdpp Require Import gmap strings list fin_maps sorting.
From Stdlib Require Import String Ascii.

Local Open Scope string_scope.
Local Open Scope list_scope.

(** ** Errors and results *)

(** An argument of a format string ([%d], [%q], [%v], [%s]). *)
Inductive arg :=
| ANat (n : nat)
| AStr (s : string)
| ABool (b : bool).

(** Go errors.  [Errorf fmt args] is [errors.New] or [fmt.Errorf] without [%w];
    [Wrapf fmt args e] is [fmt.Errorf] whose format wraps [e] with [%w];
    [Join2 e1 e2] is [errors.Join(e1, e2)] of two errors and [Join1 e] is
    [errors.Join(e, nil)]; [ErrExternal] is an error that comes from git, the forge
    or the terminal; the other sentinels are the package-level error variables.
    [Panic] stands for a panic raised by package [must]. *)
Inductive error :=
| ErrNotExist
| ErrAlreadyInitialized
| ErrUninitialized
| ErrNoPrompt
| BranchNeedsRestackError
| ErrExternal (what : string)
| Errorf (format : string) (args : list arg)
| Wrapf (format : string) (args : list arg) (wrapped : error)
| Join1 (e : error)
| Join2 (e1 e2 : error)
| Panic (format : string) (args : list arg).

(** [errors.Is(err, target)] for a sentinel target: walks the chain of wrapped errors. *)
Fixpoint errors_Is_NotExist (e : error) : bool :=
  match e with
  | ErrNotExist => true
  | Wrapf _ _ e' => errors_Is_NotExist e'
  | Join1 e' => errors_Is_NotExist e'
  | Join2 e1 e2 => errors_Is_NotExist e1 || errors_Is_NotExist e2
  | _ => false
  end.

(** [errors.As(err, &restackErr)] with [restackErr *spice.BranchNeedsRestackError]. *)
Fixpoint errors_As_NeedsRestack (e : error) : bool :=
  match e with
  | BranchNeedsRestackError => true
  | Wrapf _ _ e' => errors_As_NeedsRestack e'
  | Join1 e' => errors_As_NeedsRestack e'
  | Join2 e1 e2 => errors_As_NeedsRestack e1 || errors_As_NeedsRestack e2
  | _ => false
  end.

Inductive Res (A : Type) :=
| Ok (a : A)
| Err (e : error).
Arguments Ok {A} a.
Arguments Err {A} e.

Definition is_Ok {A} (r : Res A) : bool :=
  match r with Ok _ => true | Err _ => false end.

(** ** Go's [path.Join] and [path.Clean] *)

Module GoPath.

Definition slash : ascii := "/"%char.

(** The path elements between slashes; [cur] is the element being read. *)
Fixpoint split_slash (s : string) (cur : string) : list string :=
  match s with
  | EmptyString => [cur]
  | String c s' =>
      if Ascii.eqb c slash then cur :: split_slash s' EmptyString
      else split_slash s' (cur ++ String c EmptyString)
  end.

(** The loop of [path.Clean] over the elements of the path.  [out] is the output
    so far, last element first.  A [..] removes the element before it unless
    there is none or it is itself a [..]; then, in a rooted path it is dropped
    and in another path it is kept. *)
Fixpoint clean_elems (rooted : bool) (elems : list string) (out : list string)
  : list string :=
  match elems with
  | [] => rev out
  | e :: es =>
      if decide (e = "") then clean_elems rooted es out
      else if decide (e = ".") then clean_elems rooted es out
      else if decide (e = "..") then
        match out with
        | top :: out' =>
            if decide (top = "..") then clean_elems rooted es (".." :: out)
            else clean_elems rooted es out'
        | [] =>
            if rooted then clean_elems rooted es []
            else clean_elems rooted es [".."]
        end
      else clean_elems rooted es (e :: out)
  end.

Definition Clean (p : string) : string :=
  match p with
  | EmptyString => "."
  | String c _ =>
      let rooted := Ascii.eqb c slash in
      let out := clean_elems rooted (split_slash p EmptyString) [] in
      if rooted then "/" ++ String.concat "/" out
      else match out with
           | [] => "."
           | _ => String.concat "/" out
           end
  end.

(** The loop of [path.Join]: an element is appended, after a slash when the
    buffer is not empty, unless the buffer and the element are both empty. *)
Fixpoint join_buf (buf : string) (elem : list string) : string :=
  match elem with
  | [] => buf
  | e :: es =>
      if decide (buf = "") then
        if decide (e = "") then join_buf buf es else join_buf e es
      else join_buf (buf ++ "/" ++ e) es
  end.

Definition Join (elem : list string) : string :=
  if decide (String.concat "" elem = "") then ""
  else Clean (join_buf "" elem).

End GoPath.

(** ** [internal/state]: the branch-state store *)

Module State.

Definition _repoJSON : string := "repo".
Definition _branchesDir : string := "branches".

Record repoInfo := { ri_Trunk : string }.

Record branchStateBase := { bsb_Name : string; bsb_Hash : string }.

Record branchState := { bs_Base : branchStateBase; bs_PR : Z }.

(** [var b branchState]: every field has its zero value. *)
Definition zero_branchState : branchState :=
  {| bs_Base := {| bsb_Name := ""; bsb_Hash := "" |}; bs_PR := 0 |}.

(** *** The storage backend *)

(** A value handed to the backend ([setRequest.Val] has type [any]) and kept by it
    as a JSON blob: [nil], a [repoInfo] or a [branchState]. *)
Inductive value :=
| VNil
| VRepoInfo (r : repoInfo)
| VBranchState (st : branchState).

Record setRequest := { Key : string; Val : value }.

Record updateRequest := { Sets : list setRequest; Dels : list string; Msg : string }.

(** Modelled from the spec: the [storageBackend] behind the store (its [Get],
    [Update] and [Clear]) is not among the sources.  Following section 4.1 it is a
    key/value store whose state is the current snapshot, together with the
    messages of the commits that led to it; [get] of a missing key is
    [ErrNotExist]; [update] applies its sets, then its deletes, as one new
    snapshot; [clear] makes the snapshot empty. *)
Record storageBackend := { tree : gmap string value; commits : list string }.

(** Modelled from the spec: [storageBackend.Get], "get(key) -> bytes | ErrNotExist". *)
Definition backend_Get (b : storageBackend) (key : string) : Res value :=
  match tree b !! key with
  | Some v => Ok v
  | None => Err ErrNotExist
  end.

(** Modelled from the spec: the sets of [storageBackend.Update], applied in order. *)
Definition apply_sets (t : gmap string value) (sets : list setRequest)
  : gmap string value :=
  foldl (fun t st => <[Key st := Val st]> t) t sets.

(** Modelled from the spec: the deletes of [storageBackend.Update]. *)
Definition apply_dels (t : gmap string value) (dels : list string)
  : gmap string value :=
  foldl (fun t k => delete k t) t dels.

(** Modelled from the spec: [storageBackend.Update], "constructs a new tree from the
    current one, writes a commit with the given parent and message". *)
Definition backend_Update (b : storageBackend) (req : updateRequest)
  : Res unit * storageBackend :=
  (Ok tt,
   {| tree := apply_dels (apply_sets (tree b) (Sets req)) (Dels req);
      commits := commits b ++ [Msg req] |}).

(** Modelled from the spec: [storageBackend.Clear], "writes an empty tree as the new
    tip". *)
Definition backend_Clear (b : storageBackend) (msg : string)
  : Res unit * storageBackend :=
  (Ok tt, {| tree := ∅; commits := commits b ++ [msg] |}).

(** Modelled from the spec: the decoding that [storageBackend.Get] does, of the
    stored JSON into a [*repoInfo] or a [*branchState].  A blob of the other shape
    has none of the keys of the destination, and [null] leaves it as it is, so the
    destination keeps its zero value. *)
Definition decode_repoInfo (v : value) : repoInfo :=
  match v with
  | VRepoInfo r => r
  | _ => {| ri_Trunk := "" |}
  end.

(** Modelled from the spec: the same decoding into a [*branchState]. *)
Definition decode_branchState (v : value) : branchState :=
  match v with
  | VBranchState st => st
  | _ => zero_branchState
  end.

(** *** The store *)

Record Store := { b : storageBackend; trunk : string }.

Definition Trunk (s : Store) : string := trunk s.

Record InitStoreRequest := { isr_Trunk : string; isr_Force : bool }.

(** [InitStore]; [repo] is the state of the backend of [req.Repository]. *)
Definition InitStore (repo : storageBackend) (req : InitStoreRequest) : Res Store :=
  if decide (isr_Trunk req = "") then
    Err (Errorf "trunk branch name is required" [])
  else
    let cleared :=
      match backend_Get repo _repoJSON with
      | Ok _ =>
          if negb (isr_Force req) then Err ErrAlreadyInitialized
          else
            match backend_Clear repo "re-initializing store" with
            | (Err err, _) => Err (Wrapf "clear store: %w" [] err)
            | (Ok _, repo') => Ok repo'
            end
      | Err _ => Ok repo
      end in
    match cleared with
    | Err e => Err e
    | Ok repo1 =>
        match backend_Update repo1
                {| Sets := [ {| Key := _repoJSON;
                                Val := VRepoInfo {| ri_Trunk := isr_Trunk req |} |} ];
                   Dels := [];
                   Msg := "initialize store" |} with
        | (Err err, _) => Err (Wrapf "put repo state: %w" [] err)
        | (Ok _, repo2) => Ok {| b := repo2; trunk := isr_Trunk req |}
        end
    end.

Definition OpenStore (repo : storageBackend) : Res Store :=
  match backend_Get repo _repoJSON with
  | Err err =>
      if errors_Is_NotExist err then Err ErrUninitialized
      else Err (Wrapf "get repo state: %w" [] err)
  | Ok v => Ok {| b := repo; trunk := ri_Trunk (decode_repoInfo v) |}
  end.

Definition branchJSON (s : Store) (name : string) : string :=
  GoPath.Join [_branchesDir; name].

Record LookupResponse :=
  { lr_Name : string; lr_Base : string; lr_BaseHash : string; lr_PR : Z }.

Definition Lookup (s : Store) (name : string) : Res LookupResponse :=
  match backend_Get (b s) (branchJSON s name) with
  | Err err => Err (Wrapf "get branch state: %w" [] err)
  | Ok v =>
      let state := decode_branchState v in
      Ok {| lr_Name := name;
            lr_Base := bsb_Name (bs_Base state);
            lr_BaseHash := bsb_Hash (bs_Base state);
            lr_PR := bs_PR state |}
  end.

Record UpsertRequest :=
  { ur_Name : string; ur_Base : string; ur_BaseHash : string; ur_PR : option Z }.

Record UpdateRequest :=
  { Upserts : list UpsertRequest; Deletes : list string; Message : string }.

(** [make([]setRequest, n)]: a slice of [n] zero values. *)
Definition zero_setRequest : setRequest := {| Key := ""; Val := VNil |}.

(** The branch state that upsert [req] writes: the state found by [Lookup], or
    the zero state when there is none, with the fields that [req] gives. *)
Definition upsert_state (s : Store) (req : UpsertRequest) : Res branchState :=
  let prev :=
    match Lookup s (ur_Name req) with
    | Err err =>
        if negb (errors_Is_NotExist err) then Err (Wrapf "get branch: %w" [] err)
        else Ok zero_branchState
    | Ok prev =>
        Ok {| bs_PR := lr_PR prev;
              bs_Base := {| bsb_Name := lr_Base prev; bsb_Hash := lr_BaseHash prev |} |}
    end in
  match prev with
  | Err e => Err e
  | Ok st =>
      let st :=
        if decide (ur_Base req <> "")
        then {| bs_Base := {| bsb_Name := ur_Base req; bsb_Hash := bsb_Hash (bs_Base st) |};
                bs_PR := bs_PR st |}
        else st in
      let st :=
        if decide (ur_BaseHash req <> "")
        then {| bs_Base := {| bsb_Name := bsb_Name (bs_Base st); bsb_Hash := ur_BaseHash req |};
                bs_PR := bs_PR st |}
        else st in
      let st :=
        match ur_PR req with
        | Some n => {| bs_Base := bs_Base st; bs_PR := n |}
        | None => st
        end in
      Ok st
  end.

(** The loop of [Update] over [req.Upserts], from index [i], appending to [sets]. *)
Fixpoint Update_loop (s : Store) (i : nat) (upserts : list UpsertRequest)
  (sets : list setRequest) : Res (list setRequest) :=
  match upserts with
  | [] => Ok sets
  | req :: rest =>
      if decide (ur_Name req = "") then
        Err (Errorf "upsert [%d]: branch name is required" [ANat i])
      else if decide (ur_Name req = trunk s) then
        Err (Errorf "upsert [%d]: trunk branch is not managed by gs" [ANat i])
      else
        match upsert_state s req with
        | Err e => Err e
        | Ok st =>
            if decide (bsb_Name (bs_Base st) = "") then
              Err (Errorf "branch %q (%d) would have no base" [AStr (ur_Name req); ANat i])
            else
              Update_loop s (S i) rest
                (sets ++ [ {| Key := branchJSON s (ur_Name req); Val := VBranchState st |} ])
        end
  end.

(** The [sets] that [Update] builds: allocated with the length of [req.Upserts],
    then appended to. *)
Definition Update_sets (s : Store) (req : UpdateRequest) : Res (list setRequest) :=
  Update_loop s 0 (Upserts req) (replicate (List.length (Upserts req)) zero_setRequest).

(** [Store.Update]; [now] is [time.Now().Format(time.RFC3339)].  The result is
    the error returned, and the store with the state of its backend afterwards. *)
Definition Update (now : string) (s : Store) (req : UpdateRequest)
  : Res unit * Store :=
  let msg := if decide (Message req = "") then ("update at " ++ now)%string else Message req in
  match Update_sets s req with
  | Err e => (Err e, s)
  | Ok sets =>
      match backend_Update (b s) {| Sets := sets; Dels := Deletes req; Msg := msg |} with
      | (Err err, b') => (Err (Wrapf "update: %w" [] err), {| b := b'; trunk := trunk s |})
      | (Ok _, b') => (Ok tt, {| b := b'; trunk := trunk s |})
      end
  end.

End State.

(** ** [internal/spice/state] and [internal/spice]: the store and the service
       that branch fold and branch submit use *)

Module SpiceState.

(** The change request of a branch as the store keeps it: the id of the forge
    and the marshalled metadata. *)
Record ChangeRef := { cr_Forge : string; cr_Data : string }.

Record BranchRecord :=
  { br_Base : string;
    br_BaseHash : string;
    br_UpstreamBranch : string;
    br_Change : option ChangeRef }.

Record PreparedBranch := { pb_Name : string; pb_Subject : string; pb_Body : string }.

(** Modelled from the spec: package [internal/spice/state] ([Store.UpdateBranch],
    [LoadPreparedBranch], [SavePreparedBranch], [ClearPreparedBranch]) is not among
    the sources.  Following sections 3 and 4.2, the store holds the trunk name, one
    record per tracked branch, at most one prepared branch per branch, and the
    messages of its updates. *)
Record Store :=
  { trunk : string;
    branches : gmap string BranchRecord;
    prepared : gmap string PreparedBranch;
    messages : list string }.

(** Modelled from the spec: [Store.Trunk]. *)
Definition Trunk (s : Store) : string := trunk s.

(** The fields of [state.UpsertRequest] that the commands set.  An empty string,
    or [None] for the nil metadata, leaves the stored value as it is. *)
Record UpsertRequest :=
  { ur_Name : string;
    ur_Base : string;
    ur_BaseHash : string;
    ur_UpstreamBranch : string;
    ur_ChangeForge : string;
    ur_ChangeMetadata : option string }.

Definition upsert_of_name (name : string) : UpsertRequest :=
  {| ur_Name := name; ur_Base := ""; ur_BaseHash := ""; ur_UpstreamBranch := "";
     ur_ChangeForge := ""; ur_ChangeMetadata := None |}.

Record UpdateRequest :=
  { Upserts : list UpsertRequest; Deletes : list string; Message : string }.

Definition zero_record : BranchRecord :=
  {| br_Base := ""; br_BaseHash := ""; br_UpstreamBranch := ""; br_Change := None |}.

(** Modelled from the spec: "omitted fields preserve prior values". *)
Definition merge_upsert (prev : BranchRecord) (u : UpsertRequest) : BranchRecord :=
  {| br_Base := if decide (ur_Base u = "") then br_Base prev else ur_Base u;
     br_BaseHash := if decide (ur_BaseHash u = "") then br_BaseHash prev else ur_BaseHash u;
     br_UpstreamBranch :=
       if decide (ur_UpstreamBranch u = "") then br_UpstreamBranch prev
       else ur_UpstreamBranch u;
     br_Change :=
       match ur_ChangeMetadata u with
       | Some data => Some {| cr_Forge := ur_ChangeForge u; cr_Data := data |}
       | None => br_Change prev
       end |}.

(** Modelled from the spec: "any upsert with name == trunk is rejected" and "new
    records require base-name non-empty"; every upsert reads the records as they
    were before the update. *)
Fixpoint apply_upserts (s : Store) (upserts : list UpsertRequest)
  (acc : gmap string BranchRecord) : Res (gmap string BranchRecord) :=
  match upserts with
  | [] => Ok acc
  | u :: rest =>
      if decide (ur_Name u = trunk s) then
        Err (Errorf "trunk branch is not managed" [AStr (ur_Name u)])
      else
        let rec := merge_upsert (default zero_record (branches s !! ur_Name u)) u in
        if decide (br_Base rec = "") then
          Err (Errorf "branch %q would have no base" [AStr (ur_Name u)])
        else apply_upserts s rest (<[ur_Name u := rec]> acc)
  end.

(** Modelled from the spec: "compute the base chain of the upsert and fail if name
    reappears".  The chain from [cur] is followed for at most [fuel] records. *)
Fixpoint chain_revisits (m : gmap string BranchRecord) (name cur : string)
  (fuel : nat) : bool :=
  match fuel with
  | O => false
  | S fuel' =>
      if decide (cur = name) then true
      else match m !! cur with
           | Some r => chain_revisits m name (br_Base r) fuel'
           | None => false
           end
  end.

(** Modelled from the spec: the cycle check of one upsert, on the records as the
    upserts leave them. *)
Definition upsert_cyclic (m : gmap string BranchRecord) (u : UpsertRequest) : bool :=
  match m !! ur_Name u with
  | Some r => chain_revisits m (ur_Name u) (br_Base r) (S (size m))
  | None => false
  end.

(** Modelled from the spec: the deletes of an update, by branch name. *)
Definition apply_deletes (m : gmap string BranchRecord) (dels : list string)
  : gmap string BranchRecord :=
  foldl (fun m k => delete k m) m dels.

(** Modelled from the spec: [Store.UpdateBranch], one atomic update made of the
    upserts, then the deletes, under one message. *)
Definition UpdateBranch (s : Store) (req : UpdateRequest) : Res unit * Store :=
  match apply_upserts s (Upserts req) (branches s) with
  | Err e => (Err e, s)
  | Ok m =>
      if existsb (upsert_cyclic m) (Upserts req) then
        (Err (Errorf "update would create a cycle" []), s)
      else
        (Ok tt,
         {| trunk := trunk s;
            branches := apply_deletes m (Deletes req);
            prepared := prepared s;
            messages := messages s ++ [Message req] |})
  end.

(** Modelled from the spec: [Store.LoadPreparedBranch], the prepared branch of
    [name], if any. *)
Definition LoadPreparedBranch (s : Store) (name : string) : Res (option PreparedBranch) :=
  Ok (prepared s !! name).

(** Modelled from the spec: [Store.SavePreparedBranch], "at most one per branch". *)
Definition SavePreparedBranch (s : Store) (pb : PreparedBranch) : Res unit * Store :=
  (Ok tt,
   {| trunk := trunk s; branches := branches s;
      prepared := <[pb_Name pb := pb]> (prepared s);
      messages := messages s |}).

(** Modelled from the spec: [Store.ClearPreparedBranch]. *)
Definition ClearPreparedBranch (s : Store) (name : string) : Res unit * Store :=
  (Ok tt,
   {| trunk := trunk s; branches := branches s;
      prepared := delete name (prepared s);
      messages := messages s |}).

(** *** The service *)

(** What [Service.LookupBranch] returns, as far as the commands read it. *)
Record LookupBranchResponse :=
  { lb_Base : string;
    lb_BaseHash : string;
    lb_UpstreamBranch : string;
    lb_Change : option ChangeRef }.

(** Modelled from the spec: [Service.LookupBranch], the record of a tracked branch
    or [ErrNotExist]. *)
Definition LookupBranch (s : Store) (name : string) : Res LookupBranchResponse :=
  match branches s !! name with
  | None => Err ErrNotExist
  | Some r =>
      Ok {| lb_Base := br_Base r; lb_BaseHash := br_BaseHash r;
            lb_UpstreamBranch := br_UpstreamBranch r; lb_Change := br_Change r |}
  end.

(** Modelled from the spec: [Service.VerifyRestacked], "compute the actual
    fork-point between b and base-name, and demand it equals the stored
    base-hash"; [forkPoint a b] is git's answer. *)
Definition VerifyRestacked (forkPoint : string -> string -> Res string)
  (s : Store) (name : string) : Res unit :=
  match branches s !! name with
  | None => Err ErrNotExist
  | Some r =>
      match forkPoint (br_Base r) name with
      | Err e => Err (Wrapf "find fork point: %w" [] e)
      | Ok h => if decide (h = br_BaseHash r) then Ok tt else Err BranchNeedsRestackError
      end
  end.

Definition string_le (a b : string) : Prop := String.leb a b = true.

#[global] Instance string_le_dec (a b : string) : Decision (string_le a b).
Proof. unfold string_le. apply _. Defined.

(** Modelled from the spec: [Service.ListAbove], "children(b) = branches whose
    base-name == b", sorted by name. *)
Definition ListAbove (s : Store) (base : string) : Res (list string) :=
  Ok (merge_sort string_le
        (map fst (filter (fun kv => br_Base (snd kv) = base) (map_to_list (branches s))))).

End SpiceState.

(** ** The collaborators: git, the forge, the log *)

Module Git.

Record CommitMessage := { cm_Subject : string; cm_Body : string }.

Record CommitRequest := { cr_AllowEmpty : bool; cr_Message : string }.

Record CreateBranchRequest := { cbr_Name : string; cbr_Head : string }.

Record FetchOptions := { fo_Remote : string; fo_Refspecs : list string }.

Record BranchDeleteOptions := { bdo_Force : bool }.

Record PushOptions :=
  { po_Remote : string; po_Refspec : string; po_Force : bool; po_ForceWithLease : string }.

(** The answers of [*git.Repository] to the calls that the commands make. *)
Record Repository :=
  { CurrentBranch : Res string;
    PeelToCommit : string -> Res string;
    DiffIndex : string -> Res (list string);
    ForkPoint : string -> string -> Res string;
    CommitMessageRange : string -> string -> Res (list CommitMessage);
    DetachHead : string -> Res unit;
    Commit : CommitRequest -> Res unit;
    CreateBranch : CreateBranchRequest -> Res unit;
    Checkout : string -> Res unit;
    Fetch : FetchOptions -> Res unit;
    DeleteBranch : string -> BranchDeleteOptions -> Res unit;
    Push : PushOptions -> Res unit;
    SetBranchUpstream : string -> string -> Res unit }.

End Git.

Module Forge.

Inductive ChangeState := ChangeOpen | ChangeMerged | ChangeClosed.

Record FindChangesOptions := { fco_State : ChangeState; fco_Limit : nat }.

Record FindChangeItem :=
  { fci_ID : string;
    fci_URL : string;
    fci_HeadHash : string;
    fci_BaseName : string;
    fci_Draft : bool }.

Record SubmitChangeRequest :=
  { scr_Subject : string; scr_Body : string; scr_Head : string; scr_Base : string;
    scr_Draft : bool }.

Record SubmitChangeResult := { res_ID : string; res_URL : string }.

Record EditChangeOptions := { eco_Base : string; eco_Draft : option bool }.

Record ChangeTemplate := { ct_Filename : string; ct_Body : string }.

(** [forge.ChangeMetadata]: the id of its forge and the id of the change. *)
Record ChangeMetadata := { md_ForgeID : string; md_ChangeID : string }.

(** The answers of [forge.Repository] and of its [Forge()]. *)
Record Repository :=
  { FindChangesByBranch : string -> FindChangesOptions -> Res (list FindChangeItem);
    FindChangeByID : string -> Res FindChangeItem;
    NewChangeMetadata : string -> Res ChangeMetadata;
    MarshalChangeMetadata : ChangeMetadata -> Res string;
    SubmitChange : SubmitChangeRequest -> Res SubmitChangeResult;
    EditChange : string -> EditChangeOptions -> Res unit;
    ListChangeTemplates : Res (list ChangeTemplate) }.

End Forge.

Inductive Level := Info | Warn | Error.

(** The calls with an effect on the repository, on the forge, on a store or on the
    log, in the order in which a command makes them. *)
Inductive Event :=
| EvDetachHead (ref : string)
| EvCommit (req : Git.CommitRequest)
| EvCreateBranch (req : Git.CreateBranchRequest)
| EvCheckout (branch : string)
| EvFetch (opts : Git.FetchOptions)
| EvDeleteBranch (branch : string) (opts : Git.BranchDeleteOptions)
| EvPush (opts : Git.PushOptions)
| EvSetBranchUpstream (branch upstream : string)
| EvSubmitChange (req : Forge.SubmitChangeRequest)
| EvEditChange (id : string) (opts : Forge.EditChangeOptions)
| EvStateUpdate (req : State.UpdateRequest)
| EvUpdateBranch (req : SpiceState.UpdateRequest)
| EvSavePreparedBranch (pb : SpiceState.PreparedBranch)
| EvClearPreparedBranch (name : string)
| EvUpstackRestack
| EvBranchCheckout (branch : string)
| EvSyncStackComments (branches : list string)
| EvLog (level : Level) (format : string) (args : list arg).

(** ** Commands as state transformers *)

(** The world of a command: the store it works on and the events so far. *)
Record World (S : Type) := mkWorld { store : S; trace : list Event }.
Arguments mkWorld {S} store trace.
Arguments store {S} w.
Arguments trace {S} w.

Section Monad.
Context {S : Type}.

Definition M (A : Type) : Type := World S -> Res A * World S.

Definition ret {A} (a : A) : M A := fun w => (Ok a, w).

Definition fail {A} (e : error) : M A := fun w => (Err e, w).

Definition bind {A B} (m : M A) (k : A -> M B) : M B :=
  fun w =>
    match m w with
    | (Ok a, w') => k a w'
    | (Err e, w') => (Err e, w')
    end.

Definition lift {A} (r : Res A) : M A := fun w => (r, w).

Definition emit (ev : Event) : M unit :=
  fun w => (Ok tt, mkWorld (store w) (trace w ++ [ev])).

Definition get_store : M S := fun w => (Ok (store w), w).

(** A call of a store method: the method maps the store to its result and the
    store afterwards; [ev] records the call. *)
Definition on_store {A} (ev : Event) (f : S -> Res A * S) : M A :=
  fun w =>
    let '(r, s') := f (store w) in
    (r, mkWorld s' (trace w ++ [ev])).

(** What the caller does with an error: [if err != nil { ... }] without a return. *)
Definition catch {A} (m : M A) : M (Res A) :=
  fun w => let '(r, w') := m w in (Ok r, w').

End Monad.

Notation "'let*' x ':=' m 'in' k" := (bind m (fun x => k))
  (at level 10, x pattern, m at level 200, k at level 200).

(** [fmt.Errorf(format, args..., err)], whose format wraps [err] with [%w], around
    a result. *)
Definition wrap {A} (format : string) (args : list arg) (r : Res A) : Res A :=
  match r with
  | Ok a => Ok a
  | Err e => Err (Wrapf format args e)
  end.

(** A call with an effect: the event, then the answer of the collaborator. *)
Definition call {S A} (ev : Event) (r : Res A) : M (S:=S) A :=
  let* _ := emit ev in lift r.

Definition logf {S} (level : Level) (format : string) (args : list arg) : M (S:=S) unit :=
  emit (EvLog level format args).

(** [errors.Join(err, r)] where [r] is the error, or nil, of a second call. *)
Definition errors_Join (err : error) (r : Res unit) : error :=
  match r with
  | Ok _ => Join1 err
  | Err e2 => Join2 err e2
  end.

(** ** [branch create] *)

Module BranchCreate.

Record branchCreateCmd :=
  { Name : string; Insert : bool; Below : bool; Message : string }.

(** What [Run] takes from outside: [git.Open], [ensureStore] (the store it opens is
    the store of the world), [Service.ListAbove], the clock of [Store.Update], and
    the command [upstackRestackCmd], which maps the store to its error and the store
    afterwards. *)
Record Env :=
  { git_Open : Res Git.Repository;
    ensureStore : Res unit;
    ListAbove : string -> Res (list string);
    now : string;
    upstackRestackCmd_Run : State.Store -> Res unit * State.Store }.

(** The message of the store update. *)
Definition update_message (cmd : branchCreateCmd) (baseName : string) : string :=
  if Below cmd then
    ("insert branch " ++ Name cmd ++ " below " ++ baseName)%string
  else if Insert cmd then
    ("insert branch " ++ Name cmd ++ " above " ++ baseName)%string
  else ("create branch " ++ Name cmd)%string.

(** The base of the new branch and the branches to restack on top of it. *)
Definition choose_base (env : Env) (cmd : branchCreateCmd) (store : State.Store)
  (currentBranch currentHash : string)
  : M (S:=State.Store) (string * string * list string) :=
  let trunk := State.Trunk store in
  if Below cmd then
    if decide (currentBranch = trunk) then
      let* _ := logf Error "--below: cannot create a branch below trunk" [] in
      fail (Errorf "--below cannot be used from  %v" [AStr trunk])
    else
      match State.Lookup store currentBranch with
      | Err _ => fail (Errorf "branch not tracked: %v" [AStr currentBranch])
      | Ok b => ret (State.lr_Base b, State.lr_BaseHash b, [currentBranch])
      end
  else if Insert cmd then
    let* aboves :=
      lift (wrap "list branches above %s: %w" [AStr currentBranch]
              (ListAbove env currentBranch)) in
    ret (currentBranch, currentHash, aboves)
  else ret (currentBranch, currentHash, []).

(** The upserts of the store update: the new branch, then every branch to restack
    on top of it. *)
Definition upserts_of (cmd : branchCreateCmd) (baseName baseHash : string)
  (restackOntoNew : list string) : list State.UpsertRequest :=
  {| State.ur_Name := Name cmd; State.ur_Base := baseName;
     State.ur_BaseHash := baseHash; State.ur_PR := None |}
  :: map (fun branch =>
            {| State.ur_Name := branch; State.ur_Base := Name cmd;
               State.ur_BaseHash := ""; State.ur_PR := None |})
       restackOntoNew.

(** [Run] from the commit to the end: the part that the deferred function guards. *)
Definition after_detach (env : Env) (repo : Git.Repository) (cmd : branchCreateCmd)
  (diff : list string) (baseName baseHash : string) (restackOntoNew : list string)
  : M (S:=State.Store) unit :=
  let commitReq :=
    {| Git.cr_AllowEmpty := bool_decide (List.length diff = 0);
       Git.cr_Message := Message cmd |} in
  let* _ := call (EvCommit commitReq) (wrap "commit: %w" [] (Git.Commit repo commitReq)) in
  let createReq := {| Git.cbr_Name := Name cmd; Git.cbr_Head := "HEAD" |} in
  let* _ := call (EvCreateBranch createReq)
              (wrap "create branch: %w" [] (Git.CreateBranch repo createReq)) in
  let* _ := call (EvCheckout (Name cmd))
              (wrap "checkout branch: %w" [] (Git.Checkout repo (Name cmd))) in
  let req :=
    {| State.Upserts := upserts_of cmd baseName baseHash restackOntoNew;
       State.Deletes := [];
       State.Message := update_message cmd baseName |} in
  let* _ := on_store (EvStateUpdate req)
              (fun s => let '(r, s') := State.Update (now env) s req in
                        (wrap "update state: %w" [] r, s')) in
  if Below cmd || Insert cmd then
    on_store EvUpstackRestack (upstackRestackCmd_Run env)
  else ret tt.

(** The deferred function of [Run]: on an error, check out the original branch and
    join the error of that with the error returned. *)
Definition restore_on_error (repo : Git.Repository) (currentBranch : string)
  (body : M (S:=State.Store) unit) : M (S:=State.Store) unit :=
  fun w =>
    match body w with
    | (Ok a, w') => (Ok a, w')
    | (Err err, w') =>
        (Err (errors_Join err (Git.Checkout repo currentBranch)),
         mkWorld (store w') (trace w' ++ [EvCheckout currentBranch]))
    end.

Definition Run (env : Env) (cmd : branchCreateCmd) : M (S:=State.Store) unit :=
  let* repo := lift (wrap "open repository: %w" [] (git_Open env)) in
  let* _ := lift (ensureStore env) in
  let* store := get_store in
  if decide (Name cmd = "") then fail (Errorf "branch name is required" []) else
  let* currentBranch :=
    lift (wrap "get current branch: %w" [] (Git.CurrentBranch repo)) in
  let* currentHash := lift (wrap "peel to tree: %w" [] (Git.PeelToCommit repo "HEAD")) in
  let* diff := lift (wrap "diff index: %w" [] (Git.DiffIndex repo currentHash)) in
  let* (baseName, baseHash, restackOntoNew) :=
    choose_base env cmd store currentBranch currentHash in
  let* _ := call (EvDetachHead baseName)
              (wrap "detach head: %w" [] (Git.DetachHead repo baseName)) in
  restore_on_error repo currentBranch
    (after_detach env repo cmd diff baseName baseHash restackOntoNew).

End BranchCreate.

(** ** [branch fold] *)

Module BranchFold.

Record branchFoldCmd := { Branch : string }.

(** What [Run] takes from outside: [openRepo] (the store it opens is the store of
    the world; the service works on that store and on the repository) and the
    command [branchCheckoutCmd]. *)
Record Env :=
  { openRepo : Res Git.Repository;
    branchCheckoutCmd_Run : string -> Res unit }.

Definition fold_upserts (aboves : list string) (base newBaseHash : string)
  : list SpiceState.UpsertRequest :=
  map (fun above =>
         {| SpiceState.ur_Name := above;
            SpiceState.ur_Base := base;
            SpiceState.ur_BaseHash := newBaseHash;
            SpiceState.ur_UpstreamBranch := "";
            SpiceState.ur_ChangeForge := "";
            SpiceState.ur_ChangeMetadata := None |})
    aboves.

Definition fold_request (branch : string) (aboves : list string)
  (base newBaseHash : string) : SpiceState.UpdateRequest :=
  {| SpiceState.Upserts := fold_upserts aboves base newBaseHash;
     SpiceState.Deletes := [branch];
     SpiceState.Message := ("folding " ++ branch ++ " into " ++ base)%string |}.

(** [cmd.Branch] once it has been set: the current branch when the flag is empty. *)
Definition target_branch (repo : Git.Repository) (cmd : branchFoldCmd) : Res string :=
  if decide (Branch cmd = "") then
    wrap "get current branch: %w" [] (Git.CurrentBranch repo)
  else Ok (Branch cmd).

Definition Run (env : Env) (cmd : branchFoldCmd) : M (S:=SpiceState.Store) unit :=
  let* repo := lift (openRepo env) in
  let* branch := lift (target_branch repo cmd) in
  let* store := get_store in
  match SpiceState.VerifyRestacked (Git.ForkPoint repo) store branch with
  | Err err =>
      if errors_Is_NotExist err then
        fail (Errorf "branch %v not tracked" [AStr branch])
      else if errors_As_NeedsRestack err then
        fail (Errorf "branch %v needs to be restacked before it can be folded"
                [AStr branch])
      else fail (Wrapf "verify restacked: %w" [] err)
  | Ok _ =>
      let* b := lift (wrap "get branch: %w" [] (SpiceState.LookupBranch store branch)) in
      let base := SpiceState.lb_Base b in
      let* aboves := lift (wrap "list above: %w" [] (SpiceState.ListAbove store branch)) in
      let fetchOpts :=
        {| Git.fo_Remote := ".";
           Git.fo_Refspecs := [(branch ++ ":" ++ base)%string] |} in
      let* _ := call (EvFetch fetchOpts)
                  (wrap "update base branch: %w" [] (Git.Fetch repo fetchOpts)) in
      let* newBaseHash :=
        lift (wrap "peel to commit: %w" [] (Git.PeelToCommit repo base)) in
      let req := fold_request branch aboves base newBaseHash in
      let* _ := on_store (EvUpdateBranch req)
                  (fun s => let '(r, s') := SpiceState.UpdateBranch s req in
                            (wrap "upsert branches: %w" [] r, s')) in
      let* _ := call (EvBranchCheckout base)
                  (wrap "checkout base: %w" [] (branchCheckoutCmd_Run env base)) in
      let delOpts := {| Git.bdo_Force := true |} in
      let* _ := call (EvDeleteBranch branch delOpts)
                  (wrap "delete branch: %w" [] (Git.DeleteBranch repo branch delOpts)) in
      logf Info "Branch %v has been folded into %v" [AStr branch; AStr base]
  end.

End BranchFold.

(** ** [branch submit] *)

Module BranchSubmit.

(** [branchSubmitCmd] with the embedded [submitOptions]. *)
Record branchSubmitCmd :=
  { DryRun : bool;
    Fill : bool;
    Draft : option bool;
    NoPublish : bool;
    Force : bool;
    Title : string;
    Body : string;
    Branch : string }.

Record globalOptions := { Prompt : bool }.

(** [submitSession]: the remote and the remote repository, looked up once, and the
    branches submitted. *)
Record submitSession :=
  { ss_remote : option string;
    ss_remoteRepo : option Forge.Repository;
    ss_branches : list string }.

Definition zero_session : submitSession :=
  {| ss_remote := None; ss_remoteRepo := None; ss_branches := [] |}.

(** The state that [run] works on: the store and the session. *)
Record SubmitState := { st_store : SpiceState.Store; st_session : submitSession }.

Inductive Field := TitleField | TemplateField | BodyField | DraftField.

#[global] Instance Field_eq_dec : EqDecision Field.
Proof. solve_decision. Defined.

(** What the command takes from outside: [openRepo] (the store it opens is the
    store of the world), [ensureRemote], [openRemoteRepository], the change id that
    the forge reads from a stored change ([branch.Change.ChangeID()]), the terminal
    (the answer to the recovery prompt; the values of title, body and draft after
    the form has run), [fmt.Sprint] of the pointer [cmd.Draft], and
    [syncStackComments]. *)
Record Env :=
  { openRepo : Res Git.Repository;
    ensureRemote : Res string;
    openRemoteRepository : string -> Res Forge.Repository;
    ChangeID : SpiceState.ChangeRef -> string;
    ui_Recover : Res bool;
    form_Run : list Field -> string -> string -> option bool
               -> Res (string * string * option bool);
    Sprint_Draft : string;
    syncStackComments : list string -> Res unit }.

Definition with_store {A} (ev : Event)
  (f : SpiceState.Store -> Res A * SpiceState.Store) : M (S:=SubmitState) A :=
  on_store ev
    (fun st =>
       let '(r, s') := f (st_store st) in
       (r, {| st_store := s'; st_session := st_session st |})).

Definition set_session (f : submitSession -> submitSession) : M (S:=SubmitState) unit :=
  fun w =>
    (Ok tt,
     mkWorld {| st_store := st_store (store w); st_session := f (st_session (store w)) |}
       (trace w)).

(** [session.remote.Get(...)]: the remote of the session, looked up on first use. *)
Definition session_remote (env : Env) : M (S:=SubmitState) string :=
  let* st := get_store in
  match ss_remote (st_session st) with
  | Some r => ret r
  | None =>
      let* r := lift (ensureRemote env) in
      let* _ := set_session (fun ss =>
                  {| ss_remote := Some r; ss_remoteRepo := ss_remoteRepo ss;
                     ss_branches := ss_branches ss |}) in
      ret r
  end.

Definition session_remoteRepo (env : Env) (remote : string)
  : M (S:=SubmitState) Forge.Repository :=
  let* st := get_store in
  match ss_remoteRepo (st_session st) with
  | Some r => ret r
  | None =>
      let* r := lift (openRemoteRepository env remote) in
      let* _ := set_session (fun ss =>
                  {| ss_remote := ss_remote ss; ss_remoteRepo := Some r;
                     ss_branches := ss_branches ss |}) in
      ret r
  end.

(** [upstreamBranch]: the name under which the branch was pushed, if any. *)
Definition upstream_name (branch : SpiceState.LookupBranchResponse) (name : string)
  : string :=
  if decide (SpiceState.lb_UpstreamBranch branch <> "")
  then SpiceState.lb_UpstreamBranch branch else name.

Definition adopt_request (name : string) (md : Forge.ChangeMetadata) (changeMeta : string)
  : SpiceState.UpdateRequest :=
  {| SpiceState.Upserts :=
       [ {| SpiceState.ur_Name := name;
            SpiceState.ur_Base := "";
            SpiceState.ur_BaseHash := "";
            SpiceState.ur_UpstreamBranch := "";
            SpiceState.ur_ChangeForge := Forge.md_ForgeID md;
            SpiceState.ur_ChangeMetadata := Some changeMeta |} ];
     SpiceState.Deletes := [];
     SpiceState.Message := (name ++ ": associate existing CR")%string |}.

Definition find_options : Forge.FindChangesOptions :=
  {| Forge.fco_State := Forge.ChangeOpen; Forge.fco_Limit := 3 |}.

(** The change request of the branch, if there is one: [existingChange]. *)
Definition find_existing (env : Env) (remoteRepo : Forge.Repository) (name : string)
  (branch : SpiceState.LookupBranchResponse) (upstreamBranch : string)
  : M (S:=SubmitState) (option Forge.FindChangeItem) :=
  match SpiceState.lb_Change branch with
  | None =>
      let* changes :=
        lift (wrap "list changes: %w" []
                (Forge.FindChangesByBranch remoteRepo upstreamBranch find_options)) in
      match changes with
      | [] => ret None
      | [existingChange] =>
          let* md :=
            lift (wrap "get change metadata: %w" []
                    (Forge.NewChangeMetadata remoteRepo (Forge.fci_ID existingChange))) in
          let* changeMeta :=
            lift (wrap "marshal change metadata: %w" []
                    (Forge.MarshalChangeMetadata remoteRepo md)) in
          let* _ := logf Info "%v: Found existing CR %v"
                      [AStr name; AStr (Forge.fci_ID existingChange)] in
          let req := adopt_request name md changeMeta in
          let* _ := with_store (EvUpdateBranch req)
                      (fun s => let '(r, s') := SpiceState.UpdateBranch s req in
                                (wrap "update state: %w" [] r, s')) in
          ret (Some existingChange)
      | _ => fail (Errorf "multiple open change requests for %s" [AStr name])
      end
  | Some change =>
      let* change :=
        lift (wrap "find change: %w" []
                (Forge.FindChangeByID remoteRepo (ChangeID env change))) in
      ret (Some change)
  end.

(** [git.PushOptions] of both pushes: a lease on the hash of the remote branch
    unless the push is forced or the remote branch does not resolve. *)
Definition push_options (repo : Git.Repository) (cmd : branchSubmitCmd)
  (remote commitHash upstreamBranch : string) : Git.PushOptions :=
  {| Git.po_Remote := remote;
     Git.po_Refspec := (commitHash ++ ":refs/heads/" ++ upstreamBranch)%string;
     Git.po_Force := Force cmd;
     Git.po_ForceWithLease :=
       if negb (Force cmd) then
         match Git.PeelToCommit repo (remote ++ "/" ++ upstreamBranch)%string with
         | Ok existingHash => (upstreamBranch ++ ":" ++ existingHash)%string
         | Err _ => ""
         end
       else "" |}.

(** *** Preparing and publishing a new change request *)

(** Two line feeds. *)
Definition nl2 : string := String "010"%char (String "010"%char EmptyString).

(** The loop that builds the default body from several commits; [msgs] is in the
    order of the iteration, oldest commit first. *)
Fixpoint concat_messages (defaultBody : string) (msgs : list Git.CommitMessage)
  : string :=
  match msgs with
  | [] => defaultBody
  | msg :: rest =>
      let b1 := if decide (defaultBody = "") then defaultBody
                else (defaultBody ++ nl2)%string in
      let b2 := (b1 ++ Git.cm_Subject msg)%string in
      let b3 := if decide (Git.cm_Body msg <> "")
                then (b2 ++ nl2 ++ Git.cm_Body msg)%string else b2 in
      concat_messages b3 rest
  end.

(** [defaultTitle] and [defaultBody]; [msgs] is not empty and has the newest
    commit first. *)
Definition default_title_body (msgs : list Git.CommitMessage) : string * string :=
  match msgs with
  | [msg] => (Git.cm_Subject msg, Git.cm_Body msg)
  | _ =>
      (match last msgs with Some msg => Git.cm_Subject msg | None => "" end,
       concat_messages "" (rev msgs))
  end.

Definition is_space (c : ascii) : bool :=
  let n := nat_of_ascii c in
  (Nat.leb 9 n && Nat.leb n 13) || Nat.eqb n 32.

(** [strings.TrimSpace(s) == ""], for the white space of ASCII. *)
Fixpoint is_blank (s : string) : bool :=
  match s with
  | EmptyString => true
  | String c s' => is_space c && is_blank s'
  end.

(** [preparedBranch]: the embedded [state.PreparedBranch], head, base and draft. *)
Record preparedBranch :=
  { pb_Prepared : SpiceState.PreparedBranch;
    pb_head : string;
    pb_base : string;
    pb_draft : bool }.

(** The prompt of [preparePublish], entered when there are fields to ask for and
    [--fill] is not set: it returns title, body and draft as the user leaves them. *)
Definition prompt_fields (env : Env) (opts : globalOptions) (name : string)
  (fields : list Field) (title body : string) (draft : option bool)
  : M (S:=SubmitState) (string * string * option bool) :=
  if negb (Prompt opts) then
    fail (Wrapf "prompt for commit information: %w" [] ErrNoPrompt)
  else
    let* st := get_store in
    let* (title, body) :=
      match SpiceState.LoadPreparedBranch (st_store st) name with
      | Ok (Some prePrepared) =>
          let* usePrepared := lift (wrap "prompt for recovery: %w" [] (ui_Recover env)) in
          if usePrepared : bool then
            ret (SpiceState.pb_Subject prePrepared, SpiceState.pb_Body prePrepared)
          else
            let* r := catch (with_store (EvClearPreparedBranch name)
                               (fun s => SpiceState.ClearPreparedBranch s name)) in
            let* _ := match r with
                      | Err _ => logf Warn "Could not clear prepared branch information" []
                      | Ok _ => ret tt
                      end in
            ret (title, body)
      | _ => ret (title, body)
      end in
    let* (t', b', d') :=
      lift (wrap "prompt form: %w" [] (form_Run env fields title body draft)) in
    ret (if decide (TitleField ∈ fields) then t' else title,
         if decide (BodyField ∈ fields) then b' else body,
         if decide (DraftField ∈ fields) then d' else draft).

(** [preparePublish].  The goroutine that lists the change templates is run at
    once: [tmpls] is what the channel delivers. *)
Definition preparePublish (env : Env) (opts : globalOptions) (cmd : branchSubmitCmd)
  (name : string) (repo : Git.Repository) (remoteRepo : Forge.Repository)
  (baseBranch : string) : M (S:=SubmitState) preparedBranch :=
  let* tmpls :=
    match Forge.ListChangeTemplates remoteRepo with
    | Err _ => let* _ := logf Warn "Could not list change templates" [] in ret []
    | Ok templates => ret templates
    end in
  let* msgs := lift (wrap "list commits: %w" [] (Git.CommitMessageRange repo name baseBranch)) in
  if decide (List.length msgs = 0) then fail (Errorf "no commits to submit" []) else
  let '(defaultTitle, defaultBody) := default_title_body msgs in
  let '(title, fields) :=
    if decide (Title cmd = "") then (defaultTitle, [TitleField]) else (Title cmd, []) in
  let '(body, fields) :=
    if decide (Body cmd = "") then
      if Fill cmd then
        (match tmpls with
         | t :: _ => (defaultBody ++ nl2 ++ Forge.ct_Body t)%string
         | [] => defaultBody
         end, fields)
      else (defaultBody, fields ++ [TemplateField; BodyField])
    else (Body cmd, fields) in
  let '(draft, fields) :=
    match Draft cmd with
    | None => if Prompt opts then (Some false, fields ++ [DraftField]) else (None, fields)
    | Some d => (Some d, fields)
    end in
  let* (title, body, draft) :=
    if bool_decide (0 < List.length fields) && negb (Fill cmd) then
      prompt_fields env opts name fields title body draft
    else ret (title, body, draft) in
  if is_blank title then fail (Panic "CR title must have been set" []) else
  let storePrepared :=
    {| SpiceState.pb_Name := name; SpiceState.pb_Subject := title;
       SpiceState.pb_Body := body |} in
  let* r := catch (with_store (EvSavePreparedBranch storePrepared)
                     (fun s => SpiceState.SavePreparedBranch s storePrepared)) in
  let* _ := match r with
            | Err _ => logf Warn "Could not save prepared branch. Will be unable to recover CR metadata if the push fails." []
            | Ok _ => ret tt
            end in
  ret {| pb_Prepared := storePrepared;
         pb_draft := default false draft;
         pb_head := name;
         pb_base := baseBranch |}.

Definition submit_request (p : preparedBranch) : Forge.SubmitChangeRequest :=
  {| Forge.scr_Subject := SpiceState.pb_Subject (pb_Prepared p);
     Forge.scr_Body := SpiceState.pb_Body (pb_Prepared p);
     Forge.scr_Head := pb_head p;
     Forge.scr_Base := pb_base p;
     Forge.scr_Draft := pb_draft p |}.

(** [preparedBranch.Publish] *)
Definition Publish (remoteRepo : Forge.Repository) (p : preparedBranch)
  : M (S:=SubmitState) string :=
  let* result :=
    call (EvSubmitChange (submit_request p))
      (wrap "create change: %w" [] (Forge.SubmitChange remoteRepo (submit_request p))) in
  let name := SpiceState.pb_Name (pb_Prepared p) in
  let* r := catch (with_store (EvClearPreparedBranch name)
                     (fun s => SpiceState.ClearPreparedBranch s name)) in
  let* _ := match r with
            | Err _ => logf Warn "Could not clear prepared branch" []
            | Ok _ => ret tt
            end in
  let* _ := logf Info "Created %v: %s"
              [AStr (Forge.res_ID result); AStr (Forge.res_URL result)] in
  ret (Forge.res_ID result).

(** *** The submit state machine *)

(** The upsert that the deferred function writes: the name of the branch and the
    name it was pushed under and, once the change request has been created and
    its metadata marshalled, the change. *)
Definition deferred_upsert (name upstreamBranch : string)
  (change : option (string * string)) : SpiceState.UpsertRequest :=
  {| SpiceState.ur_Name := name;
     SpiceState.ur_Base := "";
     SpiceState.ur_BaseHash := "";
     SpiceState.ur_UpstreamBranch := upstreamBranch;
     SpiceState.ur_ChangeForge := match change with Some (f, _) => f | None => "" end;
     SpiceState.ur_ChangeMetadata := match change with Some (_, d) => Some d | None => None end |}.

Definition deferred_request (name upstreamBranch : string)
  (change : option (string * string)) : SpiceState.UpdateRequest :=
  {| SpiceState.Upserts := [deferred_upsert name upstreamBranch change];
     SpiceState.Deletes := [];
     SpiceState.Message := ("branch submit " ++ name)%string |}.

(** From the successful push to the return: the part of [run] that runs under the
    deferred store update.  It returns the change to record, if one was made. *)
Definition after_push (repo : Git.Repository) (remoteRepo : Forge.Repository)
  (name remote : string) (prepared : option preparedBranch)
  : M (S:=SubmitState) (option (string * string)) :=
  let upstream := (remote ++ "/" ++ name)%string in
  let* r := catch (call (EvSetBranchUpstream name upstream)
                     (Git.SetBranchUpstream repo name upstream)) in
  let* _ := match r with
            | Err _ => logf Warn "Could not set upstream" [AStr name; AStr remote]
            | Ok _ => ret tt
            end in
  match prepared with
  | Some p =>
      let* changeID := Publish remoteRepo p in
      let* changeMeta :=
        lift (wrap "get change metadata: %w" [] (Forge.NewChangeMetadata remoteRepo changeID)) in
      let* changeIDJSON :=
        lift (wrap "marshal change ID: %w" []
                (Forge.MarshalChangeMetadata remoteRepo changeMeta)) in
      ret (Some (Forge.md_ForgeID changeMeta, changeIDJSON))
  | None =>
      let* _ := logf Info "Pushed %s" [AStr name] in
      ret None
  end.

(** The deferred function: whatever [body] returns, the upsert as [body] left it is
    written to the store; a failure of that write is logged and not returned. *)
Definition with_deferred_update (name upstreamBranch : string)
  (body : M (S:=SubmitState) (option (string * string))) : M (S:=SubmitState) unit :=
  fun w =>
    let '(r, w1) := body w in
    let change := match r with Ok c => c | Err _ => None end in
    let req := deferred_request name upstreamBranch change in
    let '(r2, w2) :=
      with_store (EvUpdateBranch req) (fun s => SpiceState.UpdateBranch s req) w1 in
    let w3 :=
      match r2 with
      | Err _ => mkWorld (store w2) (trace w2 ++ [EvLog Warn "Could not update state" []])
      | Ok _ => w2
      end in
    (match r with Ok _ => Ok tt | Err e => Err e end, w3).

(** [cmd.Branch] once it has been set: the current branch when the flag is empty. *)
Definition target_branch (repo : Git.Repository) (cmd : branchSubmitCmd) : Res string :=
  if decide (Branch cmd = "") then
    wrap "get current branch: %w" [] (Git.CurrentBranch repo)
  else Ok (Branch cmd).

(** [existingChange == nil]: a change request has to be created. *)
Definition create_path (env : Env) (opts : globalOptions) (cmd : branchSubmitCmd)
  (repo : Git.Repository) (remoteRepo : Forge.Repository)
  (name : string) (branch : SpiceState.LookupBranchResponse)
  (commitHash upstreamBranch remote : string) : M (S:=SubmitState) unit :=
  if DryRun cmd then
    if NoPublish cmd then logf Info "WOULD push branch %s" [AStr name]
    else logf Info "WOULD create a CR for %s" [AStr name]
  else
    let* prepared :=
      if negb (NoPublish cmd) then
        let* p := preparePublish env opts cmd name repo remoteRepo
                    (SpiceState.lb_Base branch) in
        ret (Some p)
      else ret None in
    let pushOpts := push_options repo cmd remote commitHash upstreamBranch in
    let* _ := call (EvPush pushOpts) (wrap "push branch: %w" [] (Git.Push repo pushOpts)) in
    with_deferred_update name upstreamBranch
      (after_push repo remoteRepo name remote prepared).

(** The list [updates]. *)
Definition compute_updates (env : Env) (cmd : branchSubmitCmd)
  (pull : Forge.FindChangeItem) (branch : SpiceState.LookupBranchResponse)
  (commitHash : string) : list string :=
  (if decide (Forge.fci_HeadHash pull <> commitHash) then ["push branch"] else [])
  ++ (if decide (Forge.fci_BaseName pull <> SpiceState.lb_Base branch)
      then [("set base to " ++ SpiceState.lb_Base branch)%string] else [])
  ++ (match Draft cmd with
      | Some d =>
          if decide (Forge.fci_Draft pull <> d)
          then [("set draft to " ++ Sprint_Draft env)%string] else []
      | None => []
      end).

Fixpoint log_updates (updates : list string) : M (S:=SubmitState) unit :=
  match updates with
  | [] => ret tt
  | update :: rest =>
      let* _ := logf Info "  - %s" [AStr update] in
      log_updates rest
  end.

(** [existingChange != nil]: the change request [pull] exists. *)
Definition update_path (env : Env) (cmd : branchSubmitCmd)
  (repo : Git.Repository) (remoteRepo : Forge.Repository)
  (name : string) (branch : SpiceState.LookupBranchResponse)
  (commitHash upstreamBranch remote : string) (pull : Forge.FindChangeItem)
  : M (S:=SubmitState) unit :=
  let* _ :=
    if NoPublish cmd then
      logf Warn "Ignoring --no-publish: %s was already published: %s"
        [AStr name; AStr (Forge.fci_URL pull)]
    else ret tt in
  let updates := compute_updates env cmd pull branch commitHash in
  if decide (List.length updates = 0) then
    logf Info "CR %v is up-to-date: %s" [AStr (Forge.fci_ID pull); AStr (Forge.fci_URL pull)]
  else if DryRun cmd then
    let* _ := logf Info "WOULD update CR %v:" [AStr (Forge.fci_ID pull)] in
    log_updates updates
  else
    let* _ :=
      if decide (Forge.fci_HeadHash pull <> commitHash) then
        let pushOpts := push_options repo cmd remote commitHash upstreamBranch in
        let* r := catch (call (EvPush pushOpts) (Git.Push repo pushOpts)) in
        match r with
        | Err err =>
            let* _ := logf Error "Push failed. Branch may have been updated by someone else. Try with --force." [] in
            fail (Wrapf "push branch: %w" [] err)
        | Ok _ => ret tt
        end
      else ret tt in
    let* _ :=
      if bool_decide (0 < List.length updates) then
        let editOpts :=
          {| Forge.eco_Base := SpiceState.lb_Base branch; Forge.eco_Draft := Draft cmd |} in
        call (EvEditChange (Forge.fci_ID pull) editOpts)
          (wrap "edit CR %v: %w" [AStr (Forge.fci_ID pull)]
             (Forge.EditChange remoteRepo (Forge.fci_ID pull) editOpts))
      else ret tt in
    logf Info "Updated %v: %s" [AStr (Forge.fci_ID pull); AStr (Forge.fci_URL pull)].

(** What [run] has in hand when it turns to the forge: the branch and its record,
    its commit, the name it is pushed under, the remote and the remote
    repository. *)
Record submitContext :=
  { sc_name : string;
    sc_branch : SpiceState.LookupBranchResponse;
    sc_commitHash : string;
    sc_upstreamBranch : string;
    sc_remote : string;
    sc_remoteRepo : Forge.Repository }.

(** [branchSubmitCmd.run], from its start to the remote repository. *)
Definition resolve (env : Env) (cmd : branchSubmitCmd) (repo : Git.Repository)
  : M (S:=SubmitState) submitContext :=
  let* name := lift (target_branch repo cmd) in
  let* st := get_store in
  if decide (name = SpiceState.Trunk (st_store st)) then
    fail (Errorf "cannot submit trunk" [])
  else
  let* branch :=
    lift (wrap "lookup branch: %w" [] (SpiceState.LookupBranch (st_store st) name)) in
  let* _ :=
    if negb (Force cmd) then
      match SpiceState.VerifyRestacked (Git.ForkPoint repo) (st_store st) name with
      | Err _ =>
          let* _ := logf Error "Branch %s needs to be restacked." [AStr name] in
          let* _ := logf Error "Run the following command to fix this:" [] in
          let* _ := logf Error "  gs branch restack %s" [AStr name] in
          let* _ := logf Error "Or, try again with --force to submit anyway." [] in
          fail (Errorf "refusing to submit outdated branch" [])
      | Ok _ => ret tt
      end
    else ret tt in
  let* _ :=
    if negb (DryRun cmd) && negb (NoPublish cmd) then
      set_session (fun ss =>
        {| ss_remote := ss_remote ss; ss_remoteRepo := ss_remoteRepo ss;
           ss_branches := ss_branches ss ++ [name] |})
    else ret tt in
  let* commitHash := lift (wrap "peel to commit: %w" [] (Git.PeelToCommit repo name)) in
  let upstreamBranch := upstream_name branch name in
  let* remote := session_remote env in
  let* remoteRepo := session_remoteRepo env remote in
  ret {| sc_name := name; sc_branch := branch; sc_commitHash := commitHash;
         sc_upstreamBranch := upstreamBranch; sc_remote := remote;
         sc_remoteRepo := remoteRepo |}.

(** [branchSubmitCmd.run] *)
Definition run (env : Env) (opts : globalOptions) (cmd : branchSubmitCmd)
  (repo : Git.Repository) : M (S:=SubmitState) unit :=
  let* ctx := resolve env cmd repo in
  let* existingChange :=
    find_existing env (sc_remoteRepo ctx) (sc_name ctx) (sc_branch ctx)
      (sc_upstreamBranch ctx) in
  match existingChange with
  | None =>
      create_path env opts cmd repo (sc_remoteRepo ctx) (sc_name ctx) (sc_branch ctx)
        (sc_commitHash ctx) (sc_upstreamBranch ctx) (sc_remote ctx)
  | Some pull =>
      update_path env cmd repo (sc_remoteRepo ctx) (sc_name ctx) (sc_branch ctx)
        (sc_commitHash ctx) (sc_upstreamBranch ctx) (sc_remote ctx) pull
  end.

(** [branchSubmitCmd.Run] *)
Definition Run (env : Env) (opts : globalOptions) (cmd : branchSubmitCmd)
  : M (S:=SubmitState) unit :=
  let* repo := lift (openRepo env) in
  let* _ := set_session (fun _ => zero_session) in
  let* _ := run env opts cmd repo in
  if DryRun cmd then ret tt
  else
    let* st := get_store in
    call (EvSyncStackComments (ss_branches (st_session st)))
      (syncStackComments env (ss_branches (st_session st))).

End BranchSubmit.

(** ** Notions used to state the properties *)

(** Classes of events. *)
Definition is_log (ev : Event) : Prop :=
  match ev with EvLog _ _ _ => True | _ => False end.

#[global] Instance is_log_dec ev : Decision (is_log ev).
Proof. destruct ev; cbn; apply _. Defined.

(** The events of [preparePublish]: the log and the prepared branch of the store. *)
Definition is_prepare (ev : Event) : Prop :=
  match ev with
  | EvLog _ _ _ | EvSavePreparedBranch _ | EvClearPreparedBranch _ => True
  | _ => False
  end.

Definition is_upstream (ev : Event) : Prop :=
  match ev with
  | EvLog _ _ _ | EvSetBranchUpstream _ _ => True
  | _ => False
  end.

(** The events of the update of an existing change request. *)
Definition is_update_event (ev : Event) : Prop :=
  match ev with
  | EvLog _ _ _ | EvPush _ | EvEditChange _ _ => True
  | _ => False
  end.

(** The events of a trace other than those of the log. *)
Definition effects (evs : list Event) : list Event :=
  filter (fun ev => ~ is_log ev) evs.

(** Every event that [m] adds to the trace satisfies [P]. *)
Definition emits {S A : Type} (P : Event -> Prop) (m : M (S:=S) A) : Prop :=
  forall w r w', m w = (r, w') -> exists evs, trace w' = trace w ++ evs /\ Forall P evs.



(** The set request that [Store.Update] appends for an upsert it accepts. *)
Definition intended (s : State.Store) (u : State.UpsertRequest) (e : State.setRequest)
  : Prop :=
  exists st, State.upsert_state s u = Ok st /\
    State.bsb_Name (State.bs_Base st) <> "" /\
    State.ur_Name u <> "" /\ State.ur_Name u <> State.trunk s /\
    e = {| State.Key := State.branchJSON s (State.ur_Name u);
           State.Val := State.VBranchState st |}.

(** The store update of [branch create --below] from current branch [C] with
    record [c]. *)
Definition below_request (cmd : BranchCreate.branchCreateCmd) (C : string)
  (c : State.LookupResponse) : State.UpdateRequest :=
  {| State.Upserts :=
       [ {| State.ur_Name := BranchCreate.Name cmd;
            State.ur_Base := State.lr_Base c;
            State.ur_BaseHash := State.lr_BaseHash c;
            State.ur_PR := None |};
         {| State.ur_Name := C; State.ur_Base := BranchCreate.Name cmd;
            State.ur_BaseHash := ""; State.ur_PR := None |} ];
     State.Deletes := [];
     State.Message :=
       ("insert branch " ++ BranchCreate.Name cmd ++ " below " ++ State.lr_Base c)%string |}.

(** The adopt transition of [find_existing]: the branch has no recorded change, the
    search returns exactly one change request, its metadata is obtained and
    marshalled. *)
Definition adopts (remoteRepo : Forge.Repository)
  (branch : SpiceState.LookupBranchResponse) (upstreamBranch : string)
  (c : Forge.FindChangeItem) (md : Forge.ChangeMetadata) (changeMeta : string) : Prop :=
  SpiceState.lb_Change branch = None /\
  Forge.FindChangesByBranch remoteRepo upstreamBranch BranchSubmit.find_options = Ok [c] /\
  Forge.NewChangeMetadata remoteRepo (Forge.fci_ID c) = Ok md /\
  Forge.MarshalChangeMetadata remoteRepo md = Ok changeMeta.

(** What the update of an existing change request does to the repository and to
    the forge: nothing when there are no updates; otherwise the push, when the head
    differs, and, unless that push fails, the edit. *)
Definition update_effects (env : BranchSubmit.Env) (cmd : BranchSubmit.branchSubmitCmd)
  (repo : Git.Repository) (ctx : BranchSubmit.submitContext)
  (pull : Forge.FindChangeItem) : list Event :=
  let pushOpts :=
    BranchSubmit.push_options repo cmd (BranchSubmit.sc_remote ctx)
      (BranchSubmit.sc_commitHash ctx) (BranchSubmit.sc_upstreamBranch ctx) in
  let edit :=
    EvEditChange (Forge.fci_ID pull)
      {| Forge.eco_Base := SpiceState.lb_Base (BranchSubmit.sc_branch ctx);
         Forge.eco_Draft := BranchSubmit.Draft cmd |} in
  if decide (BranchSubmit.compute_updates env cmd pull (BranchSubmit.sc_branch ctx)
               (BranchSubmit.sc_commitHash ctx) = []) then []
  else if decide (Forge.fci_HeadHash pull <> BranchSubmit.sc_commitHash ctx) then
    EvPush pushOpts :: (if is_Ok (Git.Push repo pushOpts) then [edit] else [])
  else [edit].

(** The events after a push in [create_path]: calls that set the upstream and
    log, then nothing or [SubmitChange] followed by the clearing of the prepared
    branch and logs. *)
Definition publish_shape (prepared : option BranchSubmit.preparedBranch)
  (t t' : list Event) : Prop :=
  exists mid post, t' = t ++ mid ++ post /\
    Forall is_upstream mid /\
    (post = [] \/
     exists p post', prepared = Some p /\
       post = EvSubmitChange (BranchSubmit.submit_request p) :: post' /\
       Forall is_prepare post').

(** ** Scenarios *)

Module Scenario.

(** An initialized store with trunk [main]. *)
Definition store0 : State.Store :=
  {| State.b :=
       {| State.tree := {[ "repo" := State.VRepoInfo {| State.ri_Trunk := "main" |} ]};
          State.commits := ["initialize store"] |};
     State.trunk := "main" |}.

Definition upsert (name base hash : string) : State.UpsertRequest :=
  {| State.ur_Name := name; State.ur_Base := base; State.ur_BaseHash := hash;
     State.ur_PR := None |}.

Definition request (ups : list State.UpsertRequest) : State.UpdateRequest :=
  {| State.Upserts := ups; State.Deletes := []; State.Message := "track" |}.

(** [feat-a] on [main] and [feat-b] on [feat-a]. *)
Definition stack_request : State.UpdateRequest :=
  request [upsert "feat-a" "main" "C0"; upsert "feat-b" "feat-a" "Ha"].

Definition store_ab : State.Store := snd (State.Update "t0" store0 stack_request).


(** A repository in which every call succeeds: [current] is checked out,
    [feat-a] is at commit [H1], [origin/feat-a] at [H0], [main] at [mainTip],
    anything else at [C0]. *)
Definition git_at (current mainTip : string) : Git.Repository :=
  {| Git.CurrentBranch := Ok current;
     Git.PeelToCommit := fun ref =>
       if decide (ref = "feat-a") then Ok "H1"
       else if decide (ref = "origin/feat-a") then Ok "H0"
       else if decide (ref = "main") then Ok mainTip
       else Ok "C0";
     Git.DiffIndex := fun _ => Ok [];
     Git.ForkPoint := fun _ _ => Ok "C0";
     Git.CommitMessageRange := fun _ _ =>
       Ok [ {| Git.cm_Subject := "add feature"; Git.cm_Body := "details" |} ];
     Git.DetachHead := fun _ => Ok tt;
     Git.Commit := fun _ => Ok tt;
     Git.CreateBranch := fun _ => Ok tt;
     Git.Checkout := fun _ => Ok tt;
     Git.Fetch := fun _ => Ok tt;
     Git.DeleteBranch := fun _ _ => Ok tt;
     Git.Push := fun _ => Ok tt;
     Git.SetBranchUpstream := fun _ _ => Ok tt |}.

Definition git (current : string) : Git.Repository := git_at current "C0".

(** The repository as the fetch of [branch fold] leaves it: [main] is at the tip
    of [feat-a]. *)
Definition git_folded : Git.Repository := git_at "feat-a" "H1".

Definition create_env : BranchCreate.Env :=
  {| BranchCreate.git_Open := Ok (git "feat-b");
     BranchCreate.ensureStore := Ok tt;
     BranchCreate.ListAbove := fun _ => Ok [];
     BranchCreate.now := "t1";
     BranchCreate.upstackRestackCmd_Run := fun s => (Ok tt, s) |}.

Definition below_cmd : BranchCreate.branchCreateCmd :=
  {| BranchCreate.Name := "feat-mid"; BranchCreate.Insert := false;
     BranchCreate.Below := true; BranchCreate.Message := "mid" |}.

Definition record (base hash : string) (change : option SpiceState.ChangeRef)
  : SpiceState.BranchRecord :=
  {| SpiceState.br_Base := base; SpiceState.br_BaseHash := hash;
     SpiceState.br_UpstreamBranch := ""; SpiceState.br_Change := change |}.

(** The store of fold and submit: [feat-a] on [main], with the given change, and
    [feat-b] on [feat-a]. *)
Definition spice_store (change : option SpiceState.ChangeRef) : SpiceState.Store :=
  {| SpiceState.trunk := "main";
     SpiceState.branches :=
       {[ "feat-a" := record "main" "C0" change; "feat-b" := record "feat-a" "H1" None ]};
     SpiceState.prepared := ∅;
     SpiceState.messages := [] |}.

Definition fold_env : BranchFold.Env :=
  {| BranchFold.openRepo := Ok git_folded;
     BranchFold.branchCheckoutCmd_Run := fun _ => Ok tt |}.

Definition fold_cmd : BranchFold.branchFoldCmd := {| BranchFold.Branch := "" |}.

(** The open change request of [feat-a]: its head is behind the branch, its base
    is the base of the branch. *)
Definition change7 : Forge.FindChangeItem :=
  {| Forge.fci_ID := "#7"; Forge.fci_URL := "https://forge.example/7";
     Forge.fci_HeadHash := "H0"; Forge.fci_BaseName := "main";
     Forge.fci_Draft := false |}.

Definition recorded7 : SpiceState.ChangeRef :=
  {| SpiceState.cr_Forge := "github"; SpiceState.cr_Data := "#7" |}.

(** A forge on which the search by branch returns [found]. *)
Definition forge (found : list Forge.FindChangeItem) : Forge.Repository :=
  {| Forge.FindChangesByBranch := fun _ _ => Ok found;
     Forge.FindChangeByID := fun _ => Ok change7;
     Forge.NewChangeMetadata := fun id =>
       Ok {| Forge.md_ForgeID := "github"; Forge.md_ChangeID := id |};
     Forge.MarshalChangeMetadata := fun md => Ok (Forge.md_ChangeID md);
     Forge.SubmitChange := fun _ =>
       Ok {| Forge.res_ID := "#8"; Forge.res_URL := "https://forge.example/8" |};
     Forge.EditChange := fun _ _ => Ok tt;
     Forge.ListChangeTemplates := Ok [] |}.

Definition submit_env (found : list Forge.FindChangeItem) : BranchSubmit.Env :=
  {| BranchSubmit.openRepo := Ok (git "feat-a");
     BranchSubmit.ensureRemote := Ok "origin";
     BranchSubmit.openRemoteRepository := fun _ => Ok (forge found);
     BranchSubmit.ChangeID := fun change => SpiceState.cr_Data change;
     BranchSubmit.ui_Recover := Ok false;
     BranchSubmit.form_Run := fun _ title body draft => Ok (title, body, draft);
     BranchSubmit.Sprint_Draft := "0xc000012345";
     BranchSubmit.syncStackComments := fun _ => Ok tt |}.

Definition submit_cmd (dryRun fill : bool) : BranchSubmit.branchSubmitCmd :=
  {| BranchSubmit.DryRun := dryRun; BranchSubmit.Fill := fill;
     BranchSubmit.Draft := None; BranchSubmit.NoPublish := false;
     BranchSubmit.Force := false; BranchSubmit.Title := ""; BranchSubmit.Body := "";
     BranchSubmit.Branch := "" |}.

Definition no_prompt : BranchSubmit.globalOptions := {| BranchSubmit.Prompt := false |}.

Definition submit_world (change : option SpiceState.ChangeRef)
  : World BranchSubmit.SubmitState :=
  mkWorld {| BranchSubmit.st_store := spice_store change;
             BranchSubmit.st_session := BranchSubmit.zero_session |} [].

(** What [resolve] finds for [feat-a] on a forge on which the search returns
    [found]. *)
Definition context (change : option SpiceState.ChangeRef)
  (found : list Forge.FindChangeItem) : BranchSubmit.submitContext :=
  {| BranchSubmit.sc_name := "feat-a";
     BranchSubmit.sc_branch :=
       {| SpiceState.lb_Base := "main"; SpiceState.lb_BaseHash := "C0";
          SpiceState.lb_UpstreamBranch := ""; SpiceState.lb_Change := change |};
     BranchSubmit.sc_commitHash := "H1";
     BranchSubmit.sc_upstreamBranch := "feat-a";
     BranchSubmit.sc_remote := "origin";
     BranchSubmit.sc_remoteRepo := forge found |}.

End Scenario.

(** ** Further notions *)

(** A path element that [path.Clean] keeps as it is. *)
Definition kept (e : string) : Prop := e <> "" /\ e <> "." /\ e <> "..".

(** A branch name that is a clean relative path: its elements between slashes
    are not empty and are neither [.] nor [..]. *)
Definition plain (name : string) : Prop :=
  Forall kept (GoPath.split_slash name "").

(** The store update of [branch create] without [--below], from current branch
    [C] at commit [H], with [aboves] to restack on the new branch. *)
Definition create_request (cmd : BranchCreate.branchCreateCmd) (C H : string)
  (aboves : list string) : State.UpdateRequest :=
  {| State.Upserts := BranchCreate.upserts_of cmd C H aboves;
     State.Deletes := [];
     State.Message := BranchCreate.update_message cmd C |}.

(** The change that the deferred store update of [run] records after [Publish]:
    the forge and the marshalled metadata of the change request created, if the
    creation and the two calls for its metadata succeeded. *)
Definition published_change (remoteRepo : Forge.Repository)
  (p : BranchSubmit.preparedBranch) : option (string * string) :=
  match Forge.SubmitChange remoteRepo (BranchSubmit.submit_request p) with
  | Ok result =>
      match Forge.NewChangeMetadata remoteRepo (Forge.res_ID result) with
      | Ok md =>
          match Forge.MarshalChangeMetadata remoteRepo md with
          | Ok data => Some (Forge.md_ForgeID md, data)
          | Err _ => None
          end
      | Err _ => None
      end
  | Err _ => None
  end.

(** The events other than the creation of a change request and the writes of
    [preparePublish] and [Publish]. *)
Definition never_publishes (ev : Event) : Prop :=
  match ev with
  | EvSubmitChange _ | EvSavePreparedBranch _ | EvClearPreparedBranch _ => False
  | _ => True
  end.

(** [m] leaves the session as it is. *)
Definition keeps_session {A} (m : M (S:=BranchSubmit.SubmitState) A) : Prop :=
  forall w r w', m w = (r, w') ->
    BranchSubmit.st_session (store w') = BranchSubmit.st_session (store w).

(** What the commit contributes to the default body: its subject and, after an
    empty line, its body when it has one. *)
Definition commit_text (msg : Git.CommitMessage) : string :=
  if decide (Git.cm_Body msg = "") then Git.cm_Subject msg
  else (Git.cm_Subject msg ++ BranchSubmit.nl2 ++ Git.cm_Body msg)%string.

(** ** Further scenarios *)

Module Cases.

(** A repository without a store. *)
Definition empty_repo : State.storageBackend :=
  {| State.tree := ∅; State.commits := [] |}.

Definition init_main : State.InitStoreRequest :=
  {| State.isr_Trunk := "main"; State.isr_Force := false |}.

(** [branch create] in [repo], where [aboves] are the branches above the current
    branch. *)
Definition create_env_on (repo : Git.Repository) (aboves : list string)
  : BranchCreate.Env :=
  {| BranchCreate.git_Open := Ok repo;
     BranchCreate.ensureStore := Ok tt;
     BranchCreate.ListAbove := fun _ => Ok aboves;
     BranchCreate.now := "t1";
     BranchCreate.upstackRestackCmd_Run := fun s => (Ok tt, s) |}.

Definition create_cmd (name : string) (insert : bool) : BranchCreate.branchCreateCmd :=
  {| BranchCreate.Name := name; BranchCreate.Insert := insert;
     BranchCreate.Below := false; BranchCreate.Message := "work" |}.

(** A repository on [feat-b] in which no branch can be created. *)
Definition git_no_create : Git.Repository :=
  {| Git.CurrentBranch := Ok "feat-b";
     Git.PeelToCommit := fun _ => Ok "C0";
     Git.DiffIndex := fun _ => Ok [];
     Git.ForkPoint := fun _ _ => Ok "C0";
     Git.CommitMessageRange := fun _ _ => Ok [];
     Git.DetachHead := fun _ => Ok tt;
     Git.Commit := fun _ => Ok tt;
     Git.CreateBranch := fun _ => Err (Errorf "branch exists" []);
     Git.Checkout := fun _ => Ok tt;
     Git.Fetch := fun _ => Ok tt;
     Git.DeleteBranch := fun _ _ => Ok tt;
     Git.Push := fun _ => Ok tt;
     Git.SetBranchUpstream := fun _ _ => Ok tt |}.

(** The change request of [feat-a] when it is at the tip of the branch. *)
Definition change_current : Forge.FindChangeItem :=
  {| Forge.fci_ID := "#7"; Forge.fci_URL := "https://forge.example/7";
     Forge.fci_HeadHash := "H1"; Forge.fci_BaseName := "main";
     Forge.fci_Draft := false |}.

(** A forge on which the change request of every id is [change]. *)
Definition forge_with (change : Forge.FindChangeItem) : Forge.Repository :=
  {| Forge.FindChangesByBranch := fun _ _ => Ok [];
     Forge.FindChangeByID := fun _ => Ok change;
     Forge.NewChangeMetadata := fun id =>
       Ok {| Forge.md_ForgeID := "github"; Forge.md_ChangeID := id |};
     Forge.MarshalChangeMetadata := fun md => Ok (Forge.md_ChangeID md);
     Forge.SubmitChange := fun _ =>
       Ok {| Forge.res_ID := "#8"; Forge.res_URL := "https://forge.example/8" |};
     Forge.EditChange := fun _ _ => Ok tt;
     Forge.ListChangeTemplates := Ok [] |}.

Definition submit_env_on (remoteRepo : Forge.Repository) : BranchSubmit.Env :=
  {| BranchSubmit.openRepo := Ok (Scenario.git "feat-a");
     BranchSubmit.ensureRemote := Ok "origin";
     BranchSubmit.openRemoteRepository := fun _ => Ok remoteRepo;
     BranchSubmit.ChangeID := fun change => SpiceState.cr_Data change;
     BranchSubmit.ui_Recover := Ok false;
     BranchSubmit.form_Run := fun _ title body draft => Ok (title, body, draft);
     BranchSubmit.Sprint_Draft := "0xc000012345";
     BranchSubmit.syncStackComments := fun _ => Ok tt |}.

Definition no_publish_cmd : BranchSubmit.branchSubmitCmd :=
  {| BranchSubmit.DryRun := false; BranchSubmit.Fill := false;
     BranchSubmit.Draft := None; BranchSubmit.NoPublish := true;
     BranchSubmit.Force := false; BranchSubmit.Title := ""; BranchSubmit.Body := "";
     BranchSubmit.Branch := "" |}.

(** What [preparePublish] returns for [feat-a] with [--fill]. *)
Definition prepared_a : BranchSubmit.preparedBranch :=
  {| BranchSubmit.pb_Prepared :=
       {| SpiceState.pb_Name := "feat-a"; SpiceState.pb_Subject := "add feature";
          SpiceState.pb_Body := "details" |};
     BranchSubmit.pb_head := "feat-a";
     BranchSubmit.pb_base := "main";
     BranchSubmit.pb_draft := false |}.

(** Two commits, the newest first. *)
Definition two_commits : list Git.CommitMessage :=
  [ {| Git.cm_Subject := "fix typo"; Git.cm_Body := "" |};
    {| Git.cm_Subject := "add feature"; Git.cm_Body := "details" |} ].

End Cases.

(** * Properties *)

Ltac unfold_monad :=
  unfold call, logf in *;
  unfold bind, ret, fail, lift, emit, catch, on_store, get_store, wrap in *;
  cbn in *.

Ltac all_logs :=
  repeat first
    [ apply Forall_nil
    | apply Forall_cons; split
    | apply Forall_app; split
    | apply Forall_fmap, Forall_forall; intros ];
  cbn; try exact I; try done.

(** ** The store of [internal/state] *)

Section StateFacts.
Import State.

Lemma apply_sets_app t l1 l2 :
  apply_sets t (l1 ++ l2) = apply_sets (apply_sets t l1) l2.
Proof. unfold apply_sets. apply foldl_app. Qed.

Lemma apply_sets_lookup_notin (l : list setRequest) : forall t k,
  Forall (fun e => Key e <> k) l -> apply_sets t l !! k = t !! k.
Proof.
  induction l as [|e l IH]; intros t k H; [done|].
  inversion H; subst. cbn. rewrite IH by done. by rewrite lookup_insert_ne.
Qed.

(** The last set of a key is the one that stays. *)
Lemma apply_sets_lookup_last t l1 e l2 :
  Forall (fun e' => Key e' <> Key e) l2 ->
  apply_sets t (l1 ++ e :: l2) !! Key e = Some (Val e).
Proof.
  intros H. rewrite apply_sets_app. cbn.
  rewrite apply_sets_lookup_notin by done. apply lookup_insert_eq.
Qed.

Lemma apply_dels_lookup_notin (dels : list string) : forall t k,
  k ∉ dels -> apply_dels t dels !! k = t !! k.
Proof.
  induction dels as [|d dels IH]; intros t k H; [done|].
  cbn. apply not_elem_of_cons in H as [Hne Hnotin].
  rewrite IH by done. by rewrite lookup_delete_ne.
Qed.

Lemma Update_loop_Ok s : forall ups i sets sets',
  Update_loop s i ups sets = Ok sets' ->
  exists es, Forall2 (intended s) ups es /\ sets' = sets ++ es.
Proof.
  induction ups as [|u ups IH]; intros i sets sets' H; cbn in H.
  - exists []. split; [constructor|]. rewrite app_nil_r. congruence.
  - repeat case_decide; try discriminate.
    destruct (upsert_state s u) as [st|] eqn:Hst; [|discriminate].
    case_decide; [discriminate|].
    apply IH in H as (es & HF & ->).
    eexists (_ :: es). split.
    + constructor; [|exact HF]. exists st. repeat split; done.
    + by rewrite <- app_assoc.
Qed.

(** The backend of the model reports a missing key and nothing else. *)
Lemma Lookup_Err_NotExist s name e :
  Lookup s name = Err e -> errors_Is_NotExist e = true.
Proof.
  unfold Lookup, backend_Get. destruct (tree (b s) !! _); [discriminate|].
  intros [= <-]. reflexivity.
Qed.




Lemma Update_Err_unchanged now s req e :
  fst (Update now s req) = Err e -> snd (Update now s req) = s.
Proof.
  unfold Update, Update_sets.
  destruct (Update_loop _ _ _ _) as [sets|e']; cbn; [discriminate|done].
Qed.


Lemma Update_Ok_tree now s req s' :
  Update now s req = (Ok tt, s') ->
  exists es, Forall2 (intended s) (Upserts req) es /\
    trunk s' = trunk s /\
    tree (b s') =
      apply_dels
        (apply_sets (tree (b s))
           (replicate (List.length (Upserts req)) zero_setRequest ++ es))
        (Deletes req).
Proof.
  unfold Update, Update_sets.
  destruct (Update_loop _ _ _ _) as [sets|e] eqn:H; [|discriminate].
  apply Update_loop_Ok in H as (es & HF & ->). cbn.
  intros [= <-]. exists es. done.
Qed.

(** After a successful update, [Lookup] of an upserted branch finds the state
    that the upsert wrote, when no later upsert and no delete of the request
    names the same key. *)
Lemma Update_Lookup now s req s' pre r post :
  Update now s req = (Ok tt, s') ->
  Upserts req = pre ++ r :: post ->
  Forall (fun u => branchJSON s (ur_Name u) <> branchJSON s (ur_Name r)) post ->
  branchJSON s (ur_Name r) ∉ Deletes req ->
  exists st, upsert_state s r = Ok st /\ bsb_Name (bs_Base st) <> "" /\
    Lookup s' (ur_Name r) =
      Ok {| lr_Name := ur_Name r;
            lr_Base := bsb_Name (bs_Base st);
            lr_BaseHash := bsb_Hash (bs_Base st);
            lr_PR := bs_PR st |}.
Proof.
  intros HU Hups Hpost Hdel.
  apply Update_Ok_tree in HU as (es & HF & _ & Htree).
  rewrite Hups in HF.
  apply Forall2_app_inv_l in HF as (es1 & es2 & HF1 & HF2 & ->).
  apply Forall2_cons_inv_l in HF2
    as (e & es3 & (st & Hst & Hbase & _ & _ & ->) & HF3 & ->).
  exists st. split; [done|]. split; [done|].
  unfold Lookup, backend_Get.
  change (branchJSON s' (ur_Name r)) with (branchJSON s (ur_Name r)).
  rewrite Htree, apply_dels_lookup_notin by done.
  rewrite app_assoc.
  rewrite (apply_sets_lookup_last _ _
             {| Key := branchJSON s (ur_Name r); Val := VBranchState st |}).
  - reflexivity.
  - clear -HF3 Hpost.
    induction HF3 as [|u e post es3 (st' & _ & _ & _ & _ & ->) _ IH].
    + constructor.
    + inversion Hpost; subst. constructor; [done|]. by apply IH.
Qed.

(** C3. For every [Store.Update] whose request has n >= 1 upserts and passes
    validation, the list of sets handed to the storage backend has length 2n: the
    n zero values of [make([]setRequest, n)] come first, then the n intended
    entries, and that list is the one with which the backend is updated. *)
Theorem Update_sets_doubled now s req sets :
  1 <= List.length (Upserts req) ->
  Update_sets s req = Ok sets ->
  let n := List.length (Upserts req) in
  List.length sets = 2 * n /\
  take n sets = replicate n zero_setRequest /\
  Forall2 (fun u e =>
             exists st, upsert_state s u = Ok st /\
               e = {| Key := branchJSON s (ur_Name u); Val := VBranchState st |})
    (Upserts req) (drop n sets) /\
  Update now s req =
    (Ok tt,
     {| b := snd (backend_Update (b s)
                    {| Sets := sets; Dels := Deletes req;
                       Msg := if decide (Message req = "")
                              then ("update at " ++ now)%string else Message req |});
        trunk := trunk s |}).
Proof.
  intros Hn H. cbv zeta. pose proof H as H'. unfold Update_sets in H.
  set (n := List.length (Upserts req)) in *.
  apply Update_loop_Ok in H as (es & HF & ->).
  pose proof (Forall2_length _ _ _ HF) as Hlen. fold n in Hlen.
  assert (Hr : List.length (replicate n zero_setRequest) = n) by apply length_replicate.
  repeat split.
  - rewrite length_app, Hr. lia.
  - rewrite take_app_length'; done.
  - rewrite drop_app_length' by done.
    eapply Forall2_impl; [exact HF|]. intros u e (st & ? & ? & ? & ? & ?). eauto.
  - unfold Update. rewrite H'. reflexivity.
Qed.

Lemma Update_sets_doubled_witness :
  1 <= List.length (Upserts Scenario.stack_request) /\
  Update_sets Scenario.store0 Scenario.stack_request =
    Ok [ zero_setRequest; zero_setRequest;
         {| Key := "branches/feat-a";
            Val := VBranchState
                     {| bs_Base := {| bsb_Name := "main"; bsb_Hash := "C0" |};
                        bs_PR := 0 |} |};
         {| Key := "branches/feat-b";
            Val := VBranchState
                     {| bs_Base := {| bsb_Name := "feat-a"; bsb_Hash := "Ha" |};
                        bs_PR := 0 |} |} ] /\
  List.length
    [ zero_setRequest; zero_setRequest;
      {| Key := "branches/feat-a";
         Val := VBranchState
                  {| bs_Base := {| bsb_Name := "main"; bsb_Hash := "C0" |};
                     bs_PR := 0 |} |};
      {| Key := "branches/feat-b";
         Val := VBranchState
                  {| bs_Base := {| bsb_Name := "feat-a"; bsb_Hash := "Ha" |};
                     bs_PR := 0 |} |} ] = 2 * 2.
Proof.
  assert (H1 : 1 <= List.length (Upserts Scenario.stack_request))
    by (vm_compute; lia).
  assert (H2 : Update_sets Scenario.store0 Scenario.stack_request =
    Ok [ zero_setRequest; zero_setRequest;
         {| Key := "branches/feat-a";
            Val := VBranchState
                     {| bs_Base := {| bsb_Name := "main"; bsb_Hash := "C0" |};
                        bs_PR := 0 |} |};
         {| Key := "branches/feat-b";
            Val := VBranchState
                     {| bs_Base := {| bsb_Name := "feat-a"; bsb_Hash := "Ha" |};
                        bs_PR := 0 |} |} ])
    by (vm_compute; reflexivity).
  split; [exact H1|]. split; [exact H2|].
  exact (proj1 (Update_sets_doubled "t0" Scenario.store0 Scenario.stack_request _ H1 H2)).
Defined.

End StateFacts.

Section StateTheorems.
Import State.









End StateTheorems.

(** ** [branch create] *)

Section CreateFacts.
Import State BranchCreate.

Lemma create_below_refused env cmd repo w C :
  Below cmd = true ->
  git_Open env = Ok repo ->
  Git.CurrentBranch repo = Ok C ->
  C = trunk (store w) \/ (exists e, Lookup (store w) C = Err e) ->
  exists e evs, fst (Run env cmd w) = Err e /\
    store (snd (Run env cmd w)) = store w /\
    trace (snd (Run env cmd w)) = trace w ++ evs /\ Forall is_log evs.
Proof.
  intros HB Hopen HC Hcase. unfold Run, choose_base. unfold_monad.
  rewrite Hopen, HB. cbn.
  destruct (ensureStore env); cbn; [|by eexists _, []; rewrite app_nil_r].
  case_decide; cbn; [by eexists _, []; rewrite app_nil_r|].
  rewrite HC. cbn.
  destruct (Git.PeelToCommit repo "HEAD"); cbn; [|by eexists _, []; rewrite app_nil_r].
  destruct (Git.DiffIndex repo a0); cbn; [|by eexists _, []; rewrite app_nil_r].
  unfold Trunk.
  case_decide; cbn.
  - eexists _, [_]. repeat split; try done. by repeat constructor.
  - destruct Hcase as [?|[e He]]; [done|]. rewrite He. cbn.
    by eexists _, []; rewrite app_nil_r.
Qed.

Lemma create_below_done env cmd repo w C w' :
  Below cmd = true ->
  git_Open env = Ok repo ->
  Git.CurrentBranch repo = Ok C ->
  Run env cmd w = (Ok tt, w') ->
  exists c s1 commitReq,
    C <> trunk (store w) /\
    Lookup (store w) C = Ok c /\
    Update (now env) (store w) (below_request cmd C c) = (Ok tt, s1) /\
    upstackRestackCmd_Run env s1 = (Ok tt, store w') /\
    trace w' = trace w ++
      [ EvDetachHead (lr_Base c); EvCommit commitReq;
        EvCreateBranch {| Git.cbr_Name := Name cmd; Git.cbr_Head := "HEAD" |};
        EvCheckout (Name cmd);
        EvStateUpdate (below_request cmd C c);
        EvUpstackRestack ].
Proof.
  intros HB Hopen HC. unfold Run, choose_base, restore_on_error, after_detach.
  unfold update_message, upserts_of. unfold_monad.
  rewrite Hopen, HB. cbn.
  destruct (ensureStore env); cbn; [|discriminate].
  case_decide; cbn; [discriminate|].
  rewrite HC. cbn.
  destruct (Git.PeelToCommit repo "HEAD"); cbn; [|discriminate].
  destruct (Git.DiffIndex repo a0); cbn; [|discriminate].
  unfold Trunk. case_decide; cbn; [discriminate|].
  destruct (Lookup (store w) C) as [c|] eqn:HL; cbn; [|discriminate].
  destruct (Git.DetachHead repo (lr_Base c)); cbn; [|discriminate].
  destruct (Git.Commit repo _); cbn; [|discriminate].
  destruct (Git.CreateBranch repo _); cbn; [|discriminate].
  destruct (Git.Checkout repo (Name cmd)); cbn; [|discriminate].
  destruct (Update (now env) (store w) _) as [[[]|] s1] eqn:HU; cbn; [|discriminate].
  destruct (upstackRestackCmd_Run env s1) as [[[]|] s2] eqn:HR; cbn; [|discriminate].
  intros [= <-]. cbn. exists c, s1. eexists.
  repeat split; try done.
  rewrite <- !app_assoc. reflexivity.
Qed.

(** C10. [branch create --below] from current branch [C] fails, without a write to
    the repository or to the store, when [C] is the trunk or has no record in the
    store.  When it succeeds, it has made one store update, whose upserts are the
    new branch with the base and base hash of [C], then [C] with the new branch as
    base, and it has run the upstack restack after that update; in the store
    after the update the new branch has the base and the base hash of [C], and [C]
    has the new branch as base (for a record of [C] with a base and a base hash,
    and a new branch whose key is not the key of [C]). *)
Theorem create_below env cmd repo w C :
  Below cmd = true ->
  git_Open env = Ok repo ->
  Git.CurrentBranch repo = Ok C ->
  (C = trunk (store w) \/ (exists e, Lookup (store w) C = Err e) ->
   exists e evs, fst (Run env cmd w) = Err e /\
     store (snd (Run env cmd w)) = store w /\
     trace (snd (Run env cmd w)) = trace w ++ evs /\ Forall is_log evs) /\
  (forall w', Run env cmd w = (Ok tt, w') ->
   exists c s1 commitReq,
     C <> trunk (store w) /\
     Lookup (store w) C = Ok c /\
     Update (now env) (store w) (below_request cmd C c) = (Ok tt, s1) /\
     upstackRestackCmd_Run env s1 = (Ok tt, store w') /\
     trace w' = trace w ++
       [ EvDetachHead (lr_Base c); EvCommit commitReq;
         EvCreateBranch {| Git.cbr_Name := Name cmd; Git.cbr_Head := "HEAD" |};
         EvCheckout (Name cmd);
         EvStateUpdate (below_request cmd C c);
         EvUpstackRestack ] /\
     (lr_Base c <> "" -> lr_BaseHash c <> "" ->
      branchJSON (store w) (Name cmd) <> branchJSON (store w) C ->
      (exists n, Lookup s1 (Name cmd) =
         Ok {| lr_Name := Name cmd; lr_Base := lr_Base c;
               lr_BaseHash := lr_BaseHash c; lr_PR := n |}) /\
      Lookup s1 C =
        Ok {| lr_Name := C; lr_Base := Name cmd;
              lr_BaseHash := lr_BaseHash c; lr_PR := lr_PR c |})).
Proof.
  intros HB Hopen HC. split; [by apply (create_below_refused env cmd repo)|].
  intros w' HR.
  assert (Hname : Name cmd <> "").
  { intros Hn. unfold Run in HR. unfold_monad. rewrite Hopen in HR. cbn in HR.
    destruct (ensureStore env); cbn in HR; [|discriminate].
    rewrite decide_True in HR by done. discriminate. }
  destruct (create_below_done env cmd repo w C w' HB Hopen HC HR)
    as (c & s1 & commitReq & Hne & HL & HU & Hrestack & Htrace).
  clear HR.
  exists c, s1, commitReq.
  split; [done|]. split; [done|]. split; [done|]. split; [done|]. split; [done|].
  intros Hbase Hhash Hkeys. split.
  - destruct (Update_Lookup (now env) (store w) _ s1 [] _ _ HU eq_refl)
      as (st & Hst & _ & HLook).
    + constructor; [cbn; congruence|constructor].
    + cbn. apply not_elem_of_nil.
    + cbn in HLook, Hst. unfold upsert_state in Hst. cbn in Hst.
      destruct (Lookup (store w) (Name cmd)) as [prev|e] eqn:Hprev.
      * rewrite !decide_True in Hst by done.
        injection Hst as <-. cbn in HLook. eauto.
      * rewrite (Lookup_Err_NotExist _ _ _ Hprev) in Hst. cbn in Hst.
        rewrite !decide_True in Hst by done.
        injection Hst as <-. cbn in HLook. eauto.
  - destruct (Update_Lookup (now env) (store w) _ s1 [_] _ [] HU eq_refl)
      as (st & Hst & _ & HLook).
    + constructor.
    + cbn. apply not_elem_of_nil.
    + cbn in HLook, Hst. unfold upsert_state in Hst. cbn in Hst. rewrite HL in Hst.
      rewrite (decide_True (P := Name cmd <> "")) in Hst by done.
      rewrite (decide_False (P := "" <> "")) in Hst by (intros ?; done).
      injection Hst as <-. exact HLook.
Qed.

Lemma create_below_witness :
  Below Scenario.below_cmd = true /\
  git_Open Scenario.create_env = Ok (Scenario.git "feat-b") /\
  Git.CurrentBranch (Scenario.git "feat-b") = Ok "feat-b" /\
  Run Scenario.create_env Scenario.below_cmd (mkWorld Scenario.store_ab [])
    = (Ok tt, snd (Run Scenario.create_env Scenario.below_cmd
                     (mkWorld Scenario.store_ab []))) /\
  exists c s1,
    Lookup Scenario.store_ab "feat-b" = Ok c /\
    Update "t1" Scenario.store_ab (below_request Scenario.below_cmd "feat-b" c)
      = (Ok tt, s1) /\
    (exists n, Lookup s1 "feat-mid" =
       Ok {| lr_Name := "feat-mid"; lr_Base := lr_Base c;
             lr_BaseHash := lr_BaseHash c; lr_PR := n |}) /\
    Lookup s1 "feat-b" =
      Ok {| lr_Name := "feat-b"; lr_Base := "feat-mid";
            lr_BaseHash := lr_BaseHash c; lr_PR := lr_PR c |}.
Proof.
  assert (H1 : Below Scenario.below_cmd = true) by reflexivity.
  assert (H2 : git_Open Scenario.create_env = Ok (Scenario.git "feat-b")) by reflexivity.
  assert (H3 : Git.CurrentBranch (Scenario.git "feat-b") = Ok "feat-b") by reflexivity.
  assert (H4 : Run Scenario.create_env Scenario.below_cmd (mkWorld Scenario.store_ab [])
    = (Ok tt, snd (Run Scenario.create_env Scenario.below_cmd
                     (mkWorld Scenario.store_ab []))))
    by (vm_compute; reflexivity).
  split; [exact H1|]. split; [exact H2|]. split; [exact H3|]. split; [exact H4|].
  destruct (proj2 (create_below Scenario.create_env Scenario.below_cmd
                     (Scenario.git "feat-b") (mkWorld Scenario.store_ab []) "feat-b"
                     H1 H2 H3) _ H4)
    as (c & s1 & commitReq & _ & HL & HU & _ & _ & Hstore).
  assert (H5 : Lookup Scenario.store_ab "feat-b" =
               Ok {| lr_Name := "feat-b"; lr_Base := "feat-a"; lr_BaseHash := "Ha";
                     lr_PR := 0 |})
    by (vm_compute; reflexivity).
  cbn [store] in HL, HU, Hstore. rewrite H5 in HL. injection HL as <-.
  eexists _, s1. split; [exact H5|]. split; [exact HU|].
  apply Hstore; cbn; try congruence.
  vm_compute. congruence.
Defined.

End CreateFacts.

(** ** The store of [internal/spice/state] and [branch fold] *)

Section SpiceFacts.
Import SpiceState.



End SpiceFacts.

Section FoldFacts.
Import SpiceState BranchFold.





Lemma UpdateBranch_Ok s req s' :
  UpdateBranch s req = (Ok tt, s') ->
  exists m, apply_upserts s (Upserts req) (branches s) = Ok m /\
    branches s' = apply_deletes m (Deletes req) /\
    trunk s' = trunk s /\ prepared s' = prepared s /\
    messages s' = messages s ++ [Message req].
Proof.
  unfold UpdateBranch.
  destruct (apply_upserts _ _ _) as [m|]; [|discriminate].
  destruct (existsb _ _); [discriminate|].
  intros [= <-]. exists m. done.
Qed.




End FoldFacts.

(** ** [branch submit] *)

Section Emits.
Context {S : Type}.

Lemma emits_ret P {A} (a : A) : emits (S:=S) P (ret a).
Proof. intros w r w' [= <- <-]. exists []. by rewrite app_nil_r. Qed.

Lemma emits_fail P {A} e : emits (S:=S) P (fail (A:=A) e).
Proof. intros w r w' [= <- <-]. exists []. by rewrite app_nil_r. Qed.

Lemma emits_lift P {A} (x : Res A) : emits (S:=S) P (lift x).
Proof. intros w r w' [= <- <-]. exists []. by rewrite app_nil_r. Qed.

Lemma emits_get_store P : emits (S:=S) P (get_store (S:=S)).
Proof. intros w r w' [= <- <-]. exists []. by rewrite app_nil_r. Qed.

Lemma emits_emit (P : Event -> Prop) ev : P ev -> emits (S:=S) P (emit ev).
Proof. intros HP w r w' [= <- <-]. exists [ev]. split; [done|]. by repeat constructor. Qed.

Lemma emits_logf (P : Event -> Prop) level format args :
  P (EvLog level format args) -> emits (S:=S) P (logf level format args).
Proof. apply emits_emit. Qed.

Lemma emits_bind P {A B} (m : M A) (k : A -> M B) :
  emits (S:=S) P m -> (forall a, emits (S:=S) P (k a)) -> emits (S:=S) P (bind m k).
Proof.
  intros Hm Hk w r w'. unfold bind.
  destruct (m w) as [[a|e] w1] eqn:H1.
  - intros H2. destruct (Hm _ _ _ H1) as (evs1 & E1 & HP1).
    destruct (Hk a _ _ _ H2) as (evs2 & E2 & HP2).
    exists (evs1 ++ evs2). rewrite E2, E1, app_assoc. split; [done|]. by apply Forall_app.
  - intros [= <- <-]. by apply (Hm _ _ _ H1).
Qed.

Lemma emits_call (P : Event -> Prop) {A} ev (x : Res A) : P ev -> emits (S:=S) P (call ev x).
Proof. intros HP. apply emits_bind; [by apply emits_emit|intros; apply emits_lift]. Qed.

Lemma emits_catch P {A} (m : M A) : emits (S:=S) P m -> emits (S:=S) P (catch m).
Proof.
  intros Hm w r w'. unfold catch. destruct (m w) as [r1 w1] eqn:H1.
  intros [= <- <-]. by apply (Hm _ _ _ H1).
Qed.

Lemma emits_on_store (P : Event -> Prop) {A} ev (f : S -> Res A * S) :
  P ev -> emits (S:=S) P (on_store ev f).
Proof.
  intros HP w r w'. unfold on_store. destruct (f (store w)) as [r1 s1].
  intros [= <- <-]. exists [ev]. split; [done|]. by repeat constructor.
Qed.

Lemma emits_impl (P Q : Event -> Prop) {A} (m : M A) :
  (forall ev, P ev -> Q ev) -> emits (S:=S) P m -> emits (S:=S) Q m.
Proof.
  intros HPQ Hm w r w' H. destruct (Hm _ _ _ H) as (evs & E & HP).
  exists evs. split; [done|]. eapply Forall_impl; eauto.
Qed.

End Emits.

Ltac emits_step :=
  cbv beta;
  lazymatch goal with
  | |- emits _ (bind _ _) => apply emits_bind; [|intros]
  | |- emits _ (ret _) => apply emits_ret
  | |- emits _ (fail _) => apply emits_fail
  | |- emits _ (lift _) => apply emits_lift
  | |- emits _ get_store => apply emits_get_store
  | |- emits _ (logf _ _ _) => apply emits_logf; exact I
  | |- emits _ (emit _) => apply emits_emit; exact I
  | |- emits _ (call _ _) => apply emits_call; exact I
  | |- emits _ (catch _) => apply emits_catch
  | |- emits _ (on_store _ _) => apply emits_on_store; exact I
  | |- emits _ (match ?x with _ => _ end) => destruct x
  end.


Section SubmitFacts.
Import SpiceState BranchSubmit.

Ltac unfold_submit :=
  unfold with_store, set_session, session_remote, session_remoteRepo in *;
  unfold_monad.

Lemma emits_with_store (P : Event -> Prop) {A} ev (f : Store -> Res A * Store) :
  P ev -> emits P (with_store ev f).
Proof. intros HP. unfold with_store. by apply emits_on_store. Qed.

Lemma emits_set_session P f : emits P (set_session f).
Proof. intros w r w' [= <- <-]. exists []. by rewrite app_nil_r. Qed.

Ltac submit_step :=
  first [ emits_step
        | lazymatch goal with
          | |- emits _ (with_store _ _) => apply emits_with_store; exact I
          | |- emits _ (set_session _) => apply emits_set_session
          end ].

Lemma resolve_spec env cmd repo w r w' :
  resolve env cmd repo w = (r, w') ->
  st_store (store w') = st_store (store w) /\
  exists evs, trace w' = trace w ++ evs /\ Forall is_log evs /\
    forall ctx, r = Ok ctx ->
      evs = [] /\
      target_branch repo cmd = Ok (sc_name ctx) /\
      sc_name ctx <> trunk (st_store (store w)) /\
      LookupBranch (st_store (store w)) (sc_name ctx) = Ok (sc_branch ctx) /\
      Git.PeelToCommit repo (sc_name ctx) = Ok (sc_commitHash ctx) /\
      sc_upstreamBranch ctx = upstream_name (sc_branch ctx) (sc_name ctx).
Proof.
  unfold resolve. unfold_submit. unfold Trunk. intros H.
  repeat (case_match; simplify_eq/=); try done.
  all: split; [done|].
  all: try (exists []; rewrite app_nil_r; split; [done|]; split; [constructor|];
            intros ctx ?; simplify_eq/=; done).
  all: eexists; rewrite <- ?app_assoc; (split; [reflexivity|]);
       (split; [repeat constructor|]); intros ctx ?; simplify_eq/=.
Qed.

Lemma run_unfold env opts cmd repo w :
  run env opts cmd repo w =
    match resolve env cmd repo w with
    | (Ok ctx, w1) =>
        match find_existing env (sc_remoteRepo ctx) (sc_name ctx) (sc_branch ctx)
                (sc_upstreamBranch ctx) w1 with
        | (Ok None, w2) =>
            create_path env opts cmd repo (sc_remoteRepo ctx) (sc_name ctx)
              (sc_branch ctx) (sc_commitHash ctx) (sc_upstreamBranch ctx)
              (sc_remote ctx) w2
        | (Ok (Some pull), w2) =>
            update_path env cmd repo (sc_remoteRepo ctx) (sc_name ctx)
              (sc_branch ctx) (sc_commitHash ctx) (sc_upstreamBranch ctx)
              (sc_remote ctx) pull w2
        | (Err e, w2) => (Err e, w2)
        end
    | (Err e, w1) => (Err e, w1)
    end.
Proof.
  unfold run, bind. destruct (resolve env cmd repo w) as [[ctx|] w1]; [|done].
  destruct (find_existing _ _ _ _ _ _) as [[[pull|]|] w2]; done.
Qed.

Lemma find_existing_spec env remoteRepo name branch upstreamBranch w r w' :
  find_existing env remoteRepo name branch upstreamBranch w = (r, w') ->
  (w' = w /\
   (forall pull, r = Ok (Some pull) ->
      exists change, lb_Change branch = Some change /\
        Forge.FindChangeByID remoteRepo (ChangeID env change) = Ok pull) /\
   (r = Ok None ->
      lb_Change branch = None /\
      Forge.FindChangesByBranch remoteRepo upstreamBranch find_options = Ok []) /\
   (forall c md changeMeta, ~ adopts remoteRepo branch upstreamBranch c md changeMeta))
  \/
  (exists c md changeMeta,
     adopts remoteRepo branch upstreamBranch c md changeMeta /\
     st_session (store w') = st_session (store w) /\
     st_store (store w') =
       snd (UpdateBranch (st_store (store w)) (adopt_request name md changeMeta)) /\
     trace w' = trace w ++
       [ EvLog Info "%v: Found existing CR %v" [AStr name; AStr (Forge.fci_ID c)];
         EvUpdateBranch (adopt_request name md changeMeta) ] /\
     (r = Ok (Some c) /\
      fst (UpdateBranch (st_store (store w)) (adopt_request name md changeMeta)) = Ok tt
      \/ exists e, r = Err e)).
Proof.
  unfold find_existing, adopts. unfold_submit. intros H.
  repeat (case_match; simplify_eq/=).
  all: try (left; split; [done|]; repeat split; intros; simplify_eq/=;
            try done; try (by eexists); try (intros (? & ? & ? & ?); congruence); fail).
  all: right; do 3 eexists; split; [repeat split; eassumption|]; cbn;
       rewrite <- ?app_assoc; repeat split; try done.
  all: match goal with H : UpdateBranch _ _ = _ |- _ => rewrite H end; cbn; eauto.
  left. by destruct a1.
Qed.

Lemma log_updates_spec (updates : list string) : forall w : World SubmitState,
  log_updates updates w =
    (Ok tt, mkWorld (store w)
              (trace w ++ map (fun u => EvLog Info "  - %s" [AStr u]) updates)).
Proof.
  induction updates as [|u updates IH]; intros w; cbn.
  - unfold ret. rewrite app_nil_r. by destruct w.
  - unfold bind, logf, emit. cbn. rewrite IH. cbn. by rewrite <- app_assoc.
Qed.

Lemma create_path_dry env opts cmd repo remoteRepo name branch commitHash up remote w :
  DryRun cmd = true ->
  exists ev, is_log ev /\
    create_path env opts cmd repo remoteRepo name branch commitHash up remote w
      = (Ok tt, mkWorld (store w) (trace w ++ [ev])).
Proof.
  intros HD. unfold create_path. rewrite HD. unfold logf, emit.
  destruct (NoPublish cmd); eexists; (split; [|reflexivity]); done.
Qed.

Lemma update_path_dry env cmd repo remoteRepo name branch commitHash up remote pull w :
  DryRun cmd = true ->
  exists evs, Forall is_log evs /\
    update_path env cmd repo remoteRepo name branch commitHash up remote pull w
      = (Ok tt, mkWorld (store w) (trace w ++ evs)).
Proof.
  intros HD. unfold update_path. rewrite HD. unfold_monad.
  destruct (NoPublish cmd); case_decide; simpl;
    rewrite ?log_updates_spec; simpl; rewrite <- ?app_assoc;
    eexists; (split; [|reflexivity]); all_logs.
Qed.

Lemma effects_app l1 l2 : effects (l1 ++ l2) = effects l1 ++ effects l2.
Proof. apply filter_app. Qed.

Lemma effects_logs l : Forall is_log l -> effects l = [].
Proof.
  induction 1 as [|ev l Hev _ IH]; [done|].
  unfold effects in *. rewrite filter_cons_False; [done|]. by intros H.
Qed.

Lemma update_path_live env cmd repo ctx pull w r w' :
  DryRun cmd = false ->
  update_path env cmd repo (sc_remoteRepo ctx) (sc_name ctx) (sc_branch ctx)
    (sc_commitHash ctx) (sc_upstreamBranch ctx) (sc_remote ctx) pull w = (r, w') ->
  store w' = store w /\
  exists evs, trace w' = trace w ++ evs /\
    effects evs = update_effects env cmd repo ctx pull.
Proof.
  intros HD. unfold update_path, update_effects. rewrite HD. unfold_monad.
  intros H.
  assert (Hlen : forall l : list string, List.length l = 0 <-> l = []).
  { intros []; cbn; split; intros; done. }
  repeat (case_match; simplify_eq/=); try case_bool_decide; simplify_eq/=.
  all: split; [done|].
  all: repeat match goal with
       | H : context [decide _] |- _ => clear H
       end.
  all: try rewrite Hlen in *.
  all: repeat case_decide; try done; try lia.
  all: eexists; rewrite <- ?app_assoc; (split; [reflexivity|]); cbn.
  all: repeat match goal with H : Git.Push _ _ = _ |- _ => rewrite H end; cbn; try done.
  all: try (destruct (compute_updates _ _ _ _ _); cbn in *; done || lia).
Qed.
Lemma prompt_fields_emits env opts name fields title body draft :
  emits is_prepare (prompt_fields env opts name fields title body draft).
Proof. unfold prompt_fields. repeat submit_step. Qed.

Lemma preparePublish_emits env opts cmd name repo remoteRepo baseBranch :
  emits is_prepare (preparePublish env opts cmd name repo remoteRepo baseBranch).
Proof.
  unfold preparePublish.
  repeat first [ apply prompt_fields_emits | submit_step ].
Qed.


Lemma bind_call_trace (P : Event -> Prop) {A B} ev (x : Res A)
  (k : A -> M (S:=SubmitState) B) :
  (forall a, emits P (k a)) ->
  forall w r w', bind (call ev x) k w = (r, w') ->
    exists post, trace w' = trace w ++ ev :: post /\ Forall P post.
Proof.
  intros Hk w r w'. unfold_monad. destruct x as [a|e]; cbn.
  - intros H. destruct (Hk a _ _ _ H) as (evs & E & HP). cbn in E.
    exists evs. rewrite E, <- app_assoc. done.
  - intros [= <- <-]. exists []. done.
Qed.

Lemma Publish_trace remoteRepo p w r w' :
  Publish remoteRepo p w = (r, w') ->
  exists post, trace w' = trace w ++ EvSubmitChange (submit_request p) :: post /\
    Forall is_prepare post.
Proof.
  unfold Publish. apply bind_call_trace. intros result. repeat submit_step.
Qed.

Lemma publish_shape_bind prepared {A B} (m : M (S:=SubmitState) A) (k : A -> M B) :
  emits is_upstream m ->
  (forall a w r w', k a w = (r, w') -> publish_shape prepared (trace w) (trace w')) ->
  forall w r w', bind m k w = (r, w') -> publish_shape prepared (trace w) (trace w').
Proof.
  intros Hm Hk w r w'. unfold bind. destruct (m w) as [[a|e] w1] eqn:H1.
  - intros H2. destruct (Hm _ _ _ H1) as (evs & E & HP).
    destruct (Hk _ _ _ _ H2) as (mid & post & E2 & Hmid & Hpost).
    exists (evs ++ mid), post. rewrite E2, E, <- !app_assoc.
    split; [done|]. split; [by apply Forall_app|done].
  - intros [= <- <-]. destruct (Hm _ _ _ H1) as (evs & E & HP).
    exists evs, []. rewrite app_nil_r. split; [done|]. split; [done|]. by left.
Qed.

Lemma after_push_trace repo remoteRepo name remote prepared w r w' :
  after_push repo remoteRepo name remote prepared w = (r, w') ->
  publish_shape prepared (trace w) (trace w').
Proof.
  unfold after_push. revert w r w'.
  apply publish_shape_bind; [repeat submit_step|]. intros r0.
  apply publish_shape_bind; [repeat submit_step|]. intros _.
  destruct prepared as [p|].
  - intros w r w'. unfold bind at 1.
    destruct (Publish remoteRepo p w) as [[id|e] w1] eqn:HP;
      apply Publish_trace in HP as (post & E & Hpost).
    + unfold_monad. intros H.
      assert (w' = w1) as -> by (repeat (case_match; simplify_eq/=); done).
      exists [], (EvSubmitChange (submit_request p) :: post).
      split; [done|]. split; [constructor|]. right. eauto.
    + intros [= <- <-]. exists [], (EvSubmitChange (submit_request p) :: post).
      split; [done|]. split; [constructor|]. right. eauto.
  - intros w r w'. unfold_monad. intros [= <- <-]. cbn.
    eexists [_], []. rewrite app_nil_r. split; [done|].
    split; [by repeat constructor|by left].
Qed.

Lemma with_deferred_update_trace name up body w r w' :
  with_deferred_update name up body w = (r, w') ->
  exists change tail,
    trace w' = trace (snd (body w)) ++
      EvUpdateBranch (deferred_request name up change) :: tail /\
    Forall is_log tail /\
    (forall c, fst (body w) = Ok c -> change = c /\ r = Ok tt) /\
    (forall e, fst (body w) = Err e -> change = None /\ r = Err e).
Proof.
  unfold with_deferred_update, with_store, on_store.
  destruct (body w) as [r1 w1]. cbn.
  destruct (UpdateBranch _ _) as [r2 s2]. cbn.
  intros [= <- <-].
  exists (match r1 with Ok c => c | Err _ => None end).
  destruct r2; cbn.
  - exists []. repeat split; intros; subst; done.
  - eexists [_]. rewrite <- app_assoc. repeat split; intros; subst; try done.
    by repeat constructor.
Qed.

Lemma create_path_live env opts cmd repo ctx w r w' :
  DryRun cmd = false ->
  create_path env opts cmd repo (sc_remoteRepo ctx) (sc_name ctx) (sc_branch ctx)
    (sc_commitHash ctx) (sc_upstreamBranch ctx) (sc_remote ctx) w = (r, w') ->
  let pushOpts := push_options repo cmd (sc_remote ctx) (sc_commitHash ctx)
                    (sc_upstreamBranch ctx) in
  exists prep, Forall is_prepare prep /\
    (trace w' = trace w ++ prep
     \/ (trace w' = trace w ++ prep ++ [EvPush pushOpts] /\
         exists e, Git.Push repo pushOpts = Err e)
     \/ (Git.Push repo pushOpts = Ok tt /\
         exists prepared mid post change tail,
           trace w' = trace w ++ prep ++ EvPush pushOpts :: mid ++ post ++
                        EvUpdateBranch
                          (deferred_request (sc_name ctx) (sc_upstreamBranch ctx) change)
                        :: tail /\
           Forall is_upstream mid /\
           (post = [] \/
            exists p post', prepared = Some p /\ NoPublish cmd = false /\
              post = EvSubmitChange (submit_request p) :: post' /\
              Forall is_prepare post') /\
           Forall is_log tail)).
Proof.
  intros HD. unfold create_path. rewrite HD. cbv zeta.
  set (pushOpts := push_options _ _ _ _ _).
  match goal with
  | |- bind ?m _ w = _ -> _ => set (pm := m); assert (Hem : emits is_prepare pm)
  end.
  { subst pm. destruct (negb (NoPublish cmd));
      repeat first [apply preparePublish_emits | submit_step]. }
  unfold bind at 1.
  destruct (pm w) as [[prepared|e] w1] eqn:Hprep;
    destruct (Hem _ _ _ Hprep) as (prep & E & HP); intros H; exists prep; (split; [done|]).
  2:{ injection H as <- <-. by left. }
  revert H.
  assert (Hnp : forall p, prepared = Some p -> NoPublish cmd = false).
  { intros p ->. subst pm. destruct (NoPublish cmd); [|done]. cbn in Hprep.
    unfold ret in Hprep. discriminate. }
  unfold bind, call, emit, lift, wrap. cbn.
  destruct (Git.Push repo pushOpts) as [[]|e] eqn:HPush.
  2:{ intros [= <- <-]. cbn. right; left. rewrite E, <- app_assoc. eauto. }
  intros H. right; right. split; [done|].
  apply with_deferred_update_trace in H as (change & tail & Et & Htail & _).
  destruct (after_push _ _ _ _ _ _) as [r1 w2] eqn:Hafter. cbn in Et.
  apply after_push_trace in Hafter as (mid & post & E2 & Hmid & Hpost). cbn in E2.
  exists prepared, mid, post, change, tail.
  split.
  { rewrite Et, E2, E. rewrite <- ?app_assoc. cbn. rewrite <- ?app_assoc. done. }
  split; [done|]. split; [|done].
  destruct Hpost as [->|(p & post' & -> & -> & Hp')]; [by left|].
  right. exists p, post'. repeat split; try done. by apply (Hnp p).
Qed.

Lemma log_updates_emits (P : Event -> Prop) updates :
  (forall l f a, P (EvLog l f a)) -> emits P (log_updates updates).
Proof.
  intros HP. induction updates as [|u updates IH]; cbn.
  - apply emits_ret.
  - apply emits_bind; [apply emits_logf, HP|intros; apply IH].
Qed.

Lemma update_path_emits env cmd repo remoteRepo name branch commitHash up remote pull :
  emits is_update_event
    (update_path env cmd repo remoteRepo name branch commitHash up remote pull).
Proof.
  unfold update_path.
  repeat first [ apply log_updates_emits; intros; exact I | submit_step ].
Qed.

Lemma update_path_store env cmd repo ctx pull w r w' :
  update_path env cmd repo (sc_remoteRepo ctx) (sc_name ctx) (sc_branch ctx)
    (sc_commitHash ctx) (sc_upstreamBranch ctx) (sc_remote ctx) pull w = (r, w') ->
  store w' = store w.
Proof.
  destruct (DryRun cmd) eqn:HD.
  - destruct (update_path_dry env cmd repo (sc_remoteRepo ctx) (sc_name ctx)
                (sc_branch ctx) (sc_commitHash ctx) (sc_upstreamBranch ctx)
                (sc_remote ctx) pull w HD) as (evs & _ & ->).
    by intros [= <- <-].
  - intros H. by apply (update_path_live env cmd repo ctx pull w r w' HD).
Qed.

Lemma Forall_elem_False (P : Event -> Prop) evs ev :
  Forall P evs -> ev ∈ evs -> ~ P ev -> False.
Proof. rewrite Forall_forall. intros H Hin Hn. by apply Hn, H. Qed.

Lemma effects_elem ev evs : ev ∈ effects evs <-> ev ∈ evs /\ ~ is_log ev.
Proof. unfold effects. rewrite list_elem_of_filter. tauto. Qed.

(** C2, as the code has it.  When the branch has a change request and the run is
    not a dry run, [EditChange] is called if and only if the list of updates is
    not empty and the push, when the head differs, has succeeded: the edit follows
    every update, also one that only pushes.  In particular, when only the head
    hash differs (base as recorded, no draft flag), the run makes exactly one
    push, with force-with-lease on the hash of the remote branch when it is not
    forced, and then exactly one [EditChange], which carries the base of the
    branch and no draft value. *)
Theorem update_existing_edits env opts cmd repo w ctx w1 pull w2 r w' :
  DryRun cmd = false ->
  resolve env cmd repo w = (Ok ctx, w1) ->
  find_existing env (sc_remoteRepo ctx) (sc_name ctx) (sc_branch ctx)
    (sc_upstreamBranch ctx) w1 = (Ok (Some pull), w2) ->
  run env opts cmd repo w = (r, w') ->
  let updates := compute_updates env cmd pull (sc_branch ctx) (sc_commitHash ctx) in
  let pushOpts := push_options repo cmd (sc_remote ctx) (sc_commitHash ctx)
                    (sc_upstreamBranch ctx) in
  let editOpts := {| Forge.eco_Base := lb_Base (sc_branch ctx);
                     Forge.eco_Draft := Draft cmd |} in
  exists evs, trace w' = trace w2 ++ evs /\
    store w' = store w2 /\
    effects evs = update_effects env cmd repo ctx pull /\
    ((exists id o, EvEditChange id o ∈ evs) <->
     updates <> [] /\
     (Forge.fci_HeadHash pull <> sc_commitHash ctx -> Git.Push repo pushOpts = Ok tt)) /\
    (Forge.fci_HeadHash pull <> sc_commitHash ctx ->
     Forge.fci_BaseName pull = lb_Base (sc_branch ctx) ->
     Draft cmd = None ->
     Git.Push repo pushOpts = Ok tt ->
     updates = ["push branch"] /\
     effects evs = [EvPush pushOpts; EvEditChange (Forge.fci_ID pull) editOpts] /\
     Forge.eco_Draft editOpts = None /\
     (Force cmd = false ->
      forall h, Git.PeelToCommit repo (sc_remote ctx ++ "/" ++ sc_upstreamBranch ctx)%string = Ok h ->
        Git.po_Force pushOpts = false /\
        Git.po_ForceWithLease pushOpts = (sc_upstreamBranch ctx ++ ":" ++ h)%string)).
Proof.
  intros HD Hres Hfind. rewrite run_unfold, Hres, Hfind. intros Hup. cbv zeta.
  destruct (update_path_live env cmd repo ctx pull w2 r w' HD Hup) as (Hst & evs & Ht & Heff).
  exists evs. split; [done|]. split; [done|]. split; [done|]. split.
  - split.
    + intros (id & o & Hin).
      assert (Hin' : EvEditChange id o ∈ effects evs) by (apply effects_elem; split; [done|by intros []]).
      rewrite Heff in Hin'. unfold update_effects in Hin'.
      case_decide; [by apply elem_of_nil in Hin'|]. split; [done|].
      intros Hhead. rewrite decide_True in Hin' by done.
      destruct (Git.Push repo _) as [[]|e]; [done|]. cbn in Hin'.
      apply list_elem_of_singleton in Hin'. discriminate.
    + intros [Hne Hpush].
      assert (Hin' : EvEditChange (Forge.fci_ID pull)
                {| Forge.eco_Base := lb_Base (sc_branch ctx); Forge.eco_Draft := Draft cmd |}
                ∈ effects evs).
      { rewrite Heff. unfold update_effects. rewrite decide_False by done.
        case_decide; [|apply list_elem_of_singleton; done].
        rewrite Hpush by done. cbn. apply elem_of_cons. right.
        by apply list_elem_of_singleton. }
      apply effects_elem in Hin' as [Hin' _]. eauto.
  - intros Hhead Hbase Hdraft Hpush.
    assert (Hupd : compute_updates env cmd pull (sc_branch ctx) (sc_commitHash ctx)
                   = ["push branch"]).
    { unfold compute_updates. rewrite Hdraft.
      rewrite decide_True by done. rewrite decide_False by (intros ?; done). done. }
    split; [done|]. split.
    { rewrite Heff. unfold update_effects. rewrite Hupd.
      rewrite decide_False by done. rewrite decide_True by done.
      rewrite Hpush. cbn. by rewrite Hdraft. }
    split; [done|].
    intros HF h Hh. unfold push_options. cbn. rewrite HF. cbn. rewrite Hh. done.
Qed.

Lemma update_existing_edits_witness :
  let env := Scenario.submit_env [] in
  let cmd := Scenario.submit_cmd false false in
  let repo := Scenario.git "feat-a" in
  let w := Scenario.submit_world (Some Scenario.recorded7) in
  let ctx := Scenario.context (Some Scenario.recorded7) [] in
  let w1 := snd (resolve env cmd repo w) in
  DryRun cmd = false /\
  resolve env cmd repo w = (Ok ctx, w1) /\
  find_existing env (sc_remoteRepo ctx) (sc_name ctx) (sc_branch ctx)
    (sc_upstreamBranch ctx) w1 = (Ok (Some Scenario.change7), w1) /\
  run env Scenario.no_prompt cmd repo w
    = (Ok tt, snd (run env Scenario.no_prompt cmd repo w)) /\
  exists evs,
    trace (snd (run env Scenario.no_prompt cmd repo w)) = trace w1 ++ evs /\
    effects evs =
      [ EvPush {| Git.po_Remote := "origin"; Git.po_Refspec := "H1:refs/heads/feat-a";
                  Git.po_Force := false; Git.po_ForceWithLease := "feat-a:H0" |};
        EvEditChange "#7" {| Forge.eco_Base := "main"; Forge.eco_Draft := None |} ].
Proof.
  cbv zeta.
  assert (H1 : DryRun (Scenario.submit_cmd false false) = false) by reflexivity.
  assert (H2 : resolve (Scenario.submit_env []) (Scenario.submit_cmd false false)
                 (Scenario.git "feat-a") (Scenario.submit_world (Some Scenario.recorded7))
               = (Ok (Scenario.context (Some Scenario.recorded7) []),
                  snd (resolve (Scenario.submit_env []) (Scenario.submit_cmd false false)
                         (Scenario.git "feat-a")
                         (Scenario.submit_world (Some Scenario.recorded7)))))
    by (vm_compute; reflexivity).
  assert (H3 : find_existing (Scenario.submit_env [])
                 (sc_remoteRepo (Scenario.context (Some Scenario.recorded7) []))
                 (sc_name (Scenario.context (Some Scenario.recorded7) []))
                 (sc_branch (Scenario.context (Some Scenario.recorded7) []))
                 (sc_upstreamBranch (Scenario.context (Some Scenario.recorded7) []))
                 (snd (resolve (Scenario.submit_env []) (Scenario.submit_cmd false false)
                         (Scenario.git "feat-a")
                         (Scenario.submit_world (Some Scenario.recorded7))))
               = (Ok (Some Scenario.change7),
                  snd (resolve (Scenario.submit_env []) (Scenario.submit_cmd false false)
                         (Scenario.git "feat-a")
                         (Scenario.submit_world (Some Scenario.recorded7)))))
    by (vm_compute; reflexivity).
  assert (H4 : run (Scenario.submit_env []) Scenario.no_prompt
                 (Scenario.submit_cmd false false) (Scenario.git "feat-a")
                 (Scenario.submit_world (Some Scenario.recorded7))
               = (Ok tt,
                  snd (run (Scenario.submit_env []) Scenario.no_prompt
                         (Scenario.submit_cmd false false) (Scenario.git "feat-a")
                         (Scenario.submit_world (Some Scenario.recorded7)))))
    by (vm_compute; reflexivity).
  split; [exact H1|]. split; [exact H2|]. split; [exact H3|]. split; [exact H4|].
  destruct (update_existing_edits _ _ _ _ _ _ _ _ _ _ _ H1 H2 H3 H4)
    as (evs & Ht & _ & _ & _ & Honly).
  exists evs. split; [exact Ht|].
  destruct Honly as (_ & Heff & _); [cbn; congruence|reflexivity|reflexivity|reflexivity|].
  exact Heff.
Defined.

(** C2 fails on the code.  The change request of [feat-a] has the base of the
    branch and its head is behind the branch; no draft flag is given.  The list
    of updates is the push alone, and the run pushes and then calls
    [EditChange]. *)
Lemma push_only_update_calls_editChange :
  let env := Scenario.submit_env [] in
  let cmd := Scenario.submit_cmd false false in
  let out := run env Scenario.no_prompt cmd (Scenario.git "feat-a")
               (Scenario.submit_world (Some Scenario.recorded7)) in
  compute_updates env cmd Scenario.change7
    (sc_branch (Scenario.context (Some Scenario.recorded7) [])) "H1" = ["push branch"] /\
  fst out = Ok tt /\
  effects (trace (snd out)) =
    [ EvPush {| Git.po_Remote := "origin"; Git.po_Refspec := "H1:refs/heads/feat-a";
                Git.po_Force := false; Git.po_ForceWithLease := "feat-a:H0" |};
      EvEditChange "#7" {| Forge.eco_Base := "main"; Forge.eco_Draft := None |} ].
Proof. cbv zeta. repeat split; vm_compute; reflexivity. Qed.

Lemma elem_of_app_cons_inv (ev x : Event) (l1 l2 : list Event) :
  ev ∈ l1 ++ x :: l2 -> ev ∈ l1 \/ ev = x \/ ev ∈ l2.
Proof. rewrite elem_of_app, elem_of_cons. tauto. Qed.


Lemma adopt_request_store s name md changeMeta s' rec :
  UpdateBranch s (adopt_request name md changeMeta) = (Ok tt, s') ->
  branches s !! name = Some rec ->
  branches s' !! name =
    Some {| br_Base := br_Base rec; br_BaseHash := br_BaseHash rec;
            br_UpstreamBranch := br_UpstreamBranch rec;
            br_Change := Some {| cr_Forge := Forge.md_ForgeID md;
                                 cr_Data := changeMeta |} |}.
Proof.
  intros HU Hrec. apply UpdateBranch_Ok in HU as (m & Hm & -> & _).
  cbn in Hm. rewrite Hrec in Hm. cbn in Hm.
  destruct (decide (name = trunk s)); [discriminate|].
  rewrite (decide_True (P := "" = "")) in Hm by done.
  destruct (decide (br_Base rec = "")); [discriminate|].
  injection Hm as <-. cbn. rewrite lookup_insert_eq.
  unfold merge_upsert. cbn. rewrite !(decide_True (P := "" = "")) by done. done.
Qed.

(** C7. When the branch has no recorded change and the search for open change
    requests of its upstream name (state open, limit 3) returns exactly one, a
    successful run has upserted the marshalled metadata of that change request,
    with the id of its forge, into the record of the branch: the record after
    the run has that change and is otherwise as before.  And this is the only
    healing: every branch update that a run of [branch submit] writes to the store
    is either that upsert, in that situation, or the deferred upsert that records
    a push that the run has made for a branch without a change request. *)
Theorem adopt_is_the_only_healing env opts cmd repo w r w' evs :
  run env opts cmd repo w = (r, w') ->
  trace w' = trace w ++ evs ->
  (forall ctx w1 c,
     resolve env cmd repo w = (Ok ctx, w1) ->
     lb_Change (sc_branch ctx) = None ->
     Forge.FindChangesByBranch (sc_remoteRepo ctx) (sc_upstreamBranch ctx) find_options
       = Ok [c] ->
     r = Ok tt ->
     exists md changeMeta rec rest,
       LookupBranch (st_store (store w)) (sc_name ctx) = Ok (sc_branch ctx) /\
       Forge.NewChangeMetadata (sc_remoteRepo ctx) (Forge.fci_ID c) = Ok md /\
       Forge.MarshalChangeMetadata (sc_remoteRepo ctx) md = Ok changeMeta /\
       evs = EvLog Info "%v: Found existing CR %v"
               [AStr (sc_name ctx); AStr (Forge.fci_ID c)]
             :: EvUpdateBranch (adopt_request (sc_name ctx) md changeMeta) :: rest /\
       Forall is_update_event rest /\
       branches (st_store (store w)) !! sc_name ctx = Some rec /\
       br_Change rec = None /\
       branches (st_store (store w')) !! sc_name ctx =
         Some {| br_Base := br_Base rec; br_BaseHash := br_BaseHash rec;
                 br_UpstreamBranch := br_UpstreamBranch rec;
                 br_Change := Some {| cr_Forge := Forge.md_ForgeID md;
                                      cr_Data := changeMeta |} |}) /\
  (forall req, EvUpdateBranch req ∈ evs ->
     exists ctx w1,
       resolve env cmd repo w = (Ok ctx, w1) /\
       ((exists c md changeMeta,
           adopts (sc_remoteRepo ctx) (sc_branch ctx) (sc_upstreamBranch ctx) c md changeMeta /\
           req = adopt_request (sc_name ctx) md changeMeta)
        \/
        (exists change,
           let pushOpts := push_options repo cmd (sc_remote ctx) (sc_commitHash ctx)
                             (sc_upstreamBranch ctx) in
           lb_Change (sc_branch ctx) = None /\
           Forge.FindChangesByBranch (sc_remoteRepo ctx) (sc_upstreamBranch ctx)
             find_options = Ok [] /\
           Git.Push repo pushOpts = Ok tt /\
           EvPush pushOpts ∈ evs /\
           req = deferred_request (sc_name ctx) (sc_upstreamBranch ctx) change))).
Proof.
  rewrite run_unfold. intros Hrun Htrace.
  destruct (resolve env cmd repo w) as [r1 w1] eqn:Hres.
  destruct (resolve_spec _ _ _ _ _ _ Hres) as (Hs1 & evs1 & Ht1 & Hlog1 & Hctx).
  destruct r1 as [ctx|e].
  2:{ injection Hrun as <- <-. rewrite Ht1 in Htrace. apply app_inv_head in Htrace as <-.
      split; [intros ? ? ? [=]|].
      intros req Hin. destruct (Forall_elem_False _ _ _ Hlog1 Hin). by intros []. }
  destruct (Hctx ctx eq_refl) as (-> & _ & _ & HLB & _). rewrite app_nil_r in Ht1.
  destruct (find_existing _ _ _ _ _ w1) as [r2 w2] eqn:Hfind.
  pose proof Hfind as Hfind'.
  apply find_existing_spec in Hfind'
    as [(-> & Hsome & Hnone & Hnadopt)|(c & md & meta & Hadopt & Hss & Hst & Ht2 & Hr2)].
  - (* no adoption *)
    split.
    { intros ctx' w1' c [= <- <-] Hch Hfc ->.
      destruct r2 as [[pull|]|e].
      - destruct (Hsome pull eq_refl) as (change & Hc & _). congruence.
      - destruct (Hnone eq_refl) as [_ Hf]. congruence.
      - discriminate. }
    intros req Hin. exists ctx, w1. split; [done|]. right.
    destruct r2 as [[pull|]|e].
    + destruct (update_path_emits _ _ _ _ _ _ _ _ _ _ _ _ _ Hrun) as (evs2 & E2 & HP2).
      rewrite E2, Ht1 in Htrace. apply app_inv_head in Htrace as <-.
      destruct (Forall_elem_False _ _ _ HP2 Hin). by intros [].
    + destruct (Hnone eq_refl) as [Hch Hfc].
      destruct (DryRun cmd) eqn:HD.
      * destruct (create_path_dry env opts cmd repo (sc_remoteRepo ctx) (sc_name ctx)
                    (sc_branch ctx) (sc_commitHash ctx) (sc_upstreamBranch ctx)
                    (sc_remote ctx) w1 HD) as (ev & Hlog & Hc).
        rewrite Hc in Hrun. injection Hrun as <- <-. cbn in Htrace.
        rewrite Ht1 in Htrace. apply app_inv_head in Htrace as <-.
        apply list_elem_of_singleton in Hin as <-. done.
      * destruct (create_path_live env opts cmd repo ctx w1 r w' HD Hrun)
          as (prep & Hprep & Hcases). rewrite Ht1 in Hcases.
        destruct Hcases as [E|[[E _]|(HPush & prepared & mid & post & change & tail
                                       & E & Hmid & Hpost & Htail)]];
          rewrite E in Htrace; apply app_inv_head in Htrace as <-.
        -- destruct (Forall_elem_False _ _ _ Hprep Hin). by intros [].
        -- apply elem_of_app in Hin as [Hin|Hin].
           ++ destruct (Forall_elem_False _ _ _ Hprep Hin). by intros [].
           ++ apply list_elem_of_singleton in Hin. discriminate.
        -- exists change. cbv zeta.
           split; [done|]. split; [done|]. split; [done|].
           split. { apply elem_of_app. right. apply elem_of_cons. by left. }
           apply elem_of_app in Hin as [Hin|Hin].
           { destruct (Forall_elem_False _ _ _ Hprep Hin). by intros []. }
           apply elem_of_cons in Hin as [Hin|Hin]; [discriminate|].
           apply elem_of_app in Hin as [Hin|Hin].
           { destruct (Forall_elem_False _ _ _ Hmid Hin). by intros []. }
           apply elem_of_app in Hin as [Hin|Hin].
           { destruct Hpost as [->|(p & post' & -> & _ & -> & Hpost')];
               [by apply elem_of_nil in Hin|].
             apply elem_of_cons in Hin as [Hin|Hin]; [discriminate|].
             destruct (Forall_elem_False _ _ _ Hpost' Hin). by intros []. }
           apply elem_of_cons in Hin as [Hin|Hin]; [by injection Hin|].
           destruct (Forall_elem_False _ _ _ Htail Hin). by intros [].
    + injection Hrun as <- <-. rewrite Ht1 in Htrace.
      rewrite <- (app_nil_r (trace w)) in Htrace at 1.
      apply app_inv_head in Htrace as <-. by apply elem_of_nil in Hin.
  - (* adoption *)
    assert (Hevs : exists rest, Forall is_update_event rest /\
              trace w' = trace w2 ++ rest /\
              (r = Ok tt -> r2 = Ok (Some c) /\ store w' = store w2)).
    { destruct r2 as [[pull|]|e].
      - destruct (update_path_emits _ _ _ _ _ _ _ _ _ _ _ _ _ Hrun) as (evs2 & E2 & HP2).
        exists evs2. split; [done|]. split; [done|]. intros _.
        destruct Hr2 as [[[= ->] _]|[e [=]]].
        split; [done|]. by apply (update_path_store env cmd repo ctx c w2 r w').
      - destruct Hr2 as [[[=] _]|[e [=]]].
      - injection Hrun as <- <-. exists []. rewrite app_nil_r.
        split; [constructor|]. split; [done|]. intros [=]. }
    destruct Hevs as (rest & Hrest & E2 & Hok).
    rewrite E2, Ht2, Ht1, <- app_assoc in Htrace.
    apply app_inv_head in Htrace as <-. cbn.
    split.
    + intros ctx' w1' c' [= <- <-] Hch Hfc ->.
      destruct Hadopt as (_ & Hfc' & Hmd & Hmeta).
      assert (c' = c) as -> by congruence.
      destruct (Hok eq_refl) as [-> Hstore].
      destruct Hr2 as [[_ HUok]|[e [=]]].
      unfold LookupBranch in HLB.
      destruct (branches (st_store (store w)) !! sc_name ctx) as [rec|] eqn:Hrec;
        [|discriminate].
      exists md, meta, rec, rest.
      split. { unfold LookupBranch. by rewrite Hrec. }
      split; [done|]. split; [done|]. split; [done|]. split; [done|].
      split; [done|].
      split. { injection HLB as HLB. rewrite <- HLB in Hch. exact Hch. }
      rewrite Hstore, Hst, Hs1. rewrite Hs1 in HUok.
      destruct (UpdateBranch (st_store (store w)) _) as [ru su] eqn:HU.
      cbn in HUok |- *. subst ru.
      by apply (adopt_request_store _ _ _ _ _ _ HU).
    + intros req Hin. exists ctx, w1. split; [done|].
      apply elem_of_cons in Hin as [Hin|Hin]; [discriminate|].
      apply elem_of_cons in Hin as [Hin|Hin].
      * injection Hin as ->. left. eauto.
      * destruct (Forall_elem_False _ _ _ Hrest Hin). by intros [].
Qed.

(** With [--dry-run], [Run] is [run] on a fresh session: nothing follows it. *)
Lemma Run_dry_run env opts cmd w :
  DryRun cmd = true ->
  Run env opts cmd w =
    match openRepo env with
    | Ok repo =>
        run env opts cmd repo
          (mkWorld {| st_store := st_store (store w); st_session := zero_session |}
             (trace w))
    | Err e => (Err e, w)
    end.
Proof.
  intros HD. unfold Run. rewrite HD. unfold bind, lift, set_session, ret.
  destruct (openRepo env) as [repo|e]; [|done]. cbn.
  destruct (run env opts cmd repo _) as [[[]|e] w']; done.
Qed.

(** C1, as the code has it.  A dry run makes no call with an effect on the
    repository or on the forge (no push, no [SubmitChange], no [EditChange]): all
    it adds to the trace is the log, and the store is as before, except in the
    adopt transition, where the branch has no recorded change and the search
    returns exactly one open change request: then the run makes one store write,
    the upsert of the metadata of that change request. *)
Theorem dry_run_writes env opts cmd repo w r w' :
  DryRun cmd = true ->
  run env opts cmd repo w = (r, w') ->
  exists evs, trace w' = trace w ++ evs /\
    ((Forall is_log evs /\ st_store (store w') = st_store (store w))
     \/
     (exists ctx w1 c md changeMeta logs1 logs2,
        resolve env cmd repo w = (Ok ctx, w1) /\
        adopts (sc_remoteRepo ctx) (sc_branch ctx) (sc_upstreamBranch ctx) c md changeMeta /\
        evs = logs1 ++ EvUpdateBranch (adopt_request (sc_name ctx) md changeMeta) :: logs2 /\
        Forall is_log logs1 /\ Forall is_log logs2 /\
        st_store (store w') =
          snd (UpdateBranch (st_store (store w))
                 (adopt_request (sc_name ctx) md changeMeta)))).
Proof.
  intros HD. rewrite run_unfold.
  destruct (resolve env cmd repo w) as [r1 w1] eqn:Hres.
  destruct (resolve_spec _ _ _ _ _ _ Hres) as (Hs1 & evs1 & Ht1 & Hlog1 & Hctx).
  destruct r1 as [ctx|e].
  2:{ intros [= <- <-]. exists evs1. split; [done|]. left. done. }
  destruct (Hctx ctx eq_refl) as (-> & _). rewrite app_nil_r in Ht1.
  destruct (find_existing _ _ _ _ _ w1) as [r2 w2] eqn:Hfind.
  apply find_existing_spec in Hfind
    as [(-> & _)|(c & md & meta & Hadopt & Hss & Hst & Ht2 & Hr2)].
  - (* no adoption *)
    destruct r2 as [[pull|]|e].
    + destruct (update_path_dry env cmd repo (sc_remoteRepo ctx) (sc_name ctx)
                  (sc_branch ctx) (sc_commitHash ctx) (sc_upstreamBranch ctx)
                  (sc_remote ctx) pull w1 HD) as (evs & Hlogs & ->).
      intros [= <- <-]. cbn. exists evs. rewrite Ht1. split; [done|]. left. done.
    + destruct (create_path_dry env opts cmd repo (sc_remoteRepo ctx) (sc_name ctx)
                  (sc_branch ctx) (sc_commitHash ctx) (sc_upstreamBranch ctx)
                  (sc_remote ctx) w1 HD) as (ev & Hlog & ->).
      intros [= <- <-]. cbn. exists [ev]. rewrite Ht1. split; [done|]. left.
      split; [by repeat constructor|done].
    + intros [= <- <-]. exists []. rewrite app_nil_r. split; [done|]. left. done.
  - (* adoption *)
    rewrite Hs1 in Hst. rewrite Ht1 in Ht2.
    destruct r2 as [[pull|]|e].
    + destruct (update_path_dry env cmd repo (sc_remoteRepo ctx) (sc_name ctx)
                  (sc_branch ctx) (sc_commitHash ctx) (sc_upstreamBranch ctx)
                  (sc_remote ctx) pull w2 HD) as (evs & Hlogs & ->).
      intros [= <- <-]. cbn. eexists. rewrite Ht2, <- app_assoc. split; [reflexivity|].
      right. exists ctx, w1, c, md, meta. eexists [_], evs.
      split; [done|]. split; [done|]. split; [reflexivity|].
      split; [all_logs|]. split; [done|]. done.
    + destruct Hr2 as [[[=] _]|[e [=]]].
    + intros [= <- <-]. eexists. split; [exact Ht2|].
      right. exists ctx, w1, c, md, meta. eexists [_], [].
      split; [done|]. split; [done|]. split; [reflexivity|].
      split; [all_logs|]. split; [all_logs|]. done.
Qed.


Lemma dry_run_writes_witness :
  let env := Scenario.submit_env [Scenario.change7] in
  let cmd := Scenario.submit_cmd true false in
  let repo := Scenario.git "feat-a" in
  let w := Scenario.submit_world None in
  let w' := snd (run env Scenario.no_prompt cmd repo w) in
  DryRun cmd = true /\
  run env Scenario.no_prompt cmd repo w = (Ok tt, w') /\
  exists evs, trace w' = trace w ++ evs /\
    ((Forall is_log evs /\ st_store (store w') = st_store (store w))
     \/
     (exists ctx w1 c md changeMeta logs1 logs2,
        resolve env cmd repo w = (Ok ctx, w1) /\
        adopts (sc_remoteRepo ctx) (sc_branch ctx) (sc_upstreamBranch ctx) c md changeMeta /\
        evs = logs1 ++ EvUpdateBranch (adopt_request (sc_name ctx) md changeMeta) :: logs2 /\
        Forall is_log logs1 /\ Forall is_log logs2 /\
        st_store (store w') =
          snd (UpdateBranch (st_store (store w))
                 (adopt_request (sc_name ctx) md changeMeta)))).
Proof.
  cbv zeta.
  assert (H1 : DryRun (Scenario.submit_cmd true false) = true) by reflexivity.
  assert (H2 : run (Scenario.submit_env [Scenario.change7]) Scenario.no_prompt
                 (Scenario.submit_cmd true false) (Scenario.git "feat-a")
                 (Scenario.submit_world None)
               = (Ok tt,
                  snd (run (Scenario.submit_env [Scenario.change7]) Scenario.no_prompt
                         (Scenario.submit_cmd true false) (Scenario.git "feat-a")
                         (Scenario.submit_world None))))
    by (vm_compute; reflexivity).
  split; [exact H1|]. split; [exact H2|].
  exact (dry_run_writes _ _ _ _ _ _ _ H1 H2).
Defined.

(** C1 fails on the code.  [feat-a] is tracked without a change, and the forge
    has exactly one open change request for it.  The dry run pushes nothing and
    calls neither [SubmitChange] nor [EditChange], but it writes the change into
    the record of [feat-a]: the store after the run is not the store before. *)
Lemma dry_run_adopt_changes_store :
  let env := Scenario.submit_env [Scenario.change7] in
  let cmd := Scenario.submit_cmd true false in
  let w := Scenario.submit_world None in
  let out := run env Scenario.no_prompt cmd (Scenario.git "feat-a") w in
  DryRun cmd = true /\
  branches (st_store (store w)) !! "feat-a" = Some (Scenario.record "main" "C0" None) /\
  Forge.FindChangesByBranch (Scenario.forge [Scenario.change7]) "feat-a" find_options
    = Ok [Scenario.change7] /\
  fst out = Ok tt /\
  effects (trace (snd out)) =
    [ EvUpdateBranch
        (adopt_request "feat-a"
           {| Forge.md_ForgeID := "github"; Forge.md_ChangeID := "#7" |} "#7") ] /\
  branches (st_store (store (snd out))) !! "feat-a"
    = Some (Scenario.record "main" "C0" (Some Scenario.recorded7)) /\
  st_store (store (snd out)) <> st_store (store w).
Proof.
  cbv zeta. repeat split; try (vm_compute; reflexivity).
  intros H. apply (f_equal (fun s => branches s !! "feat-a")) in H.
  vm_compute in H. discriminate.
Qed.

Lemma adopt_is_the_only_healing_witness :
  let env := Scenario.submit_env [Scenario.change7] in
  let cmd := Scenario.submit_cmd false false in
  let repo := Scenario.git "feat-a" in
  let w := Scenario.submit_world None in
  let ctx := Scenario.context None [Scenario.change7] in
  let w' := snd (run env Scenario.no_prompt cmd repo w) in
  run env Scenario.no_prompt cmd repo w = (Ok tt, w') /\
  trace w' = trace w ++ trace w' /\
  resolve env cmd repo w = (Ok ctx, snd (resolve env cmd repo w)) /\
  lb_Change (sc_branch ctx) = None /\
  Forge.FindChangesByBranch (sc_remoteRepo ctx) (sc_upstreamBranch ctx) find_options
    = Ok [Scenario.change7] /\
  branches (st_store (store w)) !! "feat-a" = Some (Scenario.record "main" "C0" None) /\
  branches (st_store (store w')) !! "feat-a"
    = Some (Scenario.record "main" "C0" (Some Scenario.recorded7)).
Proof.
  cbv zeta.
  assert (H1 : run (Scenario.submit_env [Scenario.change7]) Scenario.no_prompt
                 (Scenario.submit_cmd false false) (Scenario.git "feat-a")
                 (Scenario.submit_world None)
               = (Ok tt,
                  snd (run (Scenario.submit_env [Scenario.change7]) Scenario.no_prompt
                         (Scenario.submit_cmd false false) (Scenario.git "feat-a")
                         (Scenario.submit_world None))))
    by (vm_compute; reflexivity).
  assert (H2 : trace (snd (run (Scenario.submit_env [Scenario.change7]) Scenario.no_prompt
                             (Scenario.submit_cmd false false) (Scenario.git "feat-a")
                             (Scenario.submit_world None)))
               = trace (Scenario.submit_world None)
                 ++ trace (snd (run (Scenario.submit_env [Scenario.change7])
                                  Scenario.no_prompt (Scenario.submit_cmd false false)
                                  (Scenario.git "feat-a") (Scenario.submit_world None))))
    by reflexivity.
  assert (H3 : resolve (Scenario.submit_env [Scenario.change7])
                 (Scenario.submit_cmd false false) (Scenario.git "feat-a")
                 (Scenario.submit_world None)
               = (Ok (Scenario.context None [Scenario.change7]),
                  snd (resolve (Scenario.submit_env [Scenario.change7])
                         (Scenario.submit_cmd false false) (Scenario.git "feat-a")
                         (Scenario.submit_world None))))
    by (vm_compute; reflexivity).
  assert (H4 : lb_Change (sc_branch (Scenario.context None [Scenario.change7])) = None)
    by reflexivity.
  assert (H5 : Forge.FindChangesByBranch
                 (sc_remoteRepo (Scenario.context None [Scenario.change7]))
                 (sc_upstreamBranch (Scenario.context None [Scenario.change7]))
                 find_options = Ok [Scenario.change7])
    by reflexivity.
  split; [exact H1|]. split; [exact H2|]. split; [exact H3|]. split; [exact H4|].
  split; [exact H5|].
  destruct (proj1 (adopt_is_the_only_healing _ _ _ _ _ _ _ _ H1 H2) _ _ _ H3 H4 H5 eq_refl)
    as (md & changeMeta & rec & rest & _ & Hmd & Hmeta & _ & _ & Hrec & _ & Hafter).
  cbn in Hmd, Hmeta. injection Hmd as <-. cbn in Hmeta. injection Hmeta as <-.
  assert (H6 : branches (st_store (store (Scenario.submit_world None))) !! "feat-a"
               = Some (Scenario.record "main" "C0" None))
    by (vm_compute; reflexivity).
  split; [exact H6|].
  change (sc_name (Scenario.context None [Scenario.change7])) with "feat-a" in Hrec, Hafter.
  rewrite H6 in Hrec. injection Hrec as <-. exact Hafter.
Defined.


End SubmitFacts.

(** ** Keys of the store *)

Section PathFacts.
Import GoPath.

Lemma string_app_cons c (a b : string) : (String c a ++ b = String c (a ++ b))%string.
Proof. reflexivity. Qed.

Lemma string_app_nil_l (a : string) : ("" ++ a = a)%string.
Proof. reflexivity. Qed.

Lemma string_app_assoc (a b c : string) : ((a ++ b) ++ c = a ++ (b ++ c))%string.
Proof.
  induction a as [|x a IH]; [by rewrite !string_app_nil_l|].
  rewrite !string_app_cons. by f_equal.
Qed.

Lemma string_app_nil_r (a : string) : (a ++ "" = a)%string.
Proof.
  induction a as [|x a IH]; [done|]. rewrite string_app_cons. by f_equal.
Qed.

Lemma string_app_inj_l (a b c : string) : (a ++ b = a ++ c)%string -> b = c.
Proof.
  induction a as [|x a IH]; [done|].
  rewrite !string_app_cons. intros [= H]. by apply IH.
Qed.




(** Splitting at a slash splits the list of elements. *)
Lemma split_slash_app (a : string) : forall cur b,
  split_slash (a ++ String slash b) cur = split_slash a cur ++ split_slash b "".
Proof.
  induction a as [|c a IH]; intros cur b.
  - rewrite string_app_nil_l. reflexivity.
  - rewrite string_app_cons. cbn [split_slash].
    destruct (Ascii.eqb c slash); by rewrite IH.
Qed.

Lemma split_slash_nonempty (s : string) : forall cur, split_slash s cur <> [].
Proof.
  induction s as [|c s IH]; intros cur; cbn; [done|].
  destruct (Ascii.eqb c slash); [done|apply IH].
Qed.

Lemma concat_one sep x : String.concat sep [x] = x.
Proof. reflexivity. Qed.

Lemma concat_cons2 sep x y l :
  String.concat sep (x :: y :: l) = (x ++ sep ++ String.concat sep (y :: l))%string.
Proof. reflexivity. Qed.

Lemma concat_cons_nonempty sep x l :
  l <> [] -> String.concat sep (x :: l) = (x ++ sep ++ String.concat sep l)%string.
Proof. destruct l; [done|]. intros _. apply concat_cons2. Qed.

(** Joining the elements with slashes gives the path back. *)
Lemma concat_split_slash (s : string) : forall cur,
  String.concat "/" (split_slash s cur) = (cur ++ s)%string.
Proof.
  induction s as [|c s IH]; intros cur.
  - cbn [split_slash]. by rewrite concat_one, string_app_nil_r.
  - cbn [split_slash]. destruct (Ascii.eqb c slash) eqn:Hc.
    + apply Ascii.eqb_eq in Hc as ->.
      rewrite concat_cons_nonempty by apply split_slash_nonempty.
      rewrite IH. reflexivity.
    + rewrite IH, string_app_assoc. reflexivity.
Qed.

Lemma clean_elems_nonempty rooted : forall elems out,
  Forall (fun e => e <> "") out ->
  Forall (fun e => e <> "") (clean_elems rooted elems out).
Proof.
  induction elems as [|e elems IH]; intros out Hout; cbn.
  - by apply Forall_rev.
  - repeat case_decide; try (by apply IH).
    + destruct out as [|top out']; [destruct rooted; apply IH; by repeat constructor|].
      case_decide; apply IH; [by constructor|by inversion Hout].
    + apply IH. by constructor.
Qed.

Lemma concat_nonempty sep (l : list string) :
  l <> [] -> Forall (fun e => e <> "") l -> String.concat sep l <> "".
Proof.
  destruct l as [|x l]; [done|]. intros _ H. inversion H as [|? ? Hx _]; subst.
  destruct x as [|c x]; [done|]. destruct l; cbn; done.
Qed.

Lemma Clean_nonempty p : Clean p <> "".
Proof.
  unfold Clean. destruct p as [|c p]; [done|].
  destruct (Ascii.eqb c slash); [done|].
  destruct (clean_elems _ _ _) as [|x l] eqn:H; [done|].
  apply concat_nonempty; [done|]. rewrite <- H.
  apply clean_elems_nonempty. constructor.
Qed.

Lemma Clean_relative c p :
  Ascii.eqb c slash = false ->
  Clean (String c p) =
    let out := clean_elems false (split_slash (String c p) "") [] in
    match out with
    | [] => "."
    | _ => String.concat "/" out
    end.
Proof. intros H. unfold Clean. rewrite H. reflexivity. Qed.

(** [path.Clean] copies the elements it keeps. *)
Lemma clean_elems_kept es : forall rest out,
  Forall kept es ->
  clean_elems false (es ++ rest) out = clean_elems false rest (rev es ++ out).
Proof.
  induction es as [|e es IH]; intros rest out Hes; [done|].
  inversion Hes as [|? ? (H1 & H2 & H3) Hes']; subst.
  cbn [app clean_elems].
  rewrite (decide_False (P := e = "")) by done.
  rewrite (decide_False (P := e = ".")) by done.
  rewrite (decide_False (P := e = "..")) by done.
  rewrite IH by done. cbn [rev]. by rewrite <- app_assoc.
Qed.

Lemma kept_branches : kept "branches".
Proof. repeat split; discriminate. Qed.

(** A clean relative path under [branches] is clean, and a slash after it is
    dropped. *)
Lemma Clean_under_branches name :
  plain name ->
  Clean ("branches" ++ String slash name) = ("branches/" ++ name)%string /\
  Clean ("branches" ++ String slash (name ++ String slash ""))
    = ("branches/" ++ name)%string.
Proof.
  intros Hp.
  assert (Hall : Forall kept ("branches" :: split_slash name "")).
  { constructor; [apply kept_branches|exact Hp]. }
  assert (Hcat : String.concat "/" ("branches" :: split_slash name "")
                 = ("branches/" ++ name)%string).
  { rewrite concat_cons_nonempty by apply split_slash_nonempty.
    by rewrite concat_split_slash. }
  split.
  - change ("branches" ++ String slash name)%string
      with (String "b" ("ranches" ++ String slash name))%string.
    rewrite Clean_relative by done. cbv zeta.
    change (String "b" ("ranches" ++ String slash name))%string
      with ("branches" ++ String slash name)%string.
    rewrite split_slash_app.
    change (split_slash "branches" "") with ["branches"].
    change (["branches"] ++ split_slash name "") with ("branches" :: split_slash name "").
    replace (clean_elems false ("branches" :: split_slash name "") [])
      with ("branches" :: split_slash name ""); [exact Hcat|].
    rewrite <- (app_nil_r ("branches" :: split_slash name "")) at 2.
    rewrite clean_elems_kept by done.
    cbn [clean_elems]. by rewrite app_nil_r, rev_involutive.
  - change ("branches" ++ String slash (name ++ String slash ""))%string
      with (String "b" ("ranches" ++ String slash (name ++ String slash "")))%string.
    rewrite Clean_relative by done. cbv zeta.
    change (String "b" ("ranches" ++ String slash (name ++ String slash "")))%string
      with ("branches" ++ String slash (name ++ String slash ""))%string.
    rewrite !split_slash_app.
    change (split_slash "branches" "") with ["branches"].
    change (split_slash "" "") with [""].
    rewrite app_assoc.
    change (["branches"] ++ split_slash name "") with ("branches" :: split_slash name "").
    replace (clean_elems false (("branches" :: split_slash name "") ++ [""]) [])
      with ("branches" :: split_slash name ""); [exact Hcat|].
    rewrite clean_elems_kept by done.
    cbn [clean_elems]. rewrite (decide_True (P := "" = "")) by done.
    by rewrite app_nil_r, rev_involutive.
Qed.

Lemma Join_branches name :
  Join ["branches"; name] = Clean ("branches" ++ String slash name).
Proof.
  unfold Join.
  rewrite decide_False by (cbn; done).
  cbn [join_buf].
  rewrite (decide_True (P := "" = "")) by done.
  rewrite !(decide_False (P := "branches" = "")) by done. done.
Qed.

End PathFacts.

Section KeyFacts.
Import State.

(** The key of a branch is never the empty key. *)
Lemma branchJSON_nonempty s name : branchJSON s name <> "".
Proof.
  unfold branchJSON, _branchesDir. rewrite Join_branches. apply Clean_nonempty.
Qed.

Lemma branchJSON_plain s name :
  plain name -> branchJSON s name = ("branches/" ++ name)%string.
Proof.
  intros Hp. unfold branchJSON, _branchesDir. rewrite Join_branches.
  apply (Clean_under_branches name Hp).
Qed.

Lemma branchJSON_plain_slash s name :
  plain name -> branchJSON s (name ++ "/") = branchJSON s name.
Proof.
  intros Hp. rewrite (branchJSON_plain s name Hp).
  unfold branchJSON, _branchesDir. rewrite Join_branches.
  change (name ++ "/")%string with (name ++ String GoPath.slash "")%string.
  apply (Clean_under_branches name Hp).
Qed.


End KeyFacts.

(** ** Updates of the store *)

Section StoreUpdates.
Import State.

Lemma intended_keys s ups es k :
  Forall2 (intended s) ups es ->
  Forall (fun u => branchJSON s (ur_Name u) <> k) ups ->
  Forall (fun e => Key e <> k) es.
Proof.
  induction 1 as [|u e ups es (st & _ & _ & _ & _ & ->) _ IH]; intros Hk.
  - constructor.
  - inversion Hk; subst. constructor; [done|]. by apply IH.
Qed.

Lemma zero_keys n k : k <> "" -> Forall (fun e => Key e <> k) (replicate n zero_setRequest).
Proof.
  intros Hk. apply Forall_replicate. cbn. congruence.
Qed.

(** A successful update leaves alone every key, other than the empty key, that
    is not the key of one of its upserts and is not among its deletes. *)
Lemma Update_tree_untouched now s req s' k :
  Update now s req = (Ok tt, s') ->
  k <> "" ->
  Forall (fun u => branchJSON s (ur_Name u) <> k) (Upserts req) ->
  k ∉ Deletes req ->
  tree (b s') !! k = tree (b s) !! k.
Proof.
  intros HU Hk Hups Hdel.
  apply Update_Ok_tree in HU as (es & HF & _ & Htree).
  rewrite Htree, apply_dels_lookup_notin by done.
  apply apply_sets_lookup_notin, Forall_app. split.
  - by apply zero_keys.
  - by apply (intended_keys s (Upserts req)).
Qed.

Lemma Update_Lookup_untouched now s req s' name :
  Update now s req = (Ok tt, s') ->
  Forall (fun u => branchJSON s (ur_Name u) <> branchJSON s name) (Upserts req) ->
  branchJSON s name ∉ Deletes req ->
  Lookup s' name = Lookup s name.
Proof.
  intros HU Hups Hdel. unfold Lookup, backend_Get.
  change (branchJSON s' name) with (branchJSON s name).
  by rewrite (Update_tree_untouched now s req s' _ HU (branchJSON_nonempty s name)).
Qed.

(** X2. A successful [Store.Update] leaves alone every branch whose key is not the
    key of one of its upserts and is not among its deletes: [Lookup] of that
    branch returns what it returned before, and the trunk is unchanged.  The
    zero-valued set requests at the head of the list do not touch it, since no
    branch has the empty key. *)
Theorem Update_frame now s req s' name :
  Update now s req = (Ok tt, s') ->
  Forall (fun u => branchJSON s (ur_Name u) <> branchJSON s name) (Upserts req) ->
  branchJSON s name ∉ Deletes req ->
  Lookup s' name = Lookup s name /\ trunk s' = trunk s.
Proof.
  intros HU Hups Hdel. split.
  - by apply (Update_Lookup_untouched now s req).
  - by apply Update_Ok_tree in HU as (es & _ & Htrunk & _).
Qed.

Lemma Update_frame_witness :
  let req := Scenario.request [Scenario.upsert "feat-c" "feat-b" "Hb"] in
  let s' := snd (Update "t1" Scenario.store_ab req) in
  Update "t1" Scenario.store_ab req = (Ok tt, s') /\
  Lookup s' "feat-a" = Lookup Scenario.store_ab "feat-a" /\
  trunk s' = "main".
Proof.
  cbv zeta.
  assert (H1 : Update "t1" Scenario.store_ab
                 (Scenario.request [Scenario.upsert "feat-c" "feat-b" "Hb"])
               = (Ok tt, snd (Update "t1" Scenario.store_ab
                                (Scenario.request [Scenario.upsert "feat-c" "feat-b" "Hb"]))))
    by (vm_compute; reflexivity).
  split; [exact H1|].
  apply (Update_frame "t1" Scenario.store_ab _ _ "feat-a" H1).
  - constructor; [vm_compute; discriminate|constructor].
  - apply not_elem_of_nil.
Defined.







(** X6. When [InitStore] succeeds, the trunk of the request is not empty, the
    store has that trunk, and [OpenStore] on the backend it leaves returns the
    same store.  On a repository without a store the records are kept and the
    repository information is added; on a repository with a store, which needs
    [Force], everything else is cleared. *)
Theorem InitStore_then_OpenStore repo req s :
  InitStore repo req = Ok s ->
  isr_Trunk req <> "" /\
  trunk s = isr_Trunk req /\
  OpenStore (b s) = Ok s /\
  (tree repo !! _repoJSON = None ->
   tree (b s) = <[_repoJSON := VRepoInfo {| ri_Trunk := isr_Trunk req |}]> (tree repo)) /\
  (tree repo !! _repoJSON <> None ->
   isr_Force req = true /\
   tree (b s) = <[_repoJSON := VRepoInfo {| ri_Trunk := isr_Trunk req |}]> ∅).
Proof.
  unfold InitStore, backend_Get. case_decide as Ht; [discriminate|].
  destruct (tree repo !! _repoJSON) as [v|] eqn:Hrepo.
  - destruct (isr_Force req); cbn; [|discriminate].
    intros [= <-]. split; [done|]. split; [done|]. split.
    + unfold OpenStore, backend_Get. cbn. rewrite lookup_insert_eq. done.
    + split; [done|]. intros _. split; [done|]. reflexivity.
  - cbn. intros [= <-]. split; [done|]. split; [done|]. split.
    + unfold OpenStore, backend_Get. cbn. rewrite lookup_insert_eq. done.
    + split; [done|]. intros H. done.
Qed.

Lemma InitStore_then_OpenStore_witness :
  InitStore Cases.empty_repo Cases.init_main = Ok Scenario.store0 /\
  trunk Scenario.store0 = "main" /\
  OpenStore (b Scenario.store0) = Ok Scenario.store0.
Proof.
  assert (H1 : InitStore Cases.empty_repo Cases.init_main = Ok Scenario.store0)
    by (vm_compute; reflexivity).
  destruct (InitStore_then_OpenStore _ _ _ H1) as (_ & H2 & H3 & _).
  split; [exact H1|]. split; [exact H2|exact H3].
Defined.



End StoreUpdates.

Section StoreOpening.
Import State.

(** X1. The key under which [branchJSON] stores a branch is never the empty key.
    For a name that is a clean relative path (its elements between slashes are
    not empty and are neither [.] nor [..]) the key is [branches/] followed by
    the name, so two such names have the same key only when they are equal; and
    the same name followed by a slash has the same key. *)
Theorem branchJSON_keys s :
  (forall name, branchJSON s name <> "") /\
  (forall name, plain name -> branchJSON s name = ("branches/" ++ name)%string) /\
  (forall n1 n2, plain n1 -> plain n2 ->
     branchJSON s n1 = branchJSON s n2 -> n1 = n2) /\
  (forall name, plain name -> branchJSON s (name ++ "/") = branchJSON s name).
Proof.
  split; [apply branchJSON_nonempty|]. split; [apply branchJSON_plain|]. split.
  - intros n1 n2 H1 H2. rewrite !branchJSON_plain by done. apply string_app_inj_l.
  - apply branchJSON_plain_slash.
Qed.

Lemma branchJSON_keys_witness :
  plain "user/feat-a" /\
  branchJSON Scenario.store0 "user/feat-a" = "branches/user/feat-a" /\
  branchJSON Scenario.store0 "user/feat-a/" = branchJSON Scenario.store0 "user/feat-a".
Proof.
  assert (H : plain "user/feat-a") by (repeat constructor; discriminate).
  destruct (branchJSON_keys Scenario.store0) as (_ & H2 & _ & H4).
  split; [exact H|]. split; [exact (H2 _ H)|exact (H4 _ H)].
Defined.

(** X8. A store that [OpenStore] returns stays a store that [OpenStore] returns:
    after a successful [Store.Update] whose upserts name clean relative paths
    and whose deletes do not name the key [repo], opening the backend again gives
    the updated store, with the same trunk. *)
Theorem Update_keeps_store_openable now s req s' :
  OpenStore (b s) = Ok s ->
  Update now s req = (Ok tt, s') ->
  Forall (fun u => plain (ur_Name u)) (Upserts req) ->
  _repoJSON ∉ Deletes req ->
  OpenStore (b s') = Ok s'.
Proof.
  intros Hopen HU Hplain Hdel.
  apply Update_Ok_tree in HU as (es & HF & Htrunk & Htree).
  assert (Hrepo : tree (b s') !! _repoJSON = tree (b s) !! _repoJSON).
  { rewrite Htree, apply_dels_lookup_notin by done.
    apply apply_sets_lookup_notin. apply Forall_app. split.
    - apply zero_keys. done.
    - apply (intended_keys s (Upserts req)); [done|].
      eapply Forall_impl; [exact Hplain|]. intros u Hu. cbn in Hu.
      rewrite (branchJSON_plain _ _ Hu). done. }
  unfold OpenStore, backend_Get in *. rewrite Hrepo.
  destruct (tree (b s) !! _repoJSON) as [v|]; [|discriminate].
  injection Hopen as Hs. rewrite <- Hs in Htrunk. cbn in Htrunk.
  rewrite <- Htrunk. by destruct s'.
Qed.

Lemma Update_keeps_store_openable_witness :
  OpenStore (b Scenario.store0) = Ok Scenario.store0 /\
  Update "t0" Scenario.store0 Scenario.stack_request = (Ok tt, Scenario.store_ab) /\
  OpenStore (b Scenario.store_ab) = Ok Scenario.store_ab.
Proof.
  assert (H1 : OpenStore (b Scenario.store0) = Ok Scenario.store0)
    by (vm_compute; reflexivity).
  assert (H2 : Update "t0" Scenario.store0 Scenario.stack_request
               = (Ok tt, Scenario.store_ab)) by (vm_compute; reflexivity).
  split; [exact H1|]. split; [exact H2|].
  apply (Update_keeps_store_openable "t0" Scenario.store0 Scenario.stack_request _ H1 H2).
  - repeat constructor; discriminate.
  - apply not_elem_of_nil.
Defined.

End StoreOpening.

(** ** The modes of [branch create] *)

Section CreateModes.
Import State BranchCreate.

(** The state of a key after a successful update: the state written by the last
    upsert of that key. *)
Lemma Update_Lookup_key now s req s' pre r post name :
  Update now s req = (Ok tt, s') ->
  Upserts req = pre ++ r :: post ->
  branchJSON s (ur_Name r) = branchJSON s name ->
  Forall (fun u => branchJSON s (ur_Name u) <> branchJSON s name) post ->
  branchJSON s name ∉ Deletes req ->
  exists st, upsert_state s r = Ok st /\ bsb_Name (bs_Base st) <> "" /\
    Lookup s' name =
      Ok {| lr_Name := name;
            lr_Base := bsb_Name (bs_Base st);
            lr_BaseHash := bsb_Hash (bs_Base st);
            lr_PR := bs_PR st |}.
Proof.
  intros HU Hups Hkey Hpost Hdel.
  destruct (Update_Lookup now s req s' pre r post HU Hups) as (st & Hst & Hne & HL).
  { by rewrite Hkey. } { by rewrite Hkey. }
  exists st. split; [done|]. split; [done|].
  unfold Lookup in *.
  change (branchJSON s' name) with (branchJSON s name).
  change (branchJSON s' (ur_Name r)) with (branchJSON s (ur_Name r)) in HL.
  rewrite <- Hkey.
  destruct (backend_Get (b s') (branchJSON s (ur_Name r))); [|discriminate].
  injection HL as H1 H2 H3. by rewrite H1, H2, H3.
Qed.

Lemma last_with_key {A} (P : A -> Prop) `{forall x, Decision (P x)} (l : list A) :
  Exists P l ->
  exists pre r post, l = pre ++ r :: post /\ P r /\ Forall (fun x => ~ P x) post.
Proof.
  induction l as [|x l IH]; intros HE; [inversion HE|].
  destruct (decide (Exists P l)) as [HEl|HnE].
  - destruct (IH HEl) as (pre & r & post & -> & Hr & Hpost).
    exists (x :: pre), r, post. done.
  - apply Exists_cons in HE as [Hx|?]; [|done].
    exists [], x, l. split; [done|]. split; [done|].
    by apply not_Exists_Forall.
Qed.

Lemma Lookup_same_key s n1 n2 r :
  branchJSON s n1 = branchJSON s n2 ->
  Lookup s n2 = Ok r ->
  Lookup s n1 = Ok {| lr_Name := n1; lr_Base := lr_Base r;
                      lr_BaseHash := lr_BaseHash r; lr_PR := lr_PR r |}.
Proof.
  unfold Lookup. intros ->.
  destruct (backend_Get (b s) (branchJSON s n2)); [|discriminate].
  by intros [= <-].
Qed.

(** What [Run] has done when it succeeds. *)
Lemma create_done env cmd repo w C H w' :
  Below cmd = false ->
  git_Open env = Ok repo ->
  Git.CurrentBranch repo = Ok C ->
  Git.PeelToCommit repo "HEAD" = Ok H ->
  Run env cmd w = (Ok tt, w') ->
  exists diff aboves s1,
    Name cmd <> "" /\
    Git.DiffIndex repo H = Ok diff /\
    (if Insert cmd then ListAbove env C = Ok aboves else aboves = []) /\
    Update (now env) (store w) (create_request cmd C H aboves) = (Ok tt, s1) /\
    (if Insert cmd then upstackRestackCmd_Run env s1 = (Ok tt, store w')
     else store w' = s1) /\
    trace w' = trace w ++
      [ EvDetachHead C;
        EvCommit {| Git.cr_AllowEmpty := bool_decide (List.length diff = 0);
                    Git.cr_Message := Message cmd |};
        EvCreateBranch {| Git.cbr_Name := Name cmd; Git.cbr_Head := "HEAD" |};
        EvCheckout (Name cmd);
        EvStateUpdate (create_request cmd C H aboves) ] ++
      (if Insert cmd then [EvUpstackRestack] else []).
Proof.
  intros HB Hopen HC HH. unfold Run, choose_base, restore_on_error, after_detach.
  unfold create_request. unfold_monad.
  rewrite Hopen, HB. cbn.
  destruct (ensureStore env); cbn; [|discriminate].
  case_decide as Hname; cbn; [discriminate|].
  rewrite HC. cbn. rewrite HH. cbn.
  destruct (Git.DiffIndex repo H) as [diff|]; cbn; [|discriminate].
  destruct (Insert cmd) eqn:HI; cbn.
  - destruct (ListAbove env C) as [aboves|]; cbn; [|discriminate].
    destruct (Git.DetachHead repo C); cbn; [|discriminate].
    destruct (Git.Commit repo _); cbn; [|discriminate].
    destruct (Git.CreateBranch repo _); cbn; [|discriminate].
    destruct (Git.Checkout repo (Name cmd)); cbn; [|discriminate].
    destruct (Update (now env) (store w) _) as [[[]|] s1] eqn:HU; cbn; [|discriminate].
    destruct (upstackRestackCmd_Run env s1) as [[[]|] s2] eqn:HR; cbn; [|discriminate].
    intros [= <-]. cbn. exists diff, aboves, s1.
    repeat split; try done. rewrite <- !app_assoc. reflexivity.
  - destruct (Git.DetachHead repo C); cbn; [|discriminate].
    destruct (Git.Commit repo _); cbn; [|discriminate].
    destruct (Git.CreateBranch repo _); cbn; [|discriminate].
    destruct (Git.Checkout repo (Name cmd)); cbn; [|discriminate].
    destruct (Update (now env) (store w) _) as [[[]|] s1] eqn:HU; cbn; [|discriminate].
    intros [= <-]. cbn. exists diff, [], s1.
    repeat split; try done. rewrite <- !app_assoc. reflexivity.
Qed.

(** X9. [branch create] without [--insert] and [--below], when it succeeds, has
    detached the head at the current branch, committed, created the branch and
    checked it out, and then made one store update with one upsert: the new
    branch on the current branch, at the commit of [HEAD].  It runs no restack.
    Afterwards the new branch has that base and base hash, and every branch with
    another key is as before. *)
Theorem create_default env cmd repo w C H w' :
  Below cmd = false -> Insert cmd = false ->
  git_Open env = Ok repo ->
  Git.CurrentBranch repo = Ok C ->
  Git.PeelToCommit repo "HEAD" = Ok H ->
  Run env cmd w = (Ok tt, w') ->
  let req :=
    {| Upserts := [ {| ur_Name := Name cmd; ur_Base := C; ur_BaseHash := H;
                       ur_PR := None |} ];
       Deletes := [];
       State.Message := ("create branch " ++ Name cmd)%string |} in
  exists diff,
    Git.DiffIndex repo H = Ok diff /\
    trace w' = trace w ++
      [ EvDetachHead C;
        EvCommit {| Git.cr_AllowEmpty := bool_decide (List.length diff = 0);
                    Git.cr_Message := Message cmd |};
        EvCreateBranch {| Git.cbr_Name := Name cmd; Git.cbr_Head := "HEAD" |};
        EvCheckout (Name cmd);
        EvStateUpdate req ] /\
    Update (now env) (store w) req = (Ok tt, store w') /\
    (C <> "" -> H <> "" ->
     exists n, Lookup (store w') (Name cmd) =
       Ok {| lr_Name := Name cmd; lr_Base := C; lr_BaseHash := H; lr_PR := n |}) /\
    (forall other,
       branchJSON (store w) other <> branchJSON (store w) (Name cmd) ->
       Lookup (store w') other = Lookup (store w) other).
Proof.
  intros HB HI Hopen HC HH HR req.
  destruct (create_done env cmd repo w C H w' HB Hopen HC HH HR)
    as (diff & aboves & s1 & Hname & Hdiff & Habove & HU & Hstore & Htrace).
  rewrite HI in *. subst aboves s1.
  unfold create_request, update_message, upserts_of in *. rewrite HB, HI in *.
  cbn [map] in *. rewrite app_nil_r in Htrace.
  exists diff. split; [done|]. split; [done|]. split; [done|]. split.
  - intros HCne HHne.
    destruct (Update_Lookup (now env) (store w) _ (store w') [] _ [] HU eq_refl)
      as (st & Hst & _ & HL); [constructor|cbn; apply not_elem_of_nil|].
    cbn in HL, Hst. unfold upsert_state in Hst. cbn in Hst.
    destruct (Lookup (store w) (Name cmd)) as [prev|e] eqn:Hprev.
    + rewrite !decide_True in Hst by done. injection Hst as <-. cbn in HL. eauto.
    + rewrite (Lookup_Err_NotExist _ _ _ Hprev) in Hst. cbn in Hst.
      rewrite !decide_True in Hst by done. injection Hst as <-. cbn in HL. eauto.
  - intros other Hother.
    apply (Update_Lookup_untouched (now env) (store w) _ (store w') other HU).
    + cbn. constructor; [intros Heq; by apply Hother|constructor].
    + cbn. apply not_elem_of_nil.
Qed.

Lemma create_default_witness :
  let env := Cases.create_env_on (Scenario.git "feat-b") [] in
  let cmd := Cases.create_cmd "feat-c" false in
  let w := mkWorld Scenario.store_ab [] in
  let w' := snd (Run env cmd w) in
  Run env cmd w = (Ok tt, w') /\
  (exists n, Lookup (store w') "feat-c" =
     Ok {| lr_Name := "feat-c"; lr_Base := "feat-b"; lr_BaseHash := "C0"; lr_PR := n |}) /\
  Lookup (store w') "feat-b" = Lookup Scenario.store_ab "feat-b".
Proof.
  cbv zeta.
  set (env := Cases.create_env_on (Scenario.git "feat-b") []).
  set (cmd := Cases.create_cmd "feat-c" false).
  set (w := mkWorld Scenario.store_ab []).
  assert (H1 : Run env cmd w = (Ok tt, snd (Run env cmd w))) by (vm_compute; reflexivity).
  split; [exact H1|].
  destruct (create_default env cmd (Scenario.git "feat-b") w "feat-b" "C0" _
              eq_refl eq_refl eq_refl eq_refl eq_refl H1)
    as (diff & _ & _ & _ & HL & Hframe).
  split.
  - apply HL; discriminate.
  - apply Hframe. vm_compute. discriminate.
Defined.

(** X10. [branch create --insert], when it succeeds, has made one store update
    that upserts the new branch on the current branch and then every branch
    above the current branch with the new branch as base and no base hash,
    followed by the upstack restack.  After the update every branch that was
    above the current branch has the new branch as base and keeps its base hash
    and its pull request, and a branch whose key is none of those is as
    before. *)
Theorem create_insert env cmd repo w C H w' :
  Below cmd = false -> Insert cmd = true ->
  git_Open env = Ok repo ->
  Git.CurrentBranch repo = Ok C ->
  Git.PeelToCommit repo "HEAD" = Ok H ->
  Run env cmd w = (Ok tt, w') ->
  exists (diff aboves : list string) s1,
    ListAbove env C = Ok aboves /\
    let req :=
      {| Upserts :=
           {| ur_Name := Name cmd; ur_Base := C; ur_BaseHash := H; ur_PR := None |}
           :: map (fun A => {| ur_Name := A; ur_Base := Name cmd; ur_BaseHash := "";
                               ur_PR := None |}) aboves;
         Deletes := [];
         State.Message := ("insert branch " ++ Name cmd ++ " above " ++ C)%string |} in
    Update (now env) (store w) req = (Ok tt, s1) /\
    upstackRestackCmd_Run env s1 = (Ok tt, store w') /\
    trace w' = trace w ++
      [ EvDetachHead C;
        EvCommit {| Git.cr_AllowEmpty := bool_decide (List.length diff = 0);
                    Git.cr_Message := Message cmd |};
        EvCreateBranch {| Git.cbr_Name := Name cmd; Git.cbr_Head := "HEAD" |};
        EvCheckout (Name cmd);
        EvStateUpdate req;
        EvUpstackRestack ] /\
    (forall A a, A ∈ aboves -> Lookup (store w) A = Ok a ->
       Lookup s1 A = Ok {| lr_Name := A; lr_Base := Name cmd;
                           lr_BaseHash := lr_BaseHash a; lr_PR := lr_PR a |}) /\
    (forall other,
       branchJSON (store w) other <> branchJSON (store w) (Name cmd) ->
       Forall (fun A => branchJSON (store w) A <> branchJSON (store w) other) aboves ->
       Lookup s1 other = Lookup (store w) other).
Proof.
  intros HB HI Hopen HC HH HR.
  destruct (create_done env cmd repo w C H w' HB Hopen HC HH HR)
    as (diff & aboves & s1 & Hname & Hdiff & Habove & HU & Hstore & Htrace).
  rewrite HI in *.
  unfold create_request, update_message, upserts_of in *. rewrite HB, HI in *.
  exists diff, aboves, s1. split; [done|]. cbn zeta.
  split; [done|]. split; [done|]. split; [done|]. split.
  - intros A a HA HLA.
    set (s := store w) in *.
    set (ups := map (fun branch => {| ur_Name := branch; ur_Base := Name cmd;
                                      ur_BaseHash := ""; ur_PR := None |}) aboves) in *.
    destruct (last_with_key (fun u => branchJSON s (ur_Name u) = branchJSON s A) ups)
      as (pre & r & post & Hups & Hr & Hpost).
    { apply Exists_exists.
      exists {| ur_Name := A; ur_Base := Name cmd; ur_BaseHash := ""; ur_PR := None |}.
      split; [|done]. unfold ups. apply list_elem_of_fmap. eauto. }
    destruct (Update_Lookup_key (now env) s _ s1
                ({| ur_Name := Name cmd; ur_Base := C; ur_BaseHash := H;
                    ur_PR := None |} :: pre) r post A HU) as
      (st & Hst & _ & HL).
    { cbn [Upserts]. rewrite Hups. reflexivity. }
    { done. } { done. } { cbn. apply not_elem_of_nil. }
    rewrite HL. clear HL.
    assert (Hin : r ∈ ups) by (rewrite Hups; apply elem_of_app; right; left).
    apply list_elem_of_fmap in Hin as (A' & -> & _). cbn in Hr.
    unfold upsert_state in Hst. cbn in Hst.
    rewrite (Lookup_same_key s A' A a Hr HLA) in Hst. cbn in Hst.
    rewrite (decide_True (P := Name cmd <> "")) in Hst by done.
    rewrite (decide_False (P := "" <> "")) in Hst by (intros ?; done).
    injection Hst as <-. reflexivity.
  - intros other Hother Haboves.
    apply (Update_Lookup_untouched (now env) (store w) _ s1 other HU).
    + cbn. constructor; [intros Heq; by apply Hother|].
      apply Forall_fmap. eapply Forall_impl; [exact Haboves|]. cbn. done.
    + cbn. apply not_elem_of_nil.
Qed.

Lemma create_insert_witness :
  let env := Cases.create_env_on (Scenario.git "feat-a") ["feat-b"] in
  let cmd := Cases.create_cmd "feat-mid" true in
  let w := mkWorld Scenario.store_ab [] in
  Run env cmd w = (Ok tt, snd (Run env cmd w)) /\
  Lookup (store (snd (Run env cmd w))) "feat-b" =
    Ok {| lr_Name := "feat-b"; lr_Base := "feat-mid"; lr_BaseHash := "Ha"; lr_PR := 0 |}.
Proof.
  cbv zeta.
  set (env := Cases.create_env_on (Scenario.git "feat-a") ["feat-b"]).
  set (cmd := Cases.create_cmd "feat-mid" true).
  set (w := mkWorld Scenario.store_ab []).
  assert (H1 : Run env cmd w = (Ok tt, snd (Run env cmd w))) by (vm_compute; reflexivity).
  split; [exact H1|].
  destruct (create_insert env cmd (Scenario.git "feat-a") w "feat-a" "C0" _
              eq_refl eq_refl eq_refl eq_refl eq_refl H1)
    as (diff & aboves & s1 & Habove & _ & Hrestack & _ & HL & _).
  injection Habove as <-. injection Hrestack as <-.
  apply (HL "feat-b" {| lr_Name := "feat-b"; lr_Base := "feat-a"; lr_BaseHash := "Ha";
                        lr_PR := 0 |}).
  - apply list_elem_of_singleton. reflexivity.
  - vm_compute. reflexivity.
Defined.

End CreateModes.

Section CreateFailure.
Import State BranchCreate.

Lemma restore_on_error_spec env repo cmd diff baseName baseHash restack C w e w' :
  restore_on_error repo C (after_detach env repo cmd diff baseName baseHash restack) w
    = (Err e, w') ->
  exists e0 mid,
    e = errors_Join e0 (Git.Checkout repo C) /\
    trace w' = trace w ++ mid ++ [EvCheckout C] /\
    (EvUpstackRestack ∉ mid -> store w' = store w).
Proof.
  unfold restore_on_error, after_detach. unfold_monad.
  destruct (Git.Commit repo _) as [[]|e1]; cbn.
  2:{ intros [= <- <-]. eexists _, [_]. cbn. by rewrite <- app_assoc. }
  destruct (Git.CreateBranch repo _) as [[]|e1]; cbn.
  2:{ intros [= <- <-]. eexists _, [_; _]. cbn. by rewrite <- !app_assoc. }
  destruct (Git.Checkout repo (Name cmd)) as [[]|e1]; cbn.
  2:{ intros [= <- <-]. eexists _, [_; _; _]. cbn. by rewrite <- !app_assoc. }
  destruct (Update (now env) (store w) _) as [[[]|e1] s1] eqn:HU; cbn.
  2:{ intros [= <- <-]. eexists _, [_; _; _; _]. cbn. rewrite <- !app_assoc.
      split; [done|]. split; [done|]. intros _.
      pose proof (Update_Err_unchanged (now env) (store w) _ e1
                    ltac:(rewrite HU; reflexivity)) as Hs.
      by rewrite HU in Hs. }
  destruct (Below cmd || Insert cmd); cbn; [|discriminate].
  destruct (upstackRestackCmd_Run env s1) as [[[]|e1] s2]; cbn; [discriminate|].
  intros [= <- <-]. eexists _, [_; _; _; _; _]. cbn. rewrite <- !app_assoc.
  split; [done|]. split; [done|]. intros Hnot. exfalso. apply Hnot.
  rewrite !elem_of_cons. tauto.
Qed.

(** X11. When [branch create] fails, then either it has called nothing but the
    log and the store is unchanged; or detaching the head failed, which is the
    error returned, and nothing else was done; or the head was detached and the
    deferred function ran: the last call is the checkout of the branch that was
    current, the error returned is [errors.Join] of the failure with the result
    of that checkout, and the store is unchanged unless the restack ran. *)
Theorem create_failure_restores env cmd w e w' :
  Run env cmd w = (Err e, w') ->
  exists evs, trace w' = trace w ++ evs /\
    ((store w' = store w /\ Forall is_log evs)
     \/ (exists repo base e0,
           git_Open env = Ok repo /\
           Git.DetachHead repo base = Err e0 /\
           evs = [EvDetachHead base] /\
           e = Wrapf "detach head: %w" [] e0 /\
           store w' = store w)
     \/ (exists repo C base mid e0,
           git_Open env = Ok repo /\
           Git.CurrentBranch repo = Ok C /\
           Git.DetachHead repo base = Ok tt /\
           evs = EvDetachHead base :: mid ++ [EvCheckout C] /\
           e = errors_Join e0 (Git.Checkout repo C) /\
           (EvUpstackRestack ∉ mid -> store w' = store w))).
Proof.
  unfold Run.
  unfold bind at 1, lift at 1.
  destruct (wrap _ _ (git_Open env)) as [repo|e1] eqn:Hopen.
  2:{ intros [= <- <-]. exists []. rewrite app_nil_r. split; [done|]. by left. }
  assert (Hopen' : git_Open env = Ok repo).
  { unfold wrap in Hopen. destruct (git_Open env); congruence. }
  unfold bind at 1, lift at 1.
  destruct (ensureStore env) as [[]|e1].
  2:{ intros [= <- <-]. exists []. rewrite app_nil_r. split; [done|]. by left. }
  unfold bind at 1, get_store at 1.
  case_decide as Hname.
  { intros [= <- <-]. exists []. rewrite app_nil_r. split; [done|]. by left. }
  unfold bind at 1, lift at 1.
  destruct (wrap _ _ (Git.CurrentBranch repo)) as [C|e1] eqn:HC.
  2:{ intros [= <- <-]. exists []. rewrite app_nil_r. split; [done|]. by left. }
  assert (HC' : Git.CurrentBranch repo = Ok C).
  { unfold wrap in HC. destruct (Git.CurrentBranch repo); congruence. }
  unfold bind at 1, lift at 1.
  destruct (wrap _ _ (Git.PeelToCommit repo "HEAD")) as [H|e1].
  2:{ intros [= <- <-]. exists []. rewrite app_nil_r. split; [done|]. by left. }
  unfold bind at 1, lift at 1.
  destruct (wrap _ _ (Git.DiffIndex repo H)) as [diff|e1].
  2:{ intros [= <- <-]. exists []. rewrite app_nil_r. split; [done|]. by left. }
  unfold bind at 1.
  destruct (choose_base env cmd (store w) C H w) as [[[[baseName baseHash] restack]|e1] w1]
    eqn:Hchoose.
  2:{ intros [= <- <-]. unfold choose_base in Hchoose.
      destruct (Below cmd).
      - case_decide.
        + unfold_monad. injection Hchoose as _ <-. cbn.
          eexists [_]. split; [done|]. left. split; [done|]. by repeat constructor.
        + destruct (Lookup (store w) C); unfold_monad; [discriminate|].
          injection Hchoose as _ <-. exists []. rewrite app_nil_r.
          split; [done|]. by left.
      - destruct (Insert cmd); unfold_monad; [|discriminate].
        destruct (ListAbove env C); cbn in Hchoose; [discriminate|].
        injection Hchoose as _ <-. exists []. rewrite app_nil_r.
        split; [done|]. by left. }
  assert (Hw1 : w1 = w).
  { unfold choose_base in Hchoose.
    destruct (Below cmd).
    - case_decide; [unfold_monad; discriminate|].
      destruct (Lookup (store w) C); unfold_monad; congruence.
    - destruct (Insert cmd); unfold_monad; [|congruence].
      destruct (ListAbove env C); cbn in Hchoose; congruence. }
  subst w1. clear Hchoose.
  unfold bind at 1, call at 1. unfold bind at 1, emit at 1, lift at 1.
  destruct (wrap _ _ (Git.DetachHead repo baseName)) as [[]|e1] eqn:HD.
  2:{ intros [= <- <-]. cbn. eexists [_]. split; [done|]. right. left.
      unfold wrap in HD. destruct (Git.DetachHead repo baseName) eqn:HD'; [discriminate|].
      injection HD as <-. eexists repo, baseName, _. done. }
  assert (HD' : Git.DetachHead repo baseName = Ok tt).
  { unfold wrap in HD. destruct (Git.DetachHead repo baseName) as [[]|]; congruence. }
  intros HR.
  apply restore_on_error_spec in HR as (e0 & mid & -> & Htrace & Hstore).
  cbn in Htrace, Hstore.
  exists (EvDetachHead baseName :: mid ++ [EvCheckout C]).
  split; [by rewrite Htrace, <- app_assoc|].
  right. right. exists repo, C, baseName, mid, e0. done.
Qed.

Lemma create_failure_restores_witness :
  let env := Cases.create_env_on Cases.git_no_create [] in
  let cmd := Cases.create_cmd "feat-c" false in
  let w := mkWorld Scenario.store_ab [] in
  let e := Join1 (Wrapf "create branch: %w" [] (Errorf "branch exists" [])) in
  Run env cmd w = (Err e, snd (Run env cmd w)) /\
  store (snd (Run env cmd w)) = Scenario.store_ab /\
  last (trace (snd (Run env cmd w))) = Some (EvCheckout "feat-b").
Proof.
  cbv zeta.
  set (env := Cases.create_env_on Cases.git_no_create []).
  set (cmd := Cases.create_cmd "feat-c" false).
  set (w := mkWorld Scenario.store_ab []).
  assert (H1 : Run env cmd w =
               (Err (Join1 (Wrapf "create branch: %w" [] (Errorf "branch exists" []))),
                snd (Run env cmd w))) by (vm_compute; reflexivity).
  split; [exact H1|].
  destruct (create_failure_restores env cmd w _ _ H1) as (evs & Ht & _).
  split; vm_compute; reflexivity.
Defined.

End CreateFailure.

(** ** The order of [branch fold] *)

Section FoldOrder.
Import SpiceState BranchFold.

(** X12. [branch fold] changes the store by its one update or not at all, and it
    deletes the branch only at the end: if [DeleteBranch] is called, then it is
    called on the folded branch with [Force], after the fetch, the successful
    store update and the successful checkout of the base, and it is followed
    only by the log. *)
Theorem fold_deletes_after_update env cmd w r w' :
  Run env cmd w = (r, w') ->
  exists evs, trace w' = trace w ++ evs /\
    (store w' = store w \/
     exists req, EvUpdateBranch req ∈ evs /\
       UpdateBranch (store w) req = (Ok tt, store w')) /\
    (forall B opts, EvDeleteBranch B opts ∈ evs ->
       exists repo b aboves h post,
         openRepo env = Ok repo /\
         target_branch repo cmd = Ok B /\
         LookupBranch (store w) B = Ok b /\
         ListAbove (store w) B = Ok aboves /\
         opts = {| Git.bdo_Force := true |} /\
         UpdateBranch (store w) (fold_request B aboves (lb_Base b) h)
           = (Ok tt, store w') /\
         branchCheckoutCmd_Run env (lb_Base b) = Ok tt /\
         evs = [ EvFetch {| Git.fo_Remote := ".";
                            Git.fo_Refspecs := [(B ++ ":" ++ lb_Base b)%string] |};
                 EvUpdateBranch (fold_request B aboves (lb_Base b) h);
                 EvBranchCheckout (lb_Base b);
                 EvDeleteBranch B opts ] ++ post /\
         Forall is_log post).
Proof.
  assert (Hno : forall (l : list Event) B opts,
            Forall (fun ev => match ev with EvDeleteBranch _ _ => False | _ => True end) l ->
            EvDeleteBranch B opts ∈ l -> False).
  { intros l B opts HF Hin. rewrite Forall_forall in HF. exact (HF _ Hin). }
  unfold Run. unfold_monad.
  destruct (openRepo env) as [repo|e0] eqn:Hopen; cbn.
  2:{ intros [= <- <-]. exists []. rewrite app_nil_r. split; [done|].
      split; [by left|]. intros B opts Hin. by apply elem_of_nil in Hin. }
  destruct (target_branch repo cmd) as [B|e0] eqn:HB; cbn.
  2:{ intros [= <- <-]. exists []. rewrite app_nil_r. split; [done|].
      split; [by left|]. intros B opts Hin. by apply elem_of_nil in Hin. }
  destruct (VerifyRestacked _ _ B) as [[]|e0]; cbn.
  2:{ destruct (errors_Is_NotExist e0), (errors_As_NeedsRestack e0);
        intros [= <- <-]; exists []; rewrite app_nil_r; (split; [done|]);
        (split; [by left|]); intros B' opts Hin; by apply elem_of_nil in Hin. }
  destruct (LookupBranch (store w) B) as [b|e0] eqn:HLB; cbn.
  2:{ intros [= <- <-]. exists []. rewrite app_nil_r. split; [done|].
      split; [by left|]. intros B' opts Hin. by apply elem_of_nil in Hin. }
  destruct (Git.Fetch repo _) as [[]|e0]; cbn.
  2:{ intros [= <- <-]. eexists [_]. cbn. split; [done|].
      split; [by left|]. intros B' opts Hin. exfalso.
      eapply Hno; [|exact Hin]. by repeat constructor. }
  destruct (Git.PeelToCommit repo (lb_Base b)) as [h|e0]; cbn.
  2:{ intros [= <- <-]. eexists [_]. cbn. split; [done|].
      split; [by left|]. intros B' opts Hin. exfalso.
      eapply Hno; [|exact Hin]. by repeat constructor. }
  destruct (UpdateBranch (store w) _) as [[[]|e0] s1] eqn:HU; cbn.
  2:{ intros [= <- <-]. eexists [_; _]. cbn. rewrite <- !app_assoc. split; [done|].
      split.
      - left. unfold UpdateBranch in HU.
        destruct (apply_upserts _ _ _); [|congruence].
        destruct (existsb _ _); congruence.
      - intros B' opts Hin. exfalso.
        eapply Hno; [|exact Hin]. by repeat constructor. }
  destruct (branchCheckoutCmd_Run env (lb_Base b)) as [[]|e0] eqn:HCo; cbn.
  2:{ intros [= <- <-]. eexists [_; _; _]. cbn. rewrite <- !app_assoc. split; [done|].
      split.
      - right. eexists. split; [|exact HU]. rewrite !elem_of_cons. tauto.
      - intros B' opts Hin. exfalso.
        eapply Hno; [|exact Hin]. by repeat constructor. }
  destruct (Git.DeleteBranch repo B _) as [[]|e0]; cbn.
  - intros [= <- <-]. eexists [_; _; _; _; _]. cbn. rewrite <- !app_assoc.
    split; [done|]. split.
    + right. eexists. split; [|exact HU]. rewrite !elem_of_cons. tauto.
    + intros B' opts Hin.
      rewrite !elem_of_cons in Hin.
      destruct Hin as [?|[?|[?|[Heq|[?|Hin]]]]]; try discriminate;
        [|by apply elem_of_nil in Hin].
      injection Heq as -> ->.
      eexists repo, b, _, h,
        [EvLog Info "Branch %v has been folded into %v" [AStr B; AStr (lb_Base b)]].
      split; [done|]. split; [done|]. split; [done|]. split; [reflexivity|].
      repeat split; try done. by repeat constructor.
  - intros [= <- <-]. eexists [_; _; _; _]. cbn. rewrite <- !app_assoc.
    split; [done|]. split.
    + right. eexists. split; [|exact HU]. rewrite !elem_of_cons. tauto.
    + intros B' opts Hin.
      rewrite !elem_of_cons in Hin.
      destruct Hin as [?|[?|[?|[Heq|Hin]]]]; try discriminate;
        [|by apply elem_of_nil in Hin].
      injection Heq as -> ->.
      eexists repo, b, _, h, [].
      split; [done|]. split; [done|]. split; [done|]. split; [reflexivity|].
      repeat split; try done.
Qed.

Lemma fold_deletes_after_update_witness :
  let w := mkWorld (Scenario.spice_store None) [] in
  let out := Run Scenario.fold_env Scenario.fold_cmd w in
  exists evs, trace (snd out) = trace w ++ evs /\
    (store (snd out) = store w \/
     exists req, EvUpdateBranch req ∈ evs /\
       UpdateBranch (store w) req = (Ok tt, store (snd out))).
Proof.
  cbv zeta.
  destruct (fold_deletes_after_update Scenario.fold_env Scenario.fold_cmd
              (mkWorld (Scenario.spice_store None) []) _ _
              (surjective_pairing _)) as (evs & H1 & H2 & _).
  exists evs. split; [exact H1|exact H2].
Defined.

End FoldOrder.

(** ** Refusals and short cuts of [branch submit] *)

Section SubmitRefusals.
Import SpiceState BranchSubmit.

Ltac unfold_submit :=
  unfold with_store, set_session, session_remote, session_remoteRepo in *;
  unfold_monad.

(** X13. [branch submit] refuses, with these errors and without a call other than
    the log: the trunk ("cannot submit trunk"); a branch that [LookupBranch] does
    not find; and, without [--force], a branch on which [VerifyRestacked]
    fails, after four lines of advice in the error log. *)
Theorem submit_refuses env opts cmd repo w name :
  target_branch repo cmd = Ok name ->
  let s := st_store (store w) in
  (name = Trunk s ->
   run env opts cmd repo w = (Err (Errorf "cannot submit trunk" []), w)) /\
  (name <> Trunk s -> forall e, LookupBranch s name = Err e ->
   run env opts cmd repo w = (Err (Wrapf "lookup branch: %w" [] e), w)) /\
  (name <> Trunk s -> forall b e, LookupBranch s name = Ok b ->
   Force cmd = false ->
   VerifyRestacked (Git.ForkPoint repo) s name = Err e ->
   run env opts cmd repo w =
     (Err (Errorf "refusing to submit outdated branch" []),
      mkWorld (store w)
        (trace w ++
           [ EvLog Error "Branch %s needs to be restacked." [AStr name];
             EvLog Error "Run the following command to fix this:" [];
             EvLog Error "  gs branch restack %s" [AStr name];
             EvLog Error "Or, try again with --force to submit anyway." [] ]))).
Proof.
  intros Hname s. rewrite run_unfold. unfold resolve. unfold_submit.
  rewrite Hname. cbn. split; [|split].
  - intros Ht. rewrite decide_True by done. done.
  - intros Ht e HL. rewrite decide_False by done. fold s. rewrite HL. done.
  - intros Ht b e HL HF HV. rewrite decide_False by done. fold s. rewrite HL. cbn.
    rewrite HF. cbn. rewrite HV. cbn. rewrite <- !app_assoc. done.
Qed.

Lemma submit_refuses_witness :
  let w := Scenario.submit_world None in
  target_branch (Scenario.git "main") (Scenario.submit_cmd false false) = Ok "main" /\
  run (Scenario.submit_env []) Scenario.no_prompt (Scenario.submit_cmd false false)
    (Scenario.git "main") w = (Err (Errorf "cannot submit trunk" []), w).
Proof.
  cbv zeta.
  assert (H1 : target_branch (Scenario.git "main") (Scenario.submit_cmd false false)
               = Ok "main") by (vm_compute; reflexivity).
  split; [exact H1|].
  apply (proj1 (submit_refuses (Scenario.submit_env []) Scenario.no_prompt
                  (Scenario.submit_cmd false false) (Scenario.git "main")
                  (Scenario.submit_world None) "main" H1)).
  reflexivity.
Defined.

(** X14. With a fresh session, the first part of [branchSubmitCmd.run] reaches
    the forge exactly when the branch is known and is not the trunk, the branch
    is restacked or [--force] is given, its commit resolves, and the remote and
    the remote repository are found; what it has in hand then is determined by
    these answers.  With [--force] the answer of [VerifyRestacked] does not
    matter. *)
Theorem resolve_succeeds_iff env cmd repo w ctx :
  st_session (store w) = zero_session ->
  let s := st_store (store w) in
  (exists w1, resolve env cmd repo w = (Ok ctx, w1)) <->
  target_branch repo cmd = Ok (sc_name ctx) /\
  sc_name ctx <> Trunk s /\
  LookupBranch s (sc_name ctx) = Ok (sc_branch ctx) /\
  (Force cmd = true \/ VerifyRestacked (Git.ForkPoint repo) s (sc_name ctx) = Ok tt) /\
  Git.PeelToCommit repo (sc_name ctx) = Ok (sc_commitHash ctx) /\
  sc_upstreamBranch ctx = upstream_name (sc_branch ctx) (sc_name ctx) /\
  ensureRemote env = Ok (sc_remote ctx) /\
  openRemoteRepository env (sc_remote ctx) = Ok (sc_remoteRepo ctx).
Proof.
  destruct w as [[s0 ss] tr]. cbn. intros ->.
  unfold resolve. unfold_submit. split.
  - intros [w1 H].
    repeat (case_match; simplify_eq/=).
    all: repeat match goal with u : unit |- _ => destruct u end.
    all: repeat split; try done.
    all: try (right; done).
    all: try (left; by destruct (Force cmd)).
  - intros (Hname & Ht & HL & HV & HP & Hup & Hrem & Hrr).
    destruct ctx as [name b h up r rr]. cbn in *. subst up.
    rewrite Hname. cbn. rewrite decide_False by done. rewrite HL. cbn.
    assert (HV' :
      (if negb (Force cmd)
       then match VerifyRestacked (Git.ForkPoint repo) s0 name with
            | Ok _ => true | Err _ => false end
       else true) = true).
    { destruct HV as [->| ->]; [done|]. by destruct (negb _). }
    destruct (negb (Force cmd)); cbn.
    + destruct (VerifyRestacked _ _ _) as [[]|]; [|discriminate]. cbn.
      destruct (negb (DryRun cmd) && negb (NoPublish cmd)); cbn;
        rewrite HP; cbn; rewrite Hrem; cbn; rewrite Hrr; cbn; eauto.
    + destruct (negb (DryRun cmd) && negb (NoPublish cmd)); cbn;
        rewrite HP; cbn; rewrite Hrem; cbn; rewrite Hrr; cbn; eauto.
Qed.

Lemma resolve_succeeds_iff_witness :
  let w := Scenario.submit_world None in
  let ctx := Scenario.context None [] in
  st_session (store w) = zero_session /\
  exists w1, resolve (Scenario.submit_env []) (Scenario.submit_cmd false false)
               (Scenario.git "feat-a") w = (Ok ctx, w1).
Proof.
  cbv zeta. split; [reflexivity|].
  apply (resolve_succeeds_iff (Scenario.submit_env []) (Scenario.submit_cmd false false)
           (Scenario.git "feat-a") (Scenario.submit_world None)
           (Scenario.context None []) eq_refl).
  repeat split; try (vm_compute; reflexivity).
  - vm_compute. discriminate.
  - right. vm_compute. reflexivity.
Defined.

(** X15. When the branch has no recorded change and the forge finds two or more
    open change requests for it, [branch submit] fails with "multiple open
    change requests", and has neither written to the store nor called the
    repository or the forge. *)
Theorem submit_multiple_open_changes env opts cmd repo w ctx w1 c1 c2 rest :
  resolve env cmd repo w = (Ok ctx, w1) ->
  lb_Change (sc_branch ctx) = None ->
  Forge.FindChangesByBranch (sc_remoteRepo ctx) (sc_upstreamBranch ctx) find_options
    = Ok (c1 :: c2 :: rest) ->
  run env opts cmd repo w =
    (Err (Errorf "multiple open change requests for %s" [AStr (sc_name ctx)]), w1) /\
  st_store (store w1) = st_store (store w) /\
  trace w1 = trace w.
Proof.
  intros HR Hchange Hfind. rewrite run_unfold, HR.
  unfold find_existing. rewrite Hchange. unfold_submit. rewrite Hfind. cbn.
  split; [done|].
  destruct (resolve_spec env cmd repo w _ _ HR) as (Hs & evs & Ht & _ & Hctx).
  destruct (Hctx ctx eq_refl) as (-> & _). rewrite app_nil_r in Ht. done.
Qed.

Lemma submit_multiple_open_changes_witness :
  let found := [Scenario.change7; Cases.change_current] in
  let env := Scenario.submit_env found in
  let cmd := Scenario.submit_cmd false false in
  let w := Scenario.submit_world None in
  let w1 := snd (resolve env cmd (Scenario.git "feat-a") w) in
  resolve env cmd (Scenario.git "feat-a") w = (Ok (Scenario.context None found), w1) /\
  run env Scenario.no_prompt cmd (Scenario.git "feat-a") w =
    (Err (Errorf "multiple open change requests for %s" [AStr "feat-a"]), w1) /\
  st_store (store w1) = st_store (store w) /\
  trace w1 = trace w.
Proof.
  cbv zeta.
  set (found := [Scenario.change7; Cases.change_current]).
  set (env := Scenario.submit_env found).
  set (cmd := Scenario.submit_cmd false false).
  set (w := Scenario.submit_world None).
  assert (H1 : resolve env cmd (Scenario.git "feat-a") w
               = (Ok (Scenario.context None found),
                  snd (resolve env cmd (Scenario.git "feat-a") w)))
    by (vm_compute; reflexivity).
  split; [exact H1|].
  exact (submit_multiple_open_changes env Scenario.no_prompt cmd (Scenario.git "feat-a")
           w (Scenario.context None found) _ Scenario.change7 Cases.change_current []
           H1 eq_refl eq_refl).
Defined.

Lemma compute_updates_nil env cmd pull branch commitHash :
  compute_updates env cmd pull branch commitHash = [] <->
  Forge.fci_HeadHash pull = commitHash /\
  Forge.fci_BaseName pull = lb_Base branch /\
  (forall d, Draft cmd = Some d -> Forge.fci_Draft pull = d).
Proof.
  unfold compute_updates.
  destruct (decide (Forge.fci_HeadHash pull <> commitHash)) as [Hh|Hh]; cbn.
  { split; [discriminate|]. intros (? & _); done. }
  destruct (decide (Forge.fci_BaseName pull <> lb_Base branch)) as [Hb|Hb]; cbn.
  { split; [discriminate|]. intros (_ & ? & _); done. }
  apply dec_stable in Hh. apply dec_stable in Hb.
  destruct (Draft cmd) as [d|]; cbn.
  - destruct (decide (Forge.fci_Draft pull <> d)) as [Hd|Hd].
    + split; [discriminate|]. intros (_ & _ & H). by specialize (H d eq_refl).
    + apply dec_stable in Hd. split; [|done]. intros _.
      split; [done|]. split; [done|]. by intros ? [= <-].
  - split; [|done]. intros _. split; [done|]. split; [done|]. intros ? [=].
Qed.

(** X16. When the change request of the branch has the head of the branch and
    its base, and the draft flag is not given or is the one of the change
    request, [branch submit] succeeds and only logs that the change request is
    up to date (after the warning that [--no-publish] is ignored, when it is
    given): no push, no edit, no store write, also without [--dry-run]. *)
Theorem submit_up_to_date env opts cmd repo w ctx w1 pull w2 :
  resolve env cmd repo w = (Ok ctx, w1) ->
  find_existing env (sc_remoteRepo ctx) (sc_name ctx) (sc_branch ctx)
    (sc_upstreamBranch ctx) w1 = (Ok (Some pull), w2) ->
  Forge.fci_HeadHash pull = sc_commitHash ctx ->
  Forge.fci_BaseName pull = lb_Base (sc_branch ctx) ->
  (forall d, Draft cmd = Some d -> Forge.fci_Draft pull = d) ->
  run env opts cmd repo w =
    (Ok tt,
     mkWorld (store w2)
       (trace w2 ++
          (if NoPublish cmd
           then [ EvLog Warn "Ignoring --no-publish: %s was already published: %s"
                    [AStr (sc_name ctx); AStr (Forge.fci_URL pull)] ]
           else []) ++
          [ EvLog Info "CR %v is up-to-date: %s"
              [AStr (Forge.fci_ID pull); AStr (Forge.fci_URL pull)] ])).
Proof.
  intros HR HF Hh Hb Hd. rewrite run_unfold, HR, HF.
  unfold update_path.
  assert (Hnil : compute_updates env cmd pull (sc_branch ctx) (sc_commitHash ctx) = [])
    by (by apply compute_updates_nil).
  rewrite Hnil. clear. unfold_monad.
  destruct (NoPublish cmd); cbn; (case_decide; [|done]); cbn; rewrite <- ?app_assoc; done.
Qed.

Lemma submit_up_to_date_witness :
  let env := Cases.submit_env_on (Cases.forge_with Cases.change_current) in
  let cmd := Scenario.submit_cmd false false in
  let w := Scenario.submit_world (Some Scenario.recorded7) in
  let w1 := snd (resolve env cmd (Scenario.git "feat-a") w) in
  run env Scenario.no_prompt cmd (Scenario.git "feat-a") w =
    (Ok tt,
     mkWorld (store w1)
       (trace w1 ++
          [ EvLog Info "CR %v is up-to-date: %s"
              [AStr "#7"; AStr "https://forge.example/7"] ])).
Proof.
  cbv zeta.
  set (env := Cases.submit_env_on (Cases.forge_with Cases.change_current)).
  set (cmd := Scenario.submit_cmd false false).
  set (w := Scenario.submit_world (Some Scenario.recorded7)).
  set (ctx :=
    {| sc_name := "feat-a";
       sc_branch := {| lb_Base := "main"; lb_BaseHash := "C0"; lb_UpstreamBranch := "";
                       lb_Change := Some Scenario.recorded7 |};
       sc_commitHash := "H1"; sc_upstreamBranch := "feat-a"; sc_remote := "origin";
       sc_remoteRepo := Cases.forge_with Cases.change_current |}).
  assert (H1 : resolve env cmd (Scenario.git "feat-a") w
               = (Ok ctx, snd (resolve env cmd (Scenario.git "feat-a") w)))
    by (vm_compute; reflexivity).
  assert (H2 : find_existing env (sc_remoteRepo ctx) (sc_name ctx) (sc_branch ctx)
                 (sc_upstreamBranch ctx) (snd (resolve env cmd (Scenario.git "feat-a") w))
               = (Ok (Some Cases.change_current),
                  snd (resolve env cmd (Scenario.git "feat-a") w)))
    by (vm_compute; reflexivity).
  apply (submit_up_to_date env Scenario.no_prompt cmd (Scenario.git "feat-a") w ctx _
           Cases.change_current _ H1 H2 eq_refl eq_refl).
  intros d Hd. discriminate Hd.
Defined.

End SubmitRefusals.

(** ** Preparing and publishing *)

Section PreparePublish.
Import SpiceState BranchSubmit.

Ltac unfold_submit :=
  unfold with_store, set_session, session_remote, session_remoteRepo in *;
  unfold_monad.

Ltac submit_step :=
  first [ emits_step
        | lazymatch goal with
          | |- emits _ (with_store _ _) => apply emits_with_store; exact I
          | |- emits _ (set_session _) => apply emits_set_session
          end ].

Lemma bind_Ok {S A B} (m : M (S:=S) A) (k : A -> M B) w b w' :
  bind m k w = (Ok b, w') ->
  exists a w1, m w = (Ok a, w1) /\ k a w1 = (Ok b, w').
Proof.
  unfold bind. destruct (m w) as [[a|e] w1]; [eauto|discriminate].
Qed.

Lemma preparePublish_result env opts cmd name repo rr base w p w' :
  preparePublish env opts cmd name repo rr base w = (Ok p, w') ->
  pb_head p = name /\ pb_base p = base /\
  SpiceState.pb_Name (pb_Prepared p) = name /\
  is_blank (pb_Subject (pb_Prepared p)) = false /\
  (exists msgs, Git.CommitMessageRange repo name base = Ok msgs /\ msgs <> []) /\
  exists pre post,
    trace w' = trace w ++ pre ++ EvSavePreparedBranch (pb_Prepared p) :: post /\
    Forall is_prepare pre /\ Forall is_log post.
Proof.
  unfold preparePublish. intros H.
  apply bind_Ok in H as (tmpls & w1 & H1 & H).
  assert (Hem1 : emits (S:=SubmitState) is_prepare
            (match Forge.ListChangeTemplates rr with
             | Err _ => let* _ := logf Warn "Could not list change templates" [] in ret []
             | Ok templates => ret templates
             end)) by (repeat submit_step).
  destruct (Hem1 _ _ _ H1) as (l1 & E1 & HP1). clear H1 Hem1.
  apply bind_Ok in H as (msgs & w2 & H2 & H). unfold lift in H2.
  injection H2 as Hmsgs <-.
  case_decide as Hlen; [unfold fail in H; discriminate|].
  destruct (default_title_body msgs) as [defaultTitle defaultBody].
  repeat match type of H with
         | context [let '(_, _) := ?x in _] => destruct x
         end.
  apply bind_Ok in H as ([[title' body'] draft'] & w3 & H3 & H).
  assert (E3 : exists l3, trace w3 = trace w1 ++ l3 /\ Forall is_prepare l3).
  { destruct (_ && _).
    - exact (prompt_fields_emits _ _ _ _ _ _ _ _ _ _ H3).
    - unfold ret in H3. assert (w3 = w1) as -> by congruence.
      exists []. split; [by rewrite app_nil_r|constructor]. }
  destruct E3 as (l3 & E3 & HP3). clear H3.
  destruct (is_blank title') eqn:Hblank; [unfold fail in H; discriminate|].
  unfold_submit. injection H as <- <-. cbn.
  repeat split; try done.
  - exists msgs. split.
    + unfold wrap in Hmsgs. destruct (Git.CommitMessageRange repo name base); congruence.
    + intros ->. done.
  - exists (l1 ++ l3), []. rewrite E3, E1, <- !app_assoc.
    split; [done|]. split; [by apply Forall_app|constructor].
Qed.

(** X20. [preparePublish] fails with "list commits" when the commits cannot be
    listed, with "no commits to submit" when there is none, and with
    [errNoPrompt] when the title or the body is missing, [--fill] is not given
    and prompting is off.  In these cases the store is unchanged and the only
    possible event is the warning about the change templates. *)
Theorem preparePublish_refuses env opts cmd name repo rr base w :
  let out := preparePublish env opts cmd name repo rr base w in
  let warned :=
    match Forge.ListChangeTemplates rr with
    | Err _ => [EvLog Warn "Could not list change templates" []]
    | Ok _ => []
    end in
  ((forall e, Git.CommitMessageRange repo name base = Err e ->
      fst out = Err (Wrapf "list commits: %w" [] e)) /\
   (Git.CommitMessageRange repo name base = Ok [] ->
      fst out = Err (Errorf "no commits to submit" [])) /\
   (forall msgs, Git.CommitMessageRange repo name base = Ok msgs -> msgs <> [] ->
      Fill cmd = false -> Prompt opts = false ->
      Title cmd = "" \/ Body cmd = "" ->
      fst out = Err (Wrapf "prompt for commit information: %w" [] ErrNoPrompt))) /\
  ((exists e, Git.CommitMessageRange repo name base = Err e) \/
   Git.CommitMessageRange repo name base = Ok [] \/
   (Fill cmd = false /\ Prompt opts = false /\ (Title cmd = "" \/ Body cmd = "")) ->
   store (snd out) = store w /\ trace (snd out) = trace w ++ warned).
Proof.
  cbv zeta. unfold preparePublish, prompt_fields. unfold_submit.
  split; [split; [|split]|].
  - intros e ->. destruct (Forge.ListChangeTemplates rr); done.
  - intros ->. destruct (Forge.ListChangeTemplates rr); done.
  - intros msgs -> Hne HF HP Hor. rewrite HF, HP.
    destruct (Forge.ListChangeTemplates rr); cbn.
    all: case_decide as Hlen; [by destruct msgs|].
    all: destruct (default_title_body msgs) as [dt db].
    all: destruct Hor as [-> | ->]; cbn.
    all: repeat (case_decide; cbn); try done.
    all: destruct (Draft cmd); cbn; try done.
  - intros [[e ->]|[->|(HF & HP & Hor)]].
    + destruct (Forge.ListChangeTemplates rr); cbn; rewrite ?app_nil_r; done.
    + destruct (Forge.ListChangeTemplates rr); cbn; rewrite ?app_nil_r; done.
    + rewrite HF, HP.
      destruct (Forge.ListChangeTemplates rr), (Git.CommitMessageRange repo name base)
        as [msgs|]; cbn; rewrite ?app_nil_r; try done.
      all: case_decide as Hlen; cbn; rewrite ?app_nil_r; [done|].
      all: destruct (default_title_body msgs) as [dt db].
      all: destruct Hor as [-> | ->]; cbn.
      all: repeat (case_decide; cbn); rewrite ?app_nil_r; try done.
      all: destruct (Draft cmd); cbn; rewrite ?app_nil_r; try done.
Qed.

Lemma preparePublish_refuses_witness :
  let out := preparePublish (Scenario.submit_env []) Scenario.no_prompt
               (Scenario.submit_cmd false false) "feat-a" (Scenario.git "feat-a")
               (Scenario.forge []) "main" (Scenario.submit_world None) in
  fst out = Err (Wrapf "prompt for commit information: %w" [] ErrNoPrompt) /\
  store (snd out) = store (Scenario.submit_world None) /\
  trace (snd out) = [].
Proof.
  cbv zeta.
  destruct (preparePublish_refuses (Scenario.submit_env []) Scenario.no_prompt
              (Scenario.submit_cmd false false) "feat-a" (Scenario.git "feat-a")
              (Scenario.forge []) "main" (Scenario.submit_world None))
    as ((_ & _ & H1) & H2).
  split.
  - apply (H1 [ {| Git.cm_Subject := "add feature"; Git.cm_Body := "details" |} ]);
      [reflexivity|discriminate|reflexivity|reflexivity|left; reflexivity].
  - apply H2. right. right. split; [reflexivity|]. split; [reflexivity|]. left. reflexivity.
Defined.



End PreparePublish.

Section PreparedRequest.
Import SpiceState BranchSubmit.

Ltac unfold_submit :=
  unfold with_store, set_session, session_remote, session_remoteRepo in *;
  unfold_monad.




End PreparedRequest.

Section PublishOutcome.
Import SpiceState BranchSubmit.

Ltac unfold_submit :=
  unfold with_store, set_session, session_remote, session_remoteRepo in *;
  unfold_monad.

Ltac submit_step :=
  first [ emits_step
        | lazymatch goal with
          | |- emits _ (with_store _ _) => apply emits_with_store; exact I
          | |- emits _ (set_session _) => apply emits_set_session
          end ].

(** X19. Once [preparePublish] has succeeded, the creation of a change request
    goes as follows.  A failed push is returned and nothing is recorded.  After
    a successful push the effects are: the push, setting the upstream,
    [SubmitChange], the clearing of the prepared branch when [SubmitChange]
    succeeded, and last the deferred store update.  That update carries the
    change exactly when [SubmitChange], [NewChangeMetadata] and
    [MarshalChangeMetadata] all succeeded, which is also when the run succeeds;
    a failure of [SubmitChange] is returned as "create change". *)
Theorem publish_outcome env opts cmd repo rr name branch h up remote w p w0 :
  DryRun cmd = false -> NoPublish cmd = false ->
  preparePublish env opts cmd name repo rr (lb_Base branch) w = (Ok p, w0) ->
  let pushOpts := push_options repo cmd remote h up in
  let out := create_path env opts cmd repo rr name branch h up remote w in
  match Git.Push repo pushOpts with
  | Err e =>
      out = (Err (Wrapf "push branch: %w" [] e),
             mkWorld (store w0) (trace w0 ++ [EvPush pushOpts]))
  | Ok _ =>
      exists evs, trace (snd out) = trace w0 ++ evs /\
        effects evs =
          [ EvPush pushOpts;
            EvSetBranchUpstream name (remote ++ "/" ++ name)%string;
            EvSubmitChange (submit_request p) ] ++
          (if is_Ok (Forge.SubmitChange rr (submit_request p))
           then [EvClearPreparedBranch name] else []) ++
          [ EvUpdateBranch (deferred_request name up (published_change rr p)) ] /\
        (fst out = Ok tt <-> published_change rr p <> None) /\
        (forall e, Forge.SubmitChange rr (submit_request p) = Err e ->
           fst out = Err (Wrapf "create change: %w" [] e))
  end.
Proof.
  intros HD HNP Hprep. cbv zeta.
  destruct (preparePublish_result _ _ _ _ _ _ _ _ _ _ Hprep) as (_ & _ & Hn & _).
  unfold create_path. rewrite HD, HNP. cbn [negb].
  set (pp := preparePublish env opts cmd name repo rr (lb_Base branch)) in *.
  clearbody pp.
  set (pushOpts := push_options repo cmd remote h up). clearbody pushOpts.
  unfold with_deferred_update, after_push, Publish, published_change.
  unfold_submit. rewrite Hprep. cbn.
  destruct (Git.Push repo pushOpts) as [[]|e]; cbn; [|done].
  rewrite Hn.
  destruct (Git.SetBranchUpstream repo name _);
    destruct (Forge.SubmitChange rr (submit_request p)) as [res|]; cbn;
    try (destruct (Forge.NewChangeMetadata rr (Forge.res_ID res)) as [md|]; cbn;
         try (destruct (Forge.MarshalChangeMetadata rr md); cbn)).
  all: match goal with
       | |- context [UpdateBranch ?s ?r] => destruct (UpdateBranch s r) as [[[]|] ?]
       end; cbn.
  all: rewrite <- ?app_assoc; cbn.
  all: eexists; (split; [reflexivity|]); cbn.
  all: split; [reflexivity|]; split; [|intros; congruence].
  all: split; intros; congruence.
Qed.

Lemma publish_outcome_witness :
  let env := Scenario.submit_env [] in
  let cmd := Scenario.submit_cmd false true in
  let w := Scenario.submit_world None in
  let ctx := Scenario.context None [] in
  let w0 := snd (preparePublish env Scenario.no_prompt cmd "feat-a" (Scenario.git "feat-a")
                   (sc_remoteRepo ctx) "main" w) in
  let out := create_path env Scenario.no_prompt cmd (Scenario.git "feat-a")
               (sc_remoteRepo ctx) "feat-a" (sc_branch ctx) "H1" "feat-a" "origin" w in
  preparePublish env Scenario.no_prompt cmd "feat-a" (Scenario.git "feat-a")
    (sc_remoteRepo ctx) "main" w = (Ok Cases.prepared_a, w0) /\
  exists evs, trace (snd out) = trace w0 ++ evs /\
    effects evs =
      [ EvPush {| Git.po_Remote := "origin"; Git.po_Refspec := "H1:refs/heads/feat-a";
                  Git.po_Force := false; Git.po_ForceWithLease := "feat-a:H0" |};
        EvSetBranchUpstream "feat-a" "origin/feat-a";
        EvSubmitChange (submit_request Cases.prepared_a);
        EvClearPreparedBranch "feat-a";
        EvUpdateBranch (deferred_request "feat-a" "feat-a" (Some ("github", "#8"))) ] /\
    fst out = Ok tt.
Proof.
  cbv zeta.
  set (env := Scenario.submit_env []).
  set (cmd := Scenario.submit_cmd false true).
  set (w := Scenario.submit_world None).
  set (ctx := Scenario.context None []).
  assert (H1 : preparePublish env Scenario.no_prompt cmd "feat-a" (Scenario.git "feat-a")
                 (sc_remoteRepo ctx) (lb_Base (sc_branch ctx)) w
               = (Ok Cases.prepared_a,
                  snd (preparePublish env Scenario.no_prompt cmd "feat-a"
                         (Scenario.git "feat-a") (sc_remoteRepo ctx) "main" w)))
    by (vm_compute; reflexivity).
  split; [exact H1|].
  destruct (publish_outcome env Scenario.no_prompt cmd (Scenario.git "feat-a")
              (sc_remoteRepo ctx) "feat-a" (sc_branch ctx) "H1" "feat-a" "origin" w
              Cases.prepared_a _ eq_refl eq_refl H1)
    as (evs & Ht & He & Hr & _).
  exists evs. split; [exact Ht|]. split; [exact He|].
  apply Hr. discriminate.
Defined.

Lemma keeps_ret {A} (a : A) : keeps_session (ret a).
Proof. intros w r w' [= <- <-]. done. Qed.

Lemma keeps_fail {A} e : keeps_session (fail (A:=A) e).
Proof. intros w r w' [= <- <-]. done. Qed.

Lemma keeps_lift {A} (x : Res A) : keeps_session (lift x).
Proof. intros w r w' [= <- <-]. done. Qed.

Lemma keeps_get_store : keeps_session get_store.
Proof. intros w r w' [= <- <-]. done. Qed.

Lemma keeps_emit ev : keeps_session (emit ev).
Proof. intros w r w' [= <- <-]. done. Qed.

Lemma keeps_bind {A B} (m : M A) (k : A -> M B) :
  keeps_session m -> (forall a, keeps_session (k a)) -> keeps_session (bind m k).
Proof.
  intros Hm Hk w r w'. unfold bind. destruct (m w) as [[a|e] w1] eqn:H1.
  - intros H2. rewrite (Hk _ _ _ _ H2). exact (Hm _ _ _ H1).
  - intros [= <- <-]. exact (Hm _ _ _ H1).
Qed.

Lemma keeps_catch {A} (m : M A) : keeps_session m -> keeps_session (catch m).
Proof.
  intros Hm w r w'. unfold catch. destruct (m w) as [r1 w1] eqn:H1.
  intros [= <- <-]. exact (Hm _ _ _ H1).
Qed.

Lemma keeps_with_store {A} ev (f : Store -> Res A * Store) :
  keeps_session (with_store ev f).
Proof.
  intros w r w'. unfold with_store, on_store. destruct (f _) as [r1 s1].
  intros [= <- <-]. done.
Qed.

Ltac keeps_step :=
  cbv beta;
  lazymatch goal with
  | |- keeps_session (bind _ _) => apply keeps_bind; [|intros]
  | |- keeps_session (ret _) => apply keeps_ret
  | |- keeps_session (fail _) => apply keeps_fail
  | |- keeps_session (lift _) => apply keeps_lift
  | |- keeps_session get_store => apply keeps_get_store
  | |- keeps_session (logf _ _ _) => apply keeps_emit
  | |- keeps_session (emit _) => apply keeps_emit
  | |- keeps_session (call _ _) => unfold call
  | |- keeps_session (catch _) => apply keeps_catch
  | |- keeps_session (with_store _ _) => apply keeps_with_store
  | |- keeps_session (match ?x with _ => _ end) => destruct x
  end.

Lemma keeps_log_updates updates : keeps_session (log_updates updates).
Proof. induction updates; cbn; repeat keeps_step. done. Qed.

Lemma keeps_with_deferred_update name up body :
  keeps_session body -> keeps_session (with_deferred_update name up body).
Proof.
  intros Hb w r w'. unfold with_deferred_update, with_store, on_store.
  destruct (body w) as [r1 w1] eqn:H1. cbn.
  destruct (UpdateBranch _ _) as [[] s2]; cbn; intros [= <- <-]; cbn;
    exact (Hb _ _ _ H1).
Qed.

Lemma keeps_create_path env opts cmd repo rr name branch h up remote :
  keeps_session (create_path env opts cmd repo rr name branch h up remote).
Proof.
  unfold create_path.
  repeat first
    [ apply keeps_with_deferred_update; unfold after_push, Publish
    | progress unfold preparePublish, prompt_fields
    | keeps_step ].
Qed.

Lemma keeps_update_path env cmd repo rr name branch h up remote pull :
  keeps_session (update_path env cmd repo rr name branch h up remote pull).
Proof.
  unfold update_path. repeat first [apply keeps_log_updates | keeps_step].
Qed.

Lemma keeps_find_existing env rr name branch up :
  keeps_session (find_existing env rr name branch up).
Proof. unfold find_existing. repeat keeps_step. Qed.

Lemma resolve_branches env cmd repo w r w1 :
  resolve env cmd repo w = (r, w1) ->
  (forall ctx, r = Ok ctx ->
     ss_branches (st_session (store w1)) =
       ss_branches (st_session (store w)) ++
       (if negb (DryRun cmd) && negb (NoPublish cmd) then [sc_name ctx] else [])) /\
  (negb (DryRun cmd) && negb (NoPublish cmd) = false ->
   ss_branches (st_session (store w1)) = ss_branches (st_session (store w))).
Proof.
  unfold resolve. unfold_submit. intros H.
  repeat (case_match; simplify_eq/=).
  all: split; [intros ctx ?; simplify_eq/=; rewrite ?app_nil_r; done|].
  all: intros; simplify_eq/=; done.
Qed.

Lemma run_branches env opts cmd repo w w' :
  run env opts cmd repo w = (Ok tt, w') ->
  exists name, target_branch repo cmd = Ok name /\
    ss_branches (st_session (store w')) =
      ss_branches (st_session (store w)) ++
      (if negb (DryRun cmd) && negb (NoPublish cmd) then [name] else []).
Proof.
  rewrite run_unfold.
  destruct (resolve env cmd repo w) as [[ctx|] w1] eqn:HR; [|discriminate].
  destruct (find_existing _ _ _ _ _ w1) as [[found|] w2] eqn:HF; [|discriminate].
  intros H.
  destruct (resolve_spec _ _ _ _ _ _ HR) as (_ & evs & _ & _ & Hctx).
  destruct (Hctx ctx eq_refl) as (_ & Hname & _).
  exists (sc_name ctx). split; [done|].
  destruct (resolve_branches _ _ _ _ _ _ HR) as [Hb _].
  rewrite <- (Hb ctx eq_refl).
  rewrite <- (keeps_find_existing _ _ _ _ _ _ _ _ HF).
  destruct found as [pull|].
  - by rewrite (keeps_update_path _ _ _ _ _ _ _ _ _ _ _ _ _ H).
  - by rewrite (keeps_create_path _ _ _ _ _ _ _ _ _ _ _ _ _ H).
Qed.

(** X23. [branchSubmitCmd.Run] returns the error of [run], if any, without
    syncing; with [--dry-run] it returns after [run]; otherwise it calls
    [syncStackComments] last, with exactly the submitted branch, or with no
    branch when [--no-publish] is given, and returns its result. *)
Theorem Run_syncs_comments env opts cmd repo w name :
  openRepo env = Ok repo ->
  target_branch repo cmd = Ok name ->
  let out :=
    run env opts cmd repo
      (mkWorld {| st_store := st_store (store w); st_session := zero_session |}
         (trace w)) in
  match fst out with
  | Err e => Run env opts cmd w = (Err e, snd out)
  | Ok _ =>
      if DryRun cmd then Run env opts cmd w = (Ok tt, snd out)
      else
        let branches := if NoPublish cmd then [] else [name] in
        ss_branches (st_session (store (snd out))) = branches /\
        Run env opts cmd w =
          (syncStackComments env branches,
           mkWorld (store (snd out))
             (trace (snd out) ++ [EvSyncStackComments branches]))
  end.
Proof.
  intros Hopen Hname. cbv zeta.
  destruct (run env opts cmd repo _) as [[[]|e] w1] eqn:Hrun; cbn [fst snd].
  2:{ unfold Run. unfold_submit. rewrite Hopen. cbn. by rewrite Hrun. }
  destruct (run_branches _ _ _ _ _ _ Hrun) as (name' & Hname' & Hb).
  rewrite Hname in Hname'. injection Hname' as <-. cbn in Hb.
  unfold Run. unfold_submit. rewrite Hopen. cbn. rewrite Hrun.
  destruct (DryRun cmd); cbn; [done|].
  cbn in Hb. rewrite Hb. destruct (NoPublish cmd); cbn; done.
Qed.

Lemma Run_syncs_comments_witness :
  let env := Scenario.submit_env [] in
  let cmd := Scenario.submit_cmd false true in
  let w := Scenario.submit_world None in
  let out := run env Scenario.no_prompt cmd (Scenario.git "feat-a") w in
  ss_branches (st_session (store (snd out))) = ["feat-a"] /\
  Run env Scenario.no_prompt cmd w =
    (Ok tt, mkWorld (store (snd out)) (trace (snd out) ++ [EvSyncStackComments ["feat-a"]])).
Proof.
  cbv zeta.
  assert (H1 : target_branch (Scenario.git "feat-a") (Scenario.submit_cmd false true)
               = Ok "feat-a") by (vm_compute; reflexivity).
  pose proof (Run_syncs_comments (Scenario.submit_env []) Scenario.no_prompt
                (Scenario.submit_cmd false true) (Scenario.git "feat-a")
                (Scenario.submit_world None) "feat-a" eq_refl H1) as H.
  cbv zeta in H.
  assert (H2 : fst (run (Scenario.submit_env []) Scenario.no_prompt
                      (Scenario.submit_cmd false true) (Scenario.git "feat-a")
                      (Scenario.submit_world None)) = Ok tt)
    by (vm_compute; reflexivity).
  change (mkWorld {| st_store := st_store (store (Scenario.submit_world None));
                     st_session := zero_session |}
            (trace (Scenario.submit_world None)))
    with (Scenario.submit_world None) in H.
  rewrite H2 in H. exact H.
Defined.

End PublishOutcome.

Section NoPublish.
Import SpiceState BranchSubmit.

Ltac unfold_submit :=
  unfold with_store, set_session, session_remote, session_remoteRepo in *;
  unfold_monad.

Ltac submit_step :=
  first [ emits_step
        | lazymatch goal with
          | |- emits _ (with_store _ _) => apply emits_with_store; exact I
          | |- emits _ (set_session _) => apply emits_set_session
          end ].

(** X18. With [--no-publish] and without [--dry-run], a branch without a change
    request is pushed: when the push fails, that is the error and the push is the
    only call; when it succeeds, the run succeeds, sets the upstream, and the
    deferred store update records the upstream branch and no change. *)
Theorem no_publish_pushes_and_records env opts cmd repo rr name branch h up remote w :
  DryRun cmd = false -> NoPublish cmd = true ->
  let pushOpts := push_options repo cmd remote h up in
  let out := create_path env opts cmd repo rr name branch h up remote w in
  match Git.Push repo pushOpts with
  | Err e =>
      out = (Err (Wrapf "push branch: %w" [] e),
             mkWorld (store w) (trace w ++ [EvPush pushOpts]))
  | Ok _ =>
      fst out = Ok tt /\
      st_store (store (snd out)) =
        snd (UpdateBranch (st_store (store w)) (deferred_request name up None)) /\
      exists evs, trace (snd out) = trace w ++ evs /\
        effects evs =
          [ EvPush pushOpts;
            EvSetBranchUpstream name (remote ++ "/" ++ name)%string;
            EvUpdateBranch (deferred_request name up None) ]
  end.
Proof.
  intros HD HNP. cbv zeta. unfold create_path. rewrite HD, HNP. cbn [negb].
  set (pushOpts := push_options repo cmd remote h up). clearbody pushOpts.
  unfold with_deferred_update, after_push.
  unfold_submit.
  destruct (Git.Push repo pushOpts) as [[]|e]; cbn; [|done].
  destruct (Git.SetBranchUpstream repo name _); cbn.
  all: destruct (UpdateBranch _ _) as [[[]|] ?]; cbn.
  all: split; [done|]; split; [done|].
  all: rewrite <- ?app_assoc; cbn; eexists; (split; [reflexivity|]); reflexivity.
Qed.

Lemma no_publish_pushes_and_records_witness :
  let w := Scenario.submit_world None in
  let ctx := Scenario.context None [] in
  let out := create_path (Scenario.submit_env []) Scenario.no_prompt Cases.no_publish_cmd
               (Scenario.git "feat-a") (sc_remoteRepo ctx) "feat-a" (sc_branch ctx)
               "H1" "feat-a" "origin" w in
  fst out = Ok tt /\
  exists evs, trace (snd out) = trace w ++ evs /\
    effects evs =
      [ EvPush {| Git.po_Remote := "origin"; Git.po_Refspec := "H1:refs/heads/feat-a";
                  Git.po_Force := false; Git.po_ForceWithLease := "feat-a:H0" |};
        EvSetBranchUpstream "feat-a" "origin/feat-a";
        EvUpdateBranch (deferred_request "feat-a" "feat-a" None) ].
Proof.
  cbv zeta.
  destruct (no_publish_pushes_and_records (Scenario.submit_env []) Scenario.no_prompt
              Cases.no_publish_cmd (Scenario.git "feat-a")
              (sc_remoteRepo (Scenario.context None [])) "feat-a"
              (sc_branch (Scenario.context None [])) "H1" "feat-a" "origin"
              (Scenario.submit_world None) eq_refl eq_refl)
    as (H1 & _ & H2).
  split; [exact H1|exact H2].
Defined.

(** X17. With [--no-publish], a run of [branchSubmitCmd.run] never calls
    [SubmitChange] and never saves or clears a prepared branch, whatever the
    state of the branch; and it does not add the branch to the branches of the
    session. *)
Theorem no_publish_never_submits env opts cmd repo w r w' :
  NoPublish cmd = true ->
  run env opts cmd repo w = (r, w') ->
  ss_branches (st_session (store w')) = ss_branches (st_session (store w)) /\
  exists evs, trace w' = trace w ++ evs /\ Forall never_publishes evs.
Proof.
  intros HNP. rewrite run_unfold.
  assert (Hlog : forall l, Forall is_log l -> Forall never_publishes l).
  { intros l Hl. eapply Forall_impl; [exact Hl|]. by intros []. }
  destruct (resolve env cmd repo w) as [[ctx|e] w1] eqn:HR.
  2:{ intros [= <- <-].
      destruct (resolve_branches _ _ _ _ _ _ HR) as [_ Hb].
      destruct (resolve_spec _ _ _ _ _ _ HR) as (_ & evs & Ht & Hlogs & _).
      split; [apply Hb; rewrite HNP; by destruct (DryRun cmd)|].
      exists evs. split; [done|]. by apply Hlog. }
  destruct (resolve_branches _ _ _ _ _ _ HR) as [_ Hb].
  assert (Hb1 : ss_branches (st_session (store w1)) = ss_branches (st_session (store w)))
    by (apply Hb; rewrite HNP; by destruct (DryRun cmd)).
  destruct (resolve_spec _ _ _ _ _ _ HR) as (_ & evs & Ht & Hlogs & _). clear Hb HR.
  destruct (find_existing _ _ _ _ _ w1) as [[found|e] w2] eqn:HF.
  2:{ intros [= <- <-].
      rewrite (keeps_find_existing _ _ _ _ _ _ _ _ HF). split; [done|].
      apply find_existing_spec in HF as [(-> & _)|(c & md & cm & _ & _ & _ & Ht2 & _)].
      - exists evs. split; [done|]. by apply Hlog.
      - eexists. rewrite Ht2, Ht, <- app_assoc. split; [done|].
        apply Forall_app. split; [by apply Hlog|]. by repeat constructor. }
  assert (Hf : exists evs2, trace w2 = trace w ++ evs2 /\ Forall never_publishes evs2).
  { apply find_existing_spec in HF as [(-> & _)|(c & md & cm & _ & _ & _ & Ht2 & _)].
    - exists evs. split; [done|]. by apply Hlog.
    - eexists. rewrite Ht2, Ht, <- app_assoc. split; [done|].
      apply Forall_app. split; [by apply Hlog|]. by repeat constructor. }
  destruct Hf as (evs2 & Ht2 & Hev2).
  assert (Hb2 : ss_branches (st_session (store w2)) = ss_branches (st_session (store w)))
    by (by rewrite (keeps_find_existing _ _ _ _ _ _ _ _ HF)).
  clear HF Ht Hlogs Hb1.
  destruct found as [pull|]; intros H.
  - rewrite (keeps_update_path _ _ _ _ _ _ _ _ _ _ _ _ _ H). split; [done|].
    destruct (update_path_emits _ _ _ _ _ _ _ _ _ _ _ _ _ H) as (evs3 & Ht3 & Hev3).
    exists (evs2 ++ evs3). rewrite Ht3, Ht2, <- app_assoc. split; [done|].
    apply Forall_app. split; [done|].
    eapply Forall_impl; [exact Hev3|]. by intros [].
  - rewrite (keeps_create_path _ _ _ _ _ _ _ _ _ _ _ _ _ H). split; [done|].
    destruct (DryRun cmd) eqn:HD.
    + destruct (create_path_dry env opts cmd repo (sc_remoteRepo ctx) (sc_name ctx)
                  (sc_branch ctx) (sc_commitHash ctx) (sc_upstreamBranch ctx)
                  (sc_remote ctx) w2 HD) as (ev & Hev & Hc).
      rewrite Hc in H. injection H as <- <-. cbn.
      exists (evs2 ++ [ev]). rewrite Ht2, <- app_assoc. split; [done|].
      apply Forall_app. split; [done|]. constructor; [by destruct ev|constructor].
    + revert H. unfold create_path. rewrite HD, HNP. cbn [negb].
      unfold with_deferred_update, after_push. unfold_submit.
      destruct (Git.Push repo _) as [[]|]; cbn.
      2:{ intros [= <- <-]. cbn. eexists. rewrite Ht2, <- app_assoc.
          split; [done|]. apply Forall_app. split; [done|]. by repeat constructor. }
      destruct (Git.SetBranchUpstream repo _ _); cbn.
      all: destruct (UpdateBranch _ _) as [[[]|] ?]; cbn.
      all: intros [= <- <-]; cbn; rewrite <- ?app_assoc; cbn.
      all: eexists; rewrite Ht2, <- app_assoc; (split; [done|]).
      all: apply Forall_app; split; [done|]; by repeat constructor.
Qed.

Lemma no_publish_never_submits_witness :
  let w := Scenario.submit_world None in
  let out := run (Scenario.submit_env []) Scenario.no_prompt Cases.no_publish_cmd
               (Scenario.git "feat-a") w in
  NoPublish Cases.no_publish_cmd = true /\
  ss_branches (st_session (store (snd out))) = ss_branches (st_session (store w)) /\
  exists evs, trace (snd out) = trace w ++ evs /\ Forall never_publishes evs.
Proof.
  cbv zeta. split; [reflexivity|].
  exact (no_publish_never_submits (Scenario.submit_env []) Scenario.no_prompt
           Cases.no_publish_cmd (Scenario.git "feat-a") (Scenario.submit_world None)
           _ _ eq_refl (surjective_pairing _)).
Defined.

End NoPublish.

Section DefaultBody.
Import BranchSubmit.

Lemma concat_cons_app sep a b l :
  String.concat sep ((a ++ sep ++ b)%string :: l)
  = (a ++ sep ++ String.concat sep (b :: l))%string.
Proof.
  destruct l as [|c l].
  - by rewrite !concat_one.
  - rewrite !concat_cons2. by rewrite <- !string_app_assoc.
Qed.

Lemma concat_messages_acc msgs : forall acc, acc <> "" ->
  concat_messages acc msgs = String.concat nl2 (acc :: map commit_text msgs).
Proof.
  induction msgs as [|m msgs IH]; intros acc Hacc; [done|].
  cbn [concat_messages map]. rewrite (decide_False (P := acc = "")) by done.
  assert (Hstep :
    (if decide (Git.cm_Body m <> "")
     then (((acc ++ nl2) ++ Git.cm_Subject m) ++ nl2 ++ Git.cm_Body m)%string
     else ((acc ++ nl2) ++ Git.cm_Subject m)%string)
    = (acc ++ nl2 ++ commit_text m)%string).
  { unfold commit_text.
    destruct (decide (Git.cm_Body m = "")) as [Hb|Hb].
    - rewrite decide_False by (intros ?; done). by rewrite string_app_assoc.
    - rewrite decide_True by done. by rewrite !string_app_assoc. }
  rewrite Hstep. rewrite IH.
  - by rewrite concat_cons_app.
  - destruct acc; [done|]. by rewrite string_app_cons.
Qed.

(** X24. The default title and body of a change request.  For one commit they
    are its subject and its body.  For several commits, the oldest of which has
    a subject or a body, the title is the subject of the oldest commit and the
    body is the texts of the commits, oldest first, separated by empty lines,
    where the text of a commit is its subject, followed by an empty line and its
    body when it has one. *)
Theorem default_title_body_spec msgs :
  (forall msg, msgs = [msg] ->
     default_title_body msgs = (Git.cm_Subject msg, Git.cm_Body msg)) /\
  (forall oldest, 2 <= List.length msgs -> last msgs = Some oldest ->
     commit_text oldest <> "" ->
     default_title_body msgs =
       (Git.cm_Subject oldest, String.concat nl2 (map commit_text (rev msgs)))).
Proof.
  split; [by intros msg ->|].
  intros oldest Hlen Hlast Htext.
  assert (Hdef : default_title_body msgs =
                 (Git.cm_Subject oldest, concat_messages "" (rev msgs))).
  { unfold default_title_body. rewrite Hlast.
    destruct msgs as [|m1 [|m2 rest]]; cbn in Hlen; [lia|lia|done]. }
  rewrite Hdef. f_equal.
  apply last_Some in Hlast as [l' ->].
  rewrite rev_app_distr. cbn [rev app concat_messages map].
  rewrite (decide_True (P := "" = "")) by done.
  rewrite string_app_nil_l.
  assert (Hfirst :
    (if decide (Git.cm_Body oldest <> "")
     then (Git.cm_Subject oldest ++ nl2 ++ Git.cm_Body oldest)%string
     else Git.cm_Subject oldest) = commit_text oldest).
  { unfold commit_text. destruct (decide (Git.cm_Body oldest = "")).
    - by rewrite decide_False by (intros ?; done).
    - by rewrite decide_True. }
  rewrite Hfirst. by apply concat_messages_acc.
Qed.

Lemma default_title_body_spec_witness :
  default_title_body Cases.two_commits =
    ("add feature",
     String.concat nl2 ["add feature" ++ nl2 ++ "details"; "fix typo"]%string).
Proof.
  apply (proj2 (default_title_body_spec Cases.two_commits)
           {| Git.cm_Subject := "add feature"; Git.cm_Body := "details" |}).
  - cbn. lia.
  - reflexivity.
  - vm_compute. discriminate.
Defined.

End DefaultBody.
